(** * DBOperator: the navigation-generator database layer

    A shallow embedding of
    [modules/tools/navi_generator/backend/database/db_operator.cc]
    together with a model of the SQLite driver it talks to, and the
    properties of the component proved on that embedding.

    Conventions.
    - [std::uint64_t], [std::uint8_t], [std::size_t] and [int] are values in
      [Z]; every place where the C++ arithmetic can wrap is written with an
      explicit [wrap64], [wrap8] or [wrap_int].
    - an SQL text is kept as a small syntax tree ([Statement], [Query]); the
      SQL string of the source is quoted next to each use.
    - [AERROR] logging and the [GetLastErrorMsg] calls that feed it do not
      influence any result and are left out.
    - output pointers ([T* const]) are modelled by passing the pointee in and
      returning its final value; [CHECK_NOTNULL] therefore always passes. *)

From Stdlib Require Import ZArith Lia Ascii DecimalString DecimalZ DecimalPos.
From stdpp Require Import base gmap strings list fin_maps.

Local Open Scope Z_scope.

(** ** Machine integers *)

Definition wrap64 (z : Z) : Z := z mod 2 ^ 64.
Definition wrap8 (z : Z) : Z := z mod 2 ^ 8.
(** [int] is a signed 32-bit integer. *)
Definition wrap_int (z : Z) : Z := (z + 2 ^ 31) mod 2 ^ 32 - 2 ^ 31.

Definition is_uint64 (z : Z) : Prop := 0 <= z < 2 ^ 64.
Definition is_uint8 (z : Z) : Prop := 0 <= z < 2 ^ 8.

(** ** Values held in the database *)

Inductive SqliteValue : Type :=
| VNull
| VInt (n : Z)
| VText (s : string)
| VBlob (b : list Byte.byte).

(** The storage classes reported by [SQLiteDataReader::GetDataType]; the
    source only ever tests for [kSqliteDataTypeNull]. *)
Inductive SqliteDataType : Type :=
| kSqliteDataTypeInteger
| kSqliteDataTypeText
| kSqliteDataTypeBlob
| kSqliteDataTypeNull.

Definition is_null (t : SqliteDataType) : bool :=
  match t with kSqliteDataTypeNull => true | _ => false end.

#[global] Instance byte_eq_dec : EqDecision Byte.byte := Byte.byte_eq_dec.

Definition byte_list_eqb (a b : list Byte.byte) : bool :=
  bool_decide (a = b).

(** SQL equality [=]: a NULL operand never compares equal. *)
Definition sql_eqb (a b : SqliteValue) : bool :=
  match a, b with
  | VInt x, VInt y => x =? y
  | VText x, VText y => String.eqb x y
  | VBlob x, VBlob y => byte_list_eqb x y
  | _, _ => false
  end.

(** The declared type of a column, as written in a CREATE TABLE. *)
Inductive ColumnType : Type :=
| TEXT
| INTEGER
| BLOB.

(** The text SQLite makes of an integer: its decimal digits, with a minus
    sign when negative. *)
Definition decimal (n : Z) : string := NilZero.string_of_int (Z.to_int n).

(** What a column of declared type [ty] holds for a value bound to it: a
    TEXT column turns an integer into its decimal text. (Texts bound to
    INTEGER columns would be converted the other way; the component binds
    none.) *)
Definition stored_as (ty : ColumnType) (v : SqliteValue) : SqliteValue :=
  match ty, v with
  | TEXT, VInt n => VText (decimal n)
  | _, _ => v
  end.

(** [memcmp] order on blobs. *)
Fixpoint bytes_leb (a b : list Byte.byte) : bool :=
  match a, b with
  | [], _ => true
  | _ :: _, [] => false
  | x :: a', y :: b' =>
      match N.compare (Byte.to_N x) (Byte.to_N y) with
      | Lt => true
      | Gt => false
      | Eq => bytes_leb a' b'
      end
  end.

(** SQLite's order of stored values: NULL first, then integers by value,
    then texts byte by byte (so that ["10"] is below ["9"]), then blobs. *)
Definition sql_leb (a b : SqliteValue) : bool :=
  match a, b with
  | VNull, _ => true
  | _, VNull => false
  | VInt x, VInt y => x <=? y
  | VInt _, _ => true
  | _, VInt _ => false
  | VText x, VText y => String.leb x y
  | VText _, VBlob _ => true
  | VBlob _, VText _ => false
  | VBlob x, VBlob y => bytes_leb x y
  end.

(** SQL [max()] over a column of declared type [ty]: NULLs are skipped, the
    empty maximum is NULL, and the values are compared as the column stores
    them. Over a TEXT column the maximum of the integers 9 and 10 is
    therefore 9. *)
Definition sql_max (ty : ColumnType) (vs : list SqliteValue) : SqliteValue :=
  fold_right
    (fun v acc =>
       match v, acc with
       | VNull, _ => acc
       | _, VNull => v
       | _, _ => if sql_leb (stored_as ty v) (stored_as ty acc) then acc
                 else v
       end) VNull vs.

(** ** SQL texts *)

(** [REFERENCES table(column) ON UPDATE CASCADE], with or without
    [ON DELETE CASCADE]. *)
Record Reference : Type := mkReference {
  ref_table : string;
  ref_column : string;
  on_update_cascade : bool;
  on_delete_cascade : bool
}.

(** One column of a CREATE TABLE: [[name] TYPE] and its REFERENCES clause,
    if any. *)
Record ColumnDef : Type := mkColumn {
  col_name : string;
  col_type : ColumnType;
  col_references : option Reference
}.

(** Statements run through [ExcuteNonQuery]. Placeholders [?] are numbered
    from 1 in the order in which they occur in the text. *)
Inductive Statement : Type :=
| SqlEmpty
    (* the empty string *)
| SqlCreateTable (name : string) (cols : list ColumnDef) (pk : option string)
    (* CREATE TABLE [name] ([col] TYPE ..., PRIMARY KEY(pk)); *)
| SqlInsert (table : string) (cols : list string)
    (* INSERT INTO table(cols) VALUES(?,...,?) *)
| SqlUpdate (table : string) (set_cols : list string) (where_col : string)
    (* UPDATE table SET c1=?,...,cn=? WHERE where_col=?; *)
| SqlDelete (table : string) (where_col : string).
    (* DELETE FROM table WHERE where_col=?; *)

(** Statements run through [ExcuteQuery]. *)
Inductive Query : Type :=
| SqlSelectCountMaster (pattern : string)
    (* SELECT count( * ) FROM sqlite_master WHERE type='table'
       AND name LIKE 'pattern'; *)
| SqlSelect (cols : option (list string)) (table : string)
            (conds : list (string * Z))
    (* SELECT cols FROM table WHERE c1 = 'v1' AND ...;   None is "*" *)
| SqlSelectMax (col : string) (table : string)
    (* SELECT max(col) from table; *)
| SqlSelectCount (table : string).
    (* SELECT count( * ) from table; *)

(** ** The SQLite driver *)

(** A table: the names and the declared types of its columns, in the order
    of its CREATE TABLE, its primary key, and its rows, oldest first. *)
Record Table : Type := mkTable {
  columns : list string;
  types : list ColumnType;
  primary_key : option string;
  rows : list (list SqliteValue)
}.

Definition set_rows (tb : Table) (rs : list (list SqliteValue)) : Table :=
  mkTable (columns tb) (types tb) (primary_key tb) rs.

(** The declared type of column [i]; a column without one converts
    nothing. *)
Definition column_type (tb : Table) (i : nat) : ColumnType :=
  nth i (types tb) BLOB.

(** One call made to the driver, with its outcome. *)
Inductive DriverCall : Type :=
| CallBegin
| CallCommit
| CallRollback
| CallNonQuery (sql : Statement) (params : gmap nat SqliteValue) (ok : bool)
| CallQuery (sql : Query) (ok : bool).

(** Modelled from the spec: the driver adapter ([SQLiteWrapper], with its
    [SQLiteCommand] and [SQLiteDataReader]) is an external collaborator whose
    code is not part of the component; section 6 of the specification gives
    its interface. The model keeps
    - [tables]: the catalog and the contents of every table,
    - [transaction]: the snapshot taken by [BeginTransaction], if one is open,
    - [faults]: a schedule of storage failures, one flag per coming
      [ExcuteQuery]/[ExcuteNonQuery] call ([true]: that call fails and has no
      effect); an exhausted schedule means no further failure,
    - [calls]: the history of the calls made so far, oldest first.
    Declared column types. A row keeps each value as it was bound. A
    column declared TEXT stores an integer as the text of its decimal
    digits ([stored_as]); the model applies this where the stored form
    changes a result the component sees, which is the order used by
    [max()]: comparing a way id for equality and reading it back through
    the typed getters give on the integer what they give on its decimal
    text.
    Foreign keys. The REFERENCES clauses are kept in the statement but not
    enforced (SQLite's default; enforcement is a setting of the
    connection), hence no cascade happens inside the driver.
    Table names. A statement finds its table by the name as written
    (SQLite folds the case of a name; the component writes each of its
    names in one case only); the catalog query alone compares names with
    LIKE, case folded. *)
Record SQLiteWrapper : Type := mkSQLite {
  tables : gmap string Table;
  transaction : option (gmap string Table);
  faults : list bool;
  calls : list DriverCall
}.

Definition index_of (cols : list string) (c : string) : option nat :=
  fst <$> list_find (fun x => x = c) cols.

Definition column (row : list SqliteValue) (i : nat) : SqliteValue :=
  nth i row VNull.

(** An unbound placeholder is NULL. *)
Definition param (params : gmap nat SqliteValue) (i : nat) : SqliteValue :=
  default VNull (params !! i).

(** ASCII case folding and the [LIKE] operator: [_] matches one character,
    [%] any run of characters, letters match case-insensitively. *)
Definition lower (c : ascii) : ascii :=
  let n := nat_of_ascii c in
  if ((65 <=? n)%nat && (n <=? 90)%nat)%bool then ascii_of_nat (n + 32) else c.

Fixpoint like_chars (p s : list ascii) : bool :=
  match p with
  | [] => match s with [] => true | _ => false end
  | c :: p' =>
      if Ascii.eqb c "%" then
        (fix star (s : list ascii) : bool :=
           like_chars p' s
           || match s with [] => false | _ :: s' => star s' end) s
      else
        match s with
        | [] => false
        | d :: s' =>
            (Ascii.eqb c "_" || Ascii.eqb (lower c) (lower d))
            && like_chars p' s'
        end
  end.

Definition like (pattern name : string) : bool :=
  like_chars (String.list_ascii_of_string pattern)
             (String.list_ascii_of_string name).

(** The row an INSERT builds for a table: each named column takes the value
    of its placeholder, every other column is NULL. *)
Definition insert_row (tb_cols cols : list string)
           (params : gmap nat SqliteValue) : list SqliteValue :=
  map (fun c => match index_of cols c with
                | Some i => param params (S i)
                | None => VNull
                end) tb_cols.

Definition pk_conflict (tb : Table) (row : list SqliteValue) : bool :=
  match primary_key tb with
  | None => false
  | Some k =>
      match index_of (columns tb) k with
      | None => false
      | Some i => existsb (fun r => sql_eqb (column r i) (column row i)) (rows tb)
      end
  end.

Definition all_known (tb_cols cols : list string) : bool :=
  forallb (fun c => bool_decide (is_Some (index_of tb_cols c))) cols.

(** SET c1=?,...: placeholder [first], [first+1], ... go to the named
    columns. *)
Fixpoint update_row (tb_cols set_cols : list string) (first : nat)
         (params : gmap nat SqliteValue) (row : list SqliteValue)
  : list SqliteValue :=
  match set_cols with
  | [] => row
  | c :: rest =>
      let row' := match index_of tb_cols c with
                  | Some i => <[i := param params first]> row
                  | None => row
                  end in
      update_row tb_cols rest (S first) params row'
  end.

(** INSERT into one table: every named column must exist and the primary
    key of the new row must be new; the row goes to the end. *)
Definition insert_into (tb : Table) (cols : list string)
           (params : gmap nat SqliteValue) : option Table :=
  if negb (all_known (columns tb) cols) then None
  else
    let row := insert_row (columns tb) cols params in
    if pk_conflict tb row then None
    else Some (set_rows tb (rows tb ++ [row])).

(** The effect of a statement on the tables; [None] is an SQL error. *)
Definition exec (sql : Statement) (params : gmap nat SqliteValue)
           (tbls : gmap string Table) : option (gmap string Table) :=
  match sql with
  | SqlEmpty => Some tbls
  | SqlCreateTable name cols pk =>
      match tbls !! name with
      | Some _ => None
      | None =>
          Some (<[name := mkTable (map col_name cols) (map col_type cols)
                                  pk []]> tbls)
      end
  | SqlInsert t cols =>
      match tbls !! t with
      | None => None
      | Some tb =>
          match insert_into tb cols params with
          | None => None
          | Some tb' => Some (<[t := tb']> tbls)
          end
      end
  | SqlUpdate t set_cols where_col =>
      match tbls !! t with
      | None => None
      | Some tb =>
          match index_of (columns tb) where_col with
          | None => None
          | Some wi =>
              if negb (all_known (columns tb) set_cols) then None
              else
                let key := param params (S (length set_cols)) in
                let upd row :=
                  if sql_eqb (column row wi) key
                  then update_row (columns tb) set_cols 1 params row
                  else row in
                Some (<[t := set_rows tb (map upd (rows tb))]> tbls)
          end
      end
  | SqlDelete t where_col =>
      match tbls !! t with
      | None => None
      | Some tb =>
          match index_of (columns tb) where_col with
          | None => None
          | Some wi =>
              let keep row := negb (sql_eqb (column row wi) (param params 1)) in
              Some (<[t := set_rows tb (List.filter keep (rows tb))]> tbls)
          end
      end
  end.

Definition cond_holds (tb_cols : list string) (row : list SqliteValue)
           (cond : string * Z) : bool :=
  match index_of tb_cols (fst cond) with
  | Some i => sql_eqb (column row i) (VInt (snd cond))
  | None => false
  end.

Definition project (tb_cols : list string) (cols : option (list string))
           (row : list SqliteValue) : list SqliteValue :=
  match cols with
  | None => row
  | Some cs => map (fun c => match index_of tb_cols c with
                             | Some i => column row i
                             | None => VNull
                             end) cs
  end.

(** The rows a query yields; [None] is an SQL error. *)
Definition eval (q : Query) (tbls : gmap string Table)
  : option (list (list SqliteValue)) :=
  match q with
  | SqlSelectCountMaster pattern =>
      let names := List.filter (like pattern) (map fst (map_to_list tbls)) in
      Some [[VInt (Z.of_nat (length names))]]
  | SqlSelect cols t conds =>
      match tbls !! t with
      | None => None
      | Some tb =>
          if negb (all_known (columns tb) (map fst conds)
                   && all_known (columns tb) (default [] cols)) then None
          else
            let sel row := forallb (cond_holds (columns tb) row) conds in
            Some (map (project (columns tb) cols) (List.filter sel (rows tb)))
      end
  | SqlSelectMax c t =>
      match tbls !! t with
      | None => None
      | Some tb =>
          match index_of (columns tb) c with
          | None => None
          | Some i =>
              Some [[sql_max (column_type tb i)
                             (map (fun r => column r i) (rows tb))]]
          end
      end
  | SqlSelectCount t =>
      match tbls !! t with
      | None => None
      | Some tb => Some [[VInt (Z.of_nat (length (rows tb)))]]
      end
  end.

(** ** Calls into the driver *)

(** A C++ call either returns or leaves by the [std::out_of_range] that
    [std::array::at] throws. *)
Inductive Outcome (A : Type) : Type :=
| Normal (a : A)
| out_of_range.
Arguments Normal {A} a.
Arguments out_of_range {A}.

Definition Op (A : Type) : Type := SQLiteWrapper -> Outcome A * SQLiteWrapper.

Definition ret {A} (a : A) : Op A := fun s => (Normal a, s).
Definition throw {A} : Op A := fun s => (out_of_range, s).
Definition bind {A B} (m : Op A) (k : A -> Op B) : Op B :=
  fun s => match m s with
           | (Normal a, s') => k a s'
           | (out_of_range, s') => (out_of_range, s')
           end.

Notation "'do' x <- m ; k" := (bind m (fun x => k))
  (at level 10, x name, m at level 100, k at level 200,
   format "'[v' 'do'  x  <-  m ; '/' k ']'").

Definition take_fault (s : SQLiteWrapper) : bool * SQLiteWrapper :=
  match faults s with
  | [] => (false, s)
  | b :: fs => (b, mkSQLite (tables s) (transaction s) fs (calls s))
  end.

Definition ExcuteNonQuery (sql : Statement) (params : gmap nat SqliteValue)
  : Op bool :=
  fun s =>
    let '(fault, s1) := take_fault s in
    match (if fault then None else exec sql params (tables s1)) with
    | Some tbls =>
        (Normal true,
         mkSQLite tbls (transaction s1) (faults s1)
                  (calls s1 ++ [CallNonQuery sql params true]))
    | None =>
        (Normal false,
         mkSQLite (tables s1) (transaction s1) (faults s1)
                  (calls s1 ++ [CallNonQuery sql params false]))
    end.

(** [ExcuteQuery(sql, &reader)]: on success the reader holds the result rows
    ([Some rows]); on failure no reader is produced ([None]). *)
Definition ExcuteQuery (q : Query) : Op (option (list (list SqliteValue))) :=
  fun s =>
    let '(fault, s1) := take_fault s in
    let r := if fault then None else eval q (tables s1) in
    (Normal r,
     mkSQLite (tables s1) (transaction s1) (faults s1)
              (calls s1 ++ [CallQuery q (bool_decide (is_Some r))])).

(** A second BEGIN inside an open transaction is an error and changes
    nothing. *)
Definition BeginTransaction : Op unit :=
  fun s =>
    (Normal tt,
     mkSQLite (tables s)
              (match transaction s with
               | None => Some (tables s)
               | Some snap => Some snap
               end)
              (faults s) (calls s ++ [CallBegin])).

Definition CommitTransaction : Op unit :=
  fun s =>
    (Normal tt, mkSQLite (tables s) None (faults s) (calls s ++ [CallCommit])).

Definition RollbackTransaction : Op unit :=
  fun s =>
    (Normal tt,
     mkSQLite (match transaction s with
               | None => tables s
               | Some snap => snap
               end)
              None (faults s) (calls s ++ [CallRollback])).

(** [SQLiteCommand]: a prepared statement with its bound placeholders.
    Bindings stay in place from one execution to the next. *)
Record SQLiteCommand : Type := mkCommand {
  cmd_sql : Statement;
  cmd_params : gmap nat SqliteValue
}.

Definition NewCommand (sql : Statement) : SQLiteCommand := mkCommand sql ∅.

(** [cmd.BindParam(index, value)] *)
Definition BindParam (index : nat) (v : SqliteValue) (cmd : SQLiteCommand)
  : SQLiteCommand :=
  mkCommand (cmd_sql cmd) (<[index := v]> (cmd_params cmd)).

(** [cmd.BindParam(index)]: binds SQL NULL. *)
Definition BindNull (index : nat) (cmd : SQLiteCommand) : SQLiteCommand :=
  BindParam index VNull cmd.

Definition ExcuteNonQueryCmd (cmd : SQLiteCommand) : Op bool :=
  ExcuteNonQuery (cmd_sql cmd) (cmd_params cmd).

(** ** [SQLiteDataReader]: typed getters on the current row *)

Definition GetDataType (row : list SqliteValue) (i : nat) : SqliteDataType :=
  match column row i with
  | VNull => kSqliteDataTypeNull
  | VInt _ => kSqliteDataTypeInteger
  | VText _ => kSqliteDataTypeText
  | VBlob _ => kSqliteDataTypeBlob
  end.

(** The integer SQLite reads from a text: blanks in front are skipped, then
    an optional sign and the longest run of decimal digits are taken; what
    follows is ignored, no digit at all gives 0, and a value outside the
    signed 64-bit range is replaced by the nearest bound. *)
Definition is_blank (c : ascii) : bool :=
  let n := N_of_ascii c in
  ((9 <=? n)%N && (n <=? 13)%N || (n =? 32)%N)%bool.

Definition digit_of (c : ascii) : option Z :=
  let n := Z.of_N (N_of_ascii c) in
  if ((48 <=? n) && (n <=? 57))%bool then Some (n - 48) else None.

Fixpoint skip_blanks (s : list ascii) : list ascii :=
  match s with
  | c :: s' => if is_blank c then skip_blanks s' else s
  | [] => []
  end.

Fixpoint digits_value (s : list ascii) (acc : Z) : Z :=
  match s with
  | c :: s' =>
      match digit_of c with
      | Some d => digits_value s' (10 * acc + d)
      | None => acc
      end
  | [] => acc
  end.

Definition clamp_int64 (z : Z) : Z := Z.max (- 2 ^ 63) (Z.min (2 ^ 63 - 1) z).

Definition int_of_text (s : list ascii) : Z :=
  match skip_blanks s with
  | c :: s' =>
      if Ascii.eqb c "-" then clamp_int64 (- digits_value s' 0)
      else if Ascii.eqb c "+" then clamp_int64 (digits_value s' 0)
      else clamp_int64 (digits_value (c :: s') 0)
  | [] => 0
  end.

(** A value read as an integer: NULL is 0, a text is converted, and a blob
    is converted as the text of its bytes. *)
Definition int_of_value (v : SqliteValue) : Z :=
  match v with
  | VNull => 0
  | VInt n => n
  | VText s => int_of_text (String.list_ascii_of_string s)
  | VBlob b => int_of_text (map ascii_of_byte b)
  end.

Definition GetIntValue (row : list SqliteValue) (i : nat) : Z :=
  wrap_int (int_of_value (column row i)).
Definition GetUint64Value (row : list SqliteValue) (i : nat) : Z :=
  wrap64 (int_of_value (column row i)).
Definition GetUint8Value (row : list SqliteValue) (i : nat) : Z :=
  wrap8 (int_of_value (column row i)).
Definition GetStringValue (row : list SqliteValue) (i : nat) : string :=
  match column row i with VText s => s | _ => "" end.
Definition GetBlobValue (row : list SqliteValue) (i : nat) : list Byte.byte :=
  match column row i with VBlob b => b | _ => [] end.

(** [while (reader->Read()) body]: the body runs once per result row, in
    order. *)
Definition while_Read {S} (body : S -> list SqliteValue -> S)
           (reader : list (list SqliteValue)) (init : S) : S :=
  fold_left body reader init.

(** ** The records of the component *)

Record Way : Type := mkWay {
  way_id : Z;
  pre_way_id : Z;
  next_way_id : Z;
  speed_min : Z;
  speed_max : Z
}.

Record Node : Type := mkNode {
  node_index : Z;
  data_line_number : Z;
  node_value : string
}.

Record WayNodes : Type := mkWayNodes {
  way_nodes_way_id : Z;
  nodes : list Node
}.

Record WayData : Type := mkWayData {
  way_data_way_id : Z;
  raw_data : list Byte.byte;
  navi_number : Z;
  navi_table_id : Z
}.

Record NaviData : Type := mkNaviData {
  navi_index : Z;
  data : list Byte.byte
}.

Record NaviInfo : Type := mkNaviInfo {
  navi_info_way_id : Z;
  navi_data : list NaviData
}.

(** ** Constants of the anonymous namespace *)

(** [enum TableNames]: the index of a table, [kMaxNumberOfTables] being the
    number of tables. *)
Definition TableNames : Type := nat.
Definition kTableSpeedLimit : TableNames := 0%nat.
Definition kTableWay : TableNames := 1%nat.
Definition kTableWayNodes : TableNames := 2%nat.
Definition kTableWayData : TableNames := 3%nat.
Definition kTableNaviData : TableNames := 4%nat.
Definition kMaxNumberOfTables : TableNames := 5%nat.

Definition kTableNames : list string :=
  ["speed_limit"; "way"; "way_nodes"; "way_data"; "navi_data"].

Definition kMaxRowNumberOfDBTable : Z := 10000.

(** [kTableNames.at(i)]: throws when [i] is not an index of the array. *)
Definition at_ {A} (arr : list A) (i : nat) : Op A :=
  match arr !! i with
  | Some x => ret x
  | None => throw
  end.

(** [std::to_string] of an unsigned integer: its decimal digits. *)
Definition to_string (n : Z) : string :=
  NilZero.string_of_uint (N.to_uint (Z.to_N n)).

(** ** [DBOperatorBase] *)

Definition IsTableExisting (table_name : TableNames) : Op bool :=
  if (kMaxNumberOfTables <=? table_name)%nat then ret false
  else
    do name <- at_ kTableNames table_name;
    (* SELECT count( * )  FROM sqlite_master WHERE type='table'
       AND name LIKE '<name>'; *)
    do reader <- ExcuteQuery (SqlSelectCountMaster name);
    match reader with
    | None => ret false
    | Some reader =>
        let count := while_Read (fun _ row => GetIntValue row 0) reader 0 in
        ret (if 0 <? count then true else false)
    end.

(** [REFERENCES speed_limit(id) ON UPDATE CASCADE] *)
Definition references_speed_limit : option Reference :=
  Some (mkReference "speed_limit" "id" true false).

(** [REFERENCES way(way_id) ON UPDATE CASCADE ON DELETE CASCADE] *)
Definition references_way : option Reference :=
  Some (mkReference "way" "way_id" true true).

Definition CreateTable_sql (table_name : TableNames) : Statement :=
  match table_name with
  | 0%nat =>
      (* CREATE TABLE [speed_limit] ([id] INTEGER,[speed] INTEGER,
         PRIMARY KEY(id)); *)
      SqlCreateTable "speed_limit"
        [mkColumn "id" INTEGER None; mkColumn "speed" INTEGER None]
        (Some "id")
  | 1%nat =>
      (* CREATE TABLE [way] ([way_id] TEXT,[pre_way_id] TEXT,
         [next_way_id] TEXT,[speed_min] INTEGER REFERENCES speed_limit(id)
         ON UPDATE CASCADE,[speed_max] INTEGER REFERENCES speed_limit(id)
         ON UPDATE CASCADE,PRIMARY KEY(way_id)); *)
      SqlCreateTable "way"
        [mkColumn "way_id" TEXT None; mkColumn "pre_way_id" TEXT None;
         mkColumn "next_way_id" TEXT None;
         mkColumn "speed_min" INTEGER references_speed_limit;
         mkColumn "speed_max" INTEGER references_speed_limit]
        (Some "way_id")
  | 2%nat =>
      (* CREATE TABLE [way_nodes] ([way_id] TEXT REFERENCES way(way_id) ON
         UPDATE CASCADE ON DELETE CASCADE,[node_index] TEXT,
         [data_line_number] TEXT,[node_value] TEXT); *)
      SqlCreateTable "way_nodes"
        [mkColumn "way_id" TEXT references_way;
         mkColumn "node_index" TEXT None;
         mkColumn "data_line_number" TEXT None;
         mkColumn "node_value" TEXT None]
        None
  | 3%nat =>
      (* CREATE TABLE [way_data] ([way_id] TEXT REFERENCES way(way_id) ON
         UPDATE CASCADE ON DELETE CASCADE,[raw_data] BLOB,[navi_number]
         INTEGER,[navi_table_id] TEXT,PRIMARY KEY(way_id)); *)
      SqlCreateTable "way_data"
        [mkColumn "way_id" TEXT references_way;
         mkColumn "raw_data" BLOB None;
         mkColumn "navi_number" INTEGER None;
         mkColumn "navi_table_id" TEXT None]
        (Some "way_id")
  | 4%nat =>
      (* CREATE TABLE [navi_data] ([way_id] TEXT REFERENCES way(way_id) ON
         UPDATE CASCADE ON DELETE CASCADE,[navi_index] INTEGER,[data]
         BLOB); *)
      SqlCreateTable "navi_data"
        [mkColumn "way_id" TEXT references_way;
         mkColumn "navi_index" INTEGER None;
         mkColumn "data" BLOB None]
        None
  | _ =>
      (* default: break;  -- sql stays the empty string *)
      SqlEmpty
  end.

Definition CreateTable (table_name : TableNames) : Op bool :=
  let sql := CreateTable_sql table_name in
  do ok <- ExcuteNonQuery sql ∅;
  if negb ok then
    (* the error message is built from kTableNames.at(table_name) *)
    do _ <- at_ kTableNames table_name;
    ret false
  else ret true.

(** ** [DBOperator] *)

(** The shape shared by the three multi-row saves:
    [for (auto& x : items) { bind x; if (!ExcuteNonQuery(&cmd))
    { res = false; break; } }], returning [res]. *)
Fixpoint insert_each {A} (bind_row : A -> SQLiteCommand -> SQLiteCommand)
         (items : list A) (cmd : SQLiteCommand) : Op bool :=
  match items with
  | [] => ret true
  | x :: rest =>
      let cmd := bind_row x cmd in
      do ok <- ExcuteNonQueryCmd cmd;
      if negb ok then ret false
      else insert_each bind_row rest cmd
  end.

(** [if (res) { Commit; return true; } else { Rollback; return false; }] *)
Definition finish_transaction (res : bool) : Op bool :=
  if res then
    do _ <- CommitTransaction;
    ret true
  else
    do _ <- RollbackTransaction;
    ret false.

Definition speed_base : Z := 30.
Definition speed_step : Z := 10.

Definition FillTableSpeedLimit_bind (i : Z) (cmd : SQLiteCommand)
  : SQLiteCommand :=
  let cmd := BindParam 1 (VInt i) cmd in
  BindParam 2 (VInt (wrap64 (speed_base + speed_step * (i - 1)))) cmd.

(** [for (std::size_t i = 1; i <= 13; i++)] *)
Definition FillTableSpeedLimit_range : list Z :=
  map Z.of_nat (seq 1 13).

Definition FillTableSpeedLimit : Op bool :=
  do _ <- BeginTransaction;
  (* INSERT INTO speed_limit(id,speed) VALUES(?,?) *)
  let cmd := NewCommand (SqlInsert "speed_limit" ["id"; "speed"]) in
  do res <- insert_each FillTableSpeedLimit_bind FillTableSpeedLimit_range cmd;
  finish_transaction res.

Definition InitDatabase : Op bool :=
  do exists_ <- IsTableExisting kTableWay;
  if exists_ then ret true
  else
    do c0 <- CreateTable kTableSpeedLimit;
    if negb c0 then ret false else
    do c1 <- CreateTable kTableWay;
    if negb c1 then ret false else
    do c2 <- CreateTable kTableWayNodes;
    if negb c2 then ret false else
    do c3 <- CreateTable kTableWayData;
    if negb c3 then ret false else
    do c4 <- CreateTable kTableNaviData;
    if negb c4 then ret false else
    do f <- FillTableSpeedLimit;
    if negb f then ret false else ret true.

(** The command [SaveWay] has built when it reaches [ExcuteNonQuery]. *)
Definition SaveWay_cmd (way : Way) : SQLiteCommand :=
  (* INSERT INTO way(way_id,pre_way_id,next_way_id,speed_min,speed_max)
     VALUES(?,?,?,?,?) *)
  let cmd := NewCommand
    (SqlInsert "way"
       ["way_id"; "pre_way_id"; "next_way_id"; "speed_min"; "speed_max"]) in
  let cmd := BindParam 1 (VInt (way_id way)) cmd in
  let cmd := if pre_way_id way =? 0 then BindNull 2 cmd
             else BindParam 2 (VInt (pre_way_id way)) cmd in
  let cmd := if next_way_id way =? 0 then BindNull 3 cmd
             else BindParam 3 (VInt (next_way_id way)) cmd in
  let cmd := BindParam 4 (VInt (speed_min way)) cmd in
  BindParam 5 (VInt (speed_max way)) cmd.

Definition SaveWay (way : Way) : Op bool :=
  do ok <- ExcuteNonQueryCmd (SaveWay_cmd way);
  ret (if negb ok then false else true).

Definition SaveWayNodes_bind (node : Node) (cmd : SQLiteCommand)
  : SQLiteCommand :=
  let cmd := BindParam 2 (VInt (node_index node)) cmd in
  let cmd := BindParam 3 (VInt (data_line_number node)) cmd in
  BindParam 4 (VText (node_value node)) cmd.

Definition SaveWayNodes_cmd (way_nodes : WayNodes) : SQLiteCommand :=
  (* INSERT INTO way_nodes(way_id,node_index,data_line_number,node_value)
     VALUES(?,?,?,?) *)
  BindParam 1 (VInt (way_nodes_way_id way_nodes))
    (NewCommand
       (SqlInsert "way_nodes"
          ["way_id"; "node_index"; "data_line_number"; "node_value"])).

Definition SaveWayNodes (way_nodes : WayNodes) : Op bool :=
  do _ <- BeginTransaction;
  do res <- insert_each SaveWayNodes_bind (nodes way_nodes)
                        (SaveWayNodes_cmd way_nodes);
  finish_transaction res.

Definition SaveWayData_cmd (way_data : WayData) : SQLiteCommand :=
  (* INSERT INTO way_data(way_id,raw_data,navi_number,navi_table_id)
     VALUES(?,?,?,?) *)
  let cmd := NewCommand
    (SqlInsert "way_data"
       ["way_id"; "raw_data"; "navi_number"; "navi_table_id"]) in
  let cmd := BindParam 1 (VInt (way_data_way_id way_data)) cmd in
  let cmd := BindParam 2 (VBlob (raw_data way_data)) cmd in
  let cmd := BindParam 3 (VInt (navi_number way_data)) cmd in
  BindParam 4 (VInt (navi_table_id way_data)) cmd.

Definition SaveWayData (way_data : WayData) : Op bool :=
  do ok <- ExcuteNonQueryCmd (SaveWayData_cmd way_data);
  ret (if negb ok then false else true).

Definition SaveNaviData_bind (d : NaviData) (cmd : SQLiteCommand)
  : SQLiteCommand :=
  let cmd := BindParam 2 (VInt (navi_index d)) cmd in
  BindParam 3 (VBlob (data d)) cmd.

Definition SaveNaviData_cmd (navi_info : NaviInfo) : SQLiteCommand :=
  (* INSERT INTO navi_data(way_id,navi_index,data) VALUES(?,?,?) *)
  BindParam 1 (VInt (navi_info_way_id navi_info))
    (NewCommand (SqlInsert "navi_data" ["way_id"; "navi_index"; "data"])).

Definition SaveNaviData (navi_info : NaviInfo) : Op bool :=
  do _ <- BeginTransaction;
  do res <- insert_each SaveNaviData_bind (navi_data navi_info)
                        (SaveNaviData_cmd navi_info);
  finish_transaction res.

(** [QueryNaviDataWithWayId(way_id, std::vector<NaviData>* navi_data)]:
    the second argument is the content of the caller's vector on entry, the
    result carries its content on return. *)
Definition QueryNaviDataWithWayId_row
           (acc : bool * list NaviData) (row : list SqliteValue)
  : bool * list NaviData :=
  let d := mkNaviData (wrap8 (GetIntValue row 0)) (GetBlobValue row 1) in
  (true, snd acc ++ [d]).

Definition QueryNaviDataWithWayId (way_id : Z) (navi_data : list NaviData)
  : Op (bool * list NaviData) :=
  (* SELECT navi_index, data FROM navi_data WHERE way_id = '<way_id>'; *)
  do reader <- ExcuteQuery
       (SqlSelect (Some ["navi_index"; "data"]) "navi_data"
                  [("way_id", way_id)]);
  match reader with
  | None => ret (false, navi_data)
  | Some reader =>
      ret (while_Read QueryNaviDataWithWayId_row reader (false, navi_data))
  end.

(** [QueryNaviDataWithWayId(way_id, navi_index, NaviData* navi_data)], the
    overload for one entry. It selects the single column [data] and then
    reads columns 0 and 1. *)
Definition QueryNaviDataWithWayIdAndIndex_row
           (acc : bool * NaviData) (row : list SqliteValue)
  : bool * NaviData :=
  (true, mkNaviData (GetUint8Value row 0) (GetBlobValue row 1)).

Definition QueryNaviDataWithWayIdAndIndex
           (way_id : Z) (navi_index : Z) (navi_data : NaviData)
  : Op (bool * NaviData) :=
  (* SELECT data FROM navi_data WHERE way_id = '<way_id>'AND
     navi_index='<navi_index>'; *)
  do reader <- ExcuteQuery
       (SqlSelect (Some ["data"]) "navi_data"
                  [("way_id", way_id); ("navi_index", navi_index)]);
  match reader with
  | None => ret (false, navi_data)
  | Some reader =>
      ret (while_Read QueryNaviDataWithWayIdAndIndex_row reader
                      (false, navi_data))
  end.

Definition QueryWayNodesWithWayId_row
           (acc : bool * list Node) (row : list SqliteValue)
  : bool * list Node :=
  let node := mkNode (GetUint64Value row 1) (GetUint64Value row 2)
                     (GetStringValue row 3) in
  (true, snd acc ++ [node]).

Definition QueryWayNodesWithWayId (way_id : Z) (way_nodes : WayNodes)
  : Op (bool * WayNodes) :=
  (* SELECT * FROM way_nodes WHERE way_id = '<way_id>'; *)
  do reader <- ExcuteQuery
       (SqlSelect None "way_nodes" [("way_id", way_id)]);
  match reader with
  | None => ret (false, way_nodes)
  | Some reader =>
      let '(res, nodes) :=
        while_Read QueryWayNodesWithWayId_row reader (false, []) in
      let way_nodes :=
        if (0 <? length nodes)%nat then mkWayNodes way_id nodes
        else way_nodes in
      ret (res, way_nodes)
  end.

(** A nullable column read as an unsigned integer: NULL decodes to 0. *)
Definition GetUint64OrZero (row : list SqliteValue) (i : nat) : Z :=
  if is_null (GetDataType row i) then 0 else GetUint64Value row i.

Definition QueryWayWithWayId_row (acc : bool * Way) (row : list SqliteValue)
  : bool * Way :=
  (true,
   mkWay (GetUint64Value row 0)
         (GetUint64OrZero row 1)
         (GetUint64OrZero row 2)
         (GetUint64OrZero row 3)
         (GetUint64OrZero row 4)).

Definition QueryWayWithWayId (way_id : Z) (way : Way) : Op (bool * Way) :=
  (* SELECT * FROM way WHERE way_id = '<way_id>'; *)
  do reader <- ExcuteQuery (SqlSelect None "way" [("way_id", way_id)]);
  match reader with
  | None => ret (false, way)
  | Some reader => ret (while_Read QueryWayWithWayId_row reader (false, way))
  end.

Definition QueryWayDataWithWayId_row
           (acc : bool * WayData) (row : list SqliteValue)
  : bool * WayData :=
  (true,
   mkWayData (GetUint64Value row 0) (GetBlobValue row 1)
             (GetUint8Value row 2) (GetUint64Value row 3)).

Definition QueryWayDataWithWayId (way_id : Z) (way_data : WayData)
  : Op (bool * WayData) :=
  (* SELECT * FROM way_data WHERE way_id = '<way_id>'; *)
  do reader <- ExcuteQuery (SqlSelect None "way_data" [("way_id", way_id)]);
  match reader with
  | None => ret (false, way_data)
  | Some reader =>
      ret (while_Read QueryWayDataWithWayId_row reader (false, way_data))
  end.

Definition UpdateWay_cmd (way_id : Z) (way : Way) : SQLiteCommand :=
  (* UPDATE way SET pre_way_id=?,next_way_id=?,speed_min=?,speed_max=?
     WHERE way_id=?; *)
  let cmd := NewCommand
    (SqlUpdate "way"
       ["pre_way_id"; "next_way_id"; "speed_min"; "speed_max"] "way_id") in
  let cmd := if pre_way_id way =? 0 then BindNull 1 cmd
             else BindParam 1 (VInt (pre_way_id way)) cmd in
  let cmd := if next_way_id way =? 0 then BindNull 2 cmd
             else BindParam 2 (VInt (next_way_id way)) cmd in
  let cmd := BindParam 3 (VInt (speed_min way)) cmd in
  let cmd := BindParam 4 (VInt (speed_max way)) cmd in
  BindParam 5 (VInt way_id) cmd.

Definition UpdateWay (way_id : Z) (way : Way) : Op bool :=
  do ok <- ExcuteNonQueryCmd (UpdateWay_cmd way_id way);
  ret (if negb ok then false else true).

Definition UpdateWaySpeedLimit (way_id speed_min speed_max : Z) : Op bool :=
  (* UPDATE way SET speed_min = ?, speed_max = ? WHERE way_id = ?; *)
  let cmd := NewCommand (SqlUpdate "way" ["speed_min"; "speed_max"] "way_id") in
  let cmd := BindParam 1 (VInt speed_min) cmd in
  let cmd := BindParam 2 (VInt speed_max) cmd in
  let cmd := BindParam 3 (VInt way_id) cmd in
  do ok <- ExcuteNonQueryCmd cmd;
  ret (if negb ok then false else true).

(** [DELETE FROM <table> WHERE way_id=?;] with the way id bound. *)
Definition delete_cmd (table : string) (way_id : Z) : SQLiteCommand :=
  BindParam 1 (VInt way_id) (NewCommand (SqlDelete table "way_id")).

Definition UpdateWayNodes (way_id : Z) (way_nodes : WayNodes) : Op bool :=
  do ok <- ExcuteNonQueryCmd (delete_cmd "way_nodes" way_id);
  if negb ok then ret false
  else SaveWayNodes way_nodes.

Definition UpdateWayData (way_id : Z) (way_data : WayData) : Op bool :=
  (* UPDATE way_data SET raw_data=?,navi_number=?,navi_table_id=? WHERE
     way_id=?; *)
  let cmd := NewCommand
    (SqlUpdate "way_data" ["raw_data"; "navi_number"; "navi_table_id"]
               "way_id") in
  let cmd := BindParam 1 (VBlob (raw_data way_data)) cmd in
  let cmd := BindParam 2 (VInt (navi_number way_data)) cmd in
  let cmd := BindParam 3 (VInt (navi_table_id way_data)) cmd in
  let cmd := BindParam 4 (VInt way_id) cmd in
  do ok <- ExcuteNonQueryCmd cmd;
  ret (if negb ok then false else true).

Definition UpdateNaviData (way_id : Z) (navi_info : NaviInfo) : Op bool :=
  do ok <- ExcuteNonQueryCmd (delete_cmd "navi_data" way_id);
  if negb ok then ret false
  else SaveNaviData navi_info.

Definition DeleteWayNodes (way_id : Z) : Op bool :=
  do ok <- ExcuteNonQueryCmd (delete_cmd "way_nodes" way_id);
  ret (if negb ok then false else true).

Definition DeleteWayData (way_id : Z) : Op bool :=
  do ok <- ExcuteNonQueryCmd (delete_cmd "way_data" way_id);
  ret (if negb ok then false else true).

Definition DeleteNaviData (way_id : Z) : Op bool :=
  do ok <- ExcuteNonQueryCmd (delete_cmd "navi_data" way_id);
  ret (if negb ok then false else true).

Definition DeleteWay (way_id : Z) : Op bool :=
  do ok <- ExcuteNonQueryCmd (delete_cmd "way" way_id);
  if negb ok then ret false else
  do n <- DeleteWayNodes way_id;
  if negb n then ret false else
  do d <- DeleteWayData way_id;
  if negb d then ret false else
  do v <- DeleteNaviData way_id;
  if negb v then ret false else
  ret true.

(** [CreateNewWayId(std::uint64_t* way_id)] *)
Definition CreateNewWayId_row (acc : bool * Z) (row : list SqliteValue)
  : bool * Z :=
  (true,
   if is_null (GetDataType row 0) then 1
   else wrap64 (GetUint64Value row 0 + 1)).

Definition CreateNewWayId (way_id : Z) : Op (bool * Z) :=
  (* SELECT max(way_id) from way; *)
  do reader <- ExcuteQuery (SqlSelectMax "way_id" "way");
  match reader with
  | None => ret (false, way_id)
  | Some reader => ret (while_Read CreateNewWayId_row reader (false, way_id))
  end.

(** [GetNaviTableId(std::uint64_t* navi_table_id)] *)
Definition GetNaviTableId_max_row (acc : bool * Z) (row : list SqliteValue)
  : bool * Z :=
  (true, GetUint64OrZero row 0).

Definition GetNaviTableId_count_row (acc : bool * Z) (row : list SqliteValue)
  : bool * Z :=
  (true, GetUint64Value row 0).

Definition GetNaviTableId (navi_table_id : Z) : Op (bool * Z) :=
  (* SELECT max(navi_table_id) from way_data; *)
  do reader <- ExcuteQuery (SqlSelectMax "navi_table_id" "way_data");
  match reader with
  | None => ret (false, navi_table_id)
  | Some reader =>
      let '(res, cur_max_table_id) :=
        while_Read GetNaviTableId_max_row reader (false, 0) in
      (* SELECT count( * ) from navi_data_<cur_max_table_id>; *)
      do reader <- ExcuteQuery
           (SqlSelectCount ("navi_data_" +:+ to_string cur_max_table_id));
      match reader with
      | None => ret (false, navi_table_id)
      | Some reader =>
          let '(res, table_line_counts) :=
            while_Read GetNaviTableId_count_row reader (res, 0) in
          ret (res,
               if table_line_counts <? kMaxRowNumberOfDBTable
               then cur_max_table_id
               else wrap64 (cur_max_table_id + 1))
      end
  end.

(** * Vocabulary of the properties *)

(** No failure is scheduled for the next call. *)
Definition no_fault (s : SQLiteWrapper) : Prop := head (faults s) ≠ Some true.

(** The commands a multi-row save sends, one per item, each as it is bound
    at the moment it is executed. *)
Fixpoint bound_cmds {A} (bind_row : A -> SQLiteCommand -> SQLiteCommand)
         (items : list A) (cmd : SQLiteCommand) : list SQLiteCommand :=
  match items with
  | [] => []
  | x :: rest =>
      let cmd := bind_row x cmd in
      cmd :: bound_cmds bind_row rest cmd
  end.

(** The history entries of a run of inserts with their outcomes. *)
Definition insert_calls (done_ : list (SQLiteCommand * bool))
  : list DriverCall :=
  map (fun e => CallNonQuery (cmd_sql (fst e)) (cmd_params (fst e)) (snd e))
      done_.

(** The tables after every command of a batch has taken effect. *)
Fixpoint apply_all (cmds : list SQLiteCommand) (tbls : gmap string Table)
  : option (gmap string Table) :=
  match cmds with
  | [] => Some tbls
  | c :: rest =>
      match exec (cmd_sql c) (cmd_params c) tbls with
      | Some tbls' => apply_all rest tbls'
      | None => None
      end
  end.

(** A save of the batch [cmds] is all-or-nothing from state [s]: it returns
    [res]; it made one BEGIN, then a prefix [done_] of the inserts, then one
    COMMIT (when [res]) or one ROLLBACK (otherwise); [res] tells whether
    every insert made has succeeded; no transaction is left open; on [true]
    the whole batch was sent and the tables are the old ones with every
    insert applied, on [false] the tables are the old ones. *)
Definition all_or_nothing (op : Op bool) (cmds : list SQLiteCommand)
           (s : SQLiteWrapper) : Prop :=
  exists (res : bool) (s' : SQLiteWrapper)
         (done_ : list (SQLiteCommand * bool)),
    op s = (Normal res, s')
    /\ calls s' = calls s ++ [CallBegin] ++ insert_calls done_
                          ++ [if res then CallCommit else CallRollback]
    /\ map fst done_ = take (length done_) cmds
    /\ res = forallb snd done_
    /\ transaction s' = None
    /\ (if res
        then map fst done_ = cmds
             /\ apply_all cmds (tables s) = Some (tables s')
        else tables s' = tables s).

(** Sample databases for the examples. *)
Definition empty_db : SQLiteWrapper := mkSQLite ∅ None [] [].
Definition fresh_db : SQLiteWrapper := snd (InitDatabase empty_db).
(** The same database with a storage failure scheduled for the [n]-th coming
    call (counting from 0). *)
Definition failing_at (n : nat) (s : SQLiteWrapper) : SQLiteWrapper :=
  mkSQLite (tables s) (transaction s) (replicate n false ++ [true]) (calls s).

Definition sample_nodes : WayNodes :=
  mkWayNodes 1 [mkNode 0 10 "a"; mkNode 1 11 "b"; mkNode 2 12 "c"].
Definition sample_navi : NaviInfo :=
  mkNaviInfo 1 [mkNaviData 0 [Byte.x78]; mkNaviData 1 [Byte.x79]].

(** The columns of the way table, in the order of its CREATE TABLE, and
    their declared types. *)
Definition way_columns : list string :=
  ["way_id"; "pre_way_id"; "next_way_id"; "speed_min"; "speed_max"].
Definition way_types : list ColumnType :=
  [TEXT; TEXT; TEXT; INTEGER; INTEGER].

(** How a nullable link of a [Way] is bound: 0 goes out as NULL. *)
Definition link_value (v : Z) : SqliteValue :=
  if v =? 0 then VNull else VInt v.

Definition sample_way : Way := mkWay 1 0 7 0 3.

(** The row a successful [SaveWay] appends to a way table with the columns
    of its CREATE TABLE. *)
Definition way_row (way : Way) : list SqliteValue :=
  [VInt (way_id way); link_value (pre_way_id way);
   link_value (next_way_id way); VInt (speed_min way); VInt (speed_max way)].

(** The [NaviData] the list query builds from one result row. *)
Definition NaviData_of_row (row : list SqliteValue) : NaviData :=
  mkNaviData (wrap8 (GetIntValue row 0)) (GetBlobValue row 1).

(** The rows a reader delivers; there is none when the query failed. *)
Definition rows_read (reader : option (list (list SqliteValue)))
  : list (list SqliteValue) :=
  default [] reader.

Definition at_least_one (rs : list (list SqliteValue)) : bool :=
  match rs with [] => false | _ :: _ => true end.

(** A query operation with output parameter of type [Out] reports "found"
    exactly when its reader delivered a row, and hands the output back as it
    got it when no row was delivered. *)
Definition found_iff_row_read {Out} (q : Query) (op : Out -> Op (bool * Out))
  : Prop :=
  forall (out : Out) (s : SQLiteWrapper),
  exists reader s' out',
    ExcuteQuery q s = (Normal reader, s')
    /\ op out s = (Normal (at_least_one (rows_read reader), out'), s')
    /\ (rows_read reader = [] -> out' = out).

(** [m] is the greatest of the identifiers [ids]. *)
Definition is_max (m : Z) (ids : list Z) : Prop :=
  In m ids /\ forall n, In n ids -> n <= m.

(** Column [col] of table [tb] is declared [ty] and holds exactly the
    integers [ids], row by row. *)
Definition column_holds (tb : Table) (col : string) (ty : ColumnType)
           (ids : list Z) : Prop :=
  exists i, index_of (columns tb) col = Some i
            /\ column_type tb i = ty
            /\ map (fun r => column r i) (rows tb) = map VInt ids.

(** [m] is the identifier of [ids] whose decimal text is the greatest in
    the byte order of texts: of 9 and 10 it is 9. *)
Definition is_text_max (m : Z) (ids : list Z) : Prop :=
  In m ids /\ forall n, In n ids -> String.leb (decimal n) (decimal m) = true.

Definition UINT64_MAX : Z := 18446744073709551615.

(** The identifiers that reach the database as they are, whichever 64-bit
    bind the driver uses: those up to the greatest signed 64-bit integer. *)
Definition fits_int64 (z : Z) : Prop := 0 <= z < 2 ^ 63.

(** [cur] is what [GetNaviTableId] takes as the current shard: the
    [navi_table_id] with the greatest decimal text, or 0 when there is
    none. *)
Definition text_max_or_zero (cur : Z) (ids : list Z) : Prop :=
  (ids = [] /\ cur = 0) \/ is_text_max cur ids.

(** No failure is scheduled for the next [n] calls. *)
Definition no_faults (n : nat) (s : SQLiteWrapper) : Prop :=
  Forall (fun b => b = false) (take n (faults s)).

(** A database whose way_data table names shard [id] and whose shard table
    [navi_data_<id>] holds [n] rows. *)
Definition shard_db (id : Z) (n : Z) : SQLiteWrapper :=
  mkSQLite
    (<["navi_data_" +:+ to_string id :=
         mkTable ["way_id"; "navi_index"; "data"] [TEXT; INTEGER; BLOB] None
                 (replicate (Z.to_nat n) [VInt 1; VInt 0; VBlob []])]>
       (<["way_data" :=
            mkTable ["way_id"; "raw_data"; "navi_number"; "navi_table_id"]
                    [TEXT; BLOB; INTEGER; TEXT] (Some "way_id")
                    [[VInt 1; VBlob []; VInt 1; VInt id]]]>
          (tables fresh_db)))
    None [] [].

(** A database with two ways, 9 and 10, linked to each other. *)
Definition two_ways_db : SQLiteWrapper :=
  snd (SaveWay (mkWay 10 9 0 1 1) (snd (SaveWay (mkWay 9 0 10 1 1) fresh_db))).

(** A database in its tenth shard: way 1 has its data in shard 9, way 2 in
    shard 10; the shard table navi_data_9 holds one row and navi_data_10
    is full. *)
Definition two_shards_db : SQLiteWrapper :=
  mkSQLite
    (<["navi_data_10" :=
         mkTable ["way_id"; "navi_index"; "data"] [TEXT; INTEGER; BLOB] None
                 (replicate (Z.to_nat 10000) [VInt 2; VInt 0; VBlob []])]>
       (<["navi_data_9" :=
            mkTable ["way_id"; "navi_index"; "data"] [TEXT; INTEGER; BLOB]
                    None [[VInt 1; VInt 0; VBlob []]]]>
          (<["way_data" :=
               mkTable ["way_id"; "raw_data"; "navi_number"; "navi_table_id"]
                       [TEXT; BLOB; INTEGER; TEXT] (Some "way_id")
                       [[VInt 1; VBlob []; VInt 1; VInt 9];
                        [VInt 2; VBlob []; VInt 1; VInt 10]]]>
             (tables fresh_db))))
    None [] [].

(** ** The seed of speed_limit *)

(** [speed = 30 + 10 * (id - 1)] for [id] from 1 to 13. *)
Definition seed_rows : list (list SqliteValue) :=
  map (fun id => [VInt id; VInt (30 + 10 * (id - 1))])
      (map Z.of_nat (seq 1 13)).

Definition speed_limit_table : Table :=
  mkTable ["id"; "speed"] [INTEGER; INTEGER] (Some "id") seed_rows.

(** The speed_limit table holds the thirteen seed rows and nothing else. *)
Definition seeded (s : SQLiteWrapper) : Prop :=
  tables s !! "speed_limit" = Some speed_limit_table.

(** Statement [sql] writes rows of table [t]. *)
Definition modifies (sql : Statement) (t : string) : bool :=
  match sql with
  | SqlInsert t' _ | SqlUpdate t' _ _ | SqlDelete t' _ => String.eqb t' t
  | SqlEmpty | SqlCreateTable _ _ _ => false
  end.

(** The effect of a batch of inserts into table [t] on that table alone. *)
Fixpoint table_after (t : string) (cmds : list SQLiteCommand) (tb : Table)
  : option Table :=
  match cmds with
  | [] => Some tb
  | c :: rest =>
      match cmd_sql c with
      | SqlInsert t' cols =>
          if String.eqb t' t then
            match insert_into tb cols (cmd_params c) with
            | Some tb' => table_after t rest tb'
            | None => None
            end
          else None
      | _ => None
      end
  end.

(** The calls of the component, with their arguments. *)
Inductive Operation : Type :=
| DoInitDatabase
| DoIsTableExisting (table_name : TableNames)
| DoCreateTable (table_name : TableNames)
| DoFillTableSpeedLimit
| DoSaveWay (way : Way)
| DoSaveWayNodes (way_nodes : WayNodes)
| DoSaveWayData (way_data : WayData)
| DoSaveNaviData (navi_info : NaviInfo)
| DoQueryNaviDataWithWayId (way_id : Z) (out : list NaviData)
| DoQueryNaviDataWithWayIdAndIndex (way_id navi_index : Z) (out : NaviData)
| DoQueryWayNodesWithWayId (way_id : Z) (out : WayNodes)
| DoQueryWayWithWayId (way_id : Z) (out : Way)
| DoQueryWayDataWithWayId (way_id : Z) (out : WayData)
| DoUpdateWay (way_id : Z) (way : Way)
| DoUpdateWaySpeedLimit (way_id speed_min speed_max : Z)
| DoUpdateWayNodes (way_id : Z) (way_nodes : WayNodes)
| DoUpdateWayData (way_id : Z) (way_data : WayData)
| DoUpdateNaviData (way_id : Z) (navi_info : NaviInfo)
| DoDeleteWay (way_id : Z)
| DoDeleteWayNodes (way_id : Z)
| DoDeleteWayData (way_id : Z)
| DoDeleteNaviData (way_id : Z)
| DoCreateNewWayId (out : Z)
| DoGetNaviTableId (out : Z).

(** The driver state a call leaves behind. *)
Definition state_after (op : Operation) (s : SQLiteWrapper) : SQLiteWrapper :=
  match op with
  | DoInitDatabase => snd (InitDatabase s)
  | DoIsTableExisting t => snd (IsTableExisting t s)
  | DoCreateTable t => snd (CreateTable t s)
  | DoFillTableSpeedLimit => snd (FillTableSpeedLimit s)
  | DoSaveWay w => snd (SaveWay w s)
  | DoSaveWayNodes wn => snd (SaveWayNodes wn s)
  | DoSaveWayData wd => snd (SaveWayData wd s)
  | DoSaveNaviData ni => snd (SaveNaviData ni s)
  | DoQueryNaviDataWithWayId id out => snd (QueryNaviDataWithWayId id out s)
  | DoQueryNaviDataWithWayIdAndIndex id idx out =>
      snd (QueryNaviDataWithWayIdAndIndex id idx out s)
  | DoQueryWayNodesWithWayId id out => snd (QueryWayNodesWithWayId id out s)
  | DoQueryWayWithWayId id out => snd (QueryWayWithWayId id out s)
  | DoQueryWayDataWithWayId id out => snd (QueryWayDataWithWayId id out s)
  | DoUpdateWay id w => snd (UpdateWay id w s)
  | DoUpdateWaySpeedLimit id a b => snd (UpdateWaySpeedLimit id a b s)
  | DoUpdateWayNodes id wn => snd (UpdateWayNodes id wn s)
  | DoUpdateWayData id wd => snd (UpdateWayData id wd s)
  | DoUpdateNaviData id ni => snd (UpdateNaviData id ni s)
  | DoDeleteWay id => snd (DeleteWay id s)
  | DoDeleteWayNodes id => snd (DeleteWayNodes id s)
  | DoDeleteWayData id => snd (DeleteWayData id s)
  | DoDeleteNaviData id => snd (DeleteNaviData id s)
  | DoCreateNewWayId out => snd (CreateNewWayId out s)
  | DoGetNaviTableId out => snd (GetNaviTableId out s)
  end.

(** What every call keeps: no transaction is open and speed_limit holds its
    seed. *)
Definition settled (s : SQLiteWrapper) : Prop :=
  transaction s = None /\ seeded s.

Definition keeps_settled {A} (op : Op A) : Prop :=
  forall s, settled s -> settled (snd (op s)).

(** ** Vocabulary of the further properties *)

(** Operation [op] keeps the property [P] of the driver state. *)
Definition keeps {A} (P : SQLiteWrapper -> Prop) (op : Op A) : Prop :=
  forall s, P s -> P (snd (op s)).

(** The calls that only read: the queries by way id, the two allocators and
    the existence test. *)
Definition is_read (op : Operation) : bool :=
  match op with
  | DoIsTableExisting _
  | DoQueryNaviDataWithWayId _ _
  | DoQueryNaviDataWithWayIdAndIndex _ _ _
  | DoQueryWayNodesWithWayId _ _
  | DoQueryWayWithWayId _ _
  | DoQueryWayDataWithWayId _ _
  | DoCreateNewWayId _
  | DoGetNaviTableId _ => true
  | _ => false
  end.

Definition is_query_call (c : DriverCall) : Prop :=
  match c with CallQuery _ _ => True | _ => False end.

(** The state a read leaves: same tables, same transaction, and only
    queries added to the history. *)
Definition read_from (s0 s : SQLiteWrapper) : Prop :=
  tables s = tables s0
  /\ transaction s = transaction s0
  /\ exists made, calls s = calls s0 ++ made /\ Forall is_query_call made.

Definition no_transaction (s : SQLiteWrapper) : Prop := transaction s = None.

(** The columns of the child tables, in the order of their CREATE TABLE. *)
Definition way_nodes_columns : list string :=
  ["way_id"; "node_index"; "data_line_number"; "node_value"].
Definition way_data_columns : list string :=
  ["way_id"; "raw_data"; "navi_number"; "navi_table_id"].
Definition navi_data_columns : list string :=
  ["way_id"; "navi_index"; "data"].
Definition way_nodes_types : list ColumnType := [TEXT; TEXT; TEXT; TEXT].
Definition way_data_types : list ColumnType := [TEXT; BLOB; INTEGER; TEXT].
Definition navi_data_types : list ColumnType := [TEXT; INTEGER; BLOB].

(** The rows the saves write. *)
Definition node_row (way_id : Z) (node : Node) : list SqliteValue :=
  [VInt way_id; VInt (node_index node); VInt (data_line_number node);
   VText (node_value node)].
Definition way_data_row (wd : WayData) : list SqliteValue :=
  [VInt (way_data_way_id wd); VBlob (raw_data wd); VInt (navi_number wd);
   VInt (navi_table_id wd)].
Definition navi_row (way_id : Z) (d : NaviData) : list SqliteValue :=
  [VInt way_id; VInt (navi_index d); VBlob (data d)].

(** The rows of a table that belong to way [id] (column 0 is [way_id]), and
    the others. *)
Definition of_way (id : Z) (row : list SqliteValue) : bool :=
  sql_eqb (column row 0) (VInt id).
Definition rows_of_way (id : Z) (rs : list (list SqliteValue))
  : list (list SqliteValue) :=
  List.filter (of_way id) rs.
Definition rows_of_others (id : Z) (rs : list (list SqliteValue))
  : list (list SqliteValue) :=
  List.filter (fun row => negb (of_way id row)) rs.

(** Table [t] of state [s] is [tb], laid out as its CREATE TABLE says. *)
Definition has_table (s : SQLiteWrapper) (t : string) (cols : list string)
           (pk : option string) (tb : Table) : Prop :=
  tables s !! t = Some tb /\ columns tb = cols /\ primary_key tb = pk.

(** The node the node query builds from one result row. *)
Definition Node_of_row (row : list SqliteValue) : Node :=
  mkNode (GetUint64Value row 1) (GetUint64Value row 2) (GetStringValue row 3).

Definition node_in_range (n : Node) : Prop :=
  is_uint64 (node_index n) /\ is_uint64 (data_line_number n).

(** The entry the list query builds from a stored navi_data row. *)
Definition NaviData_of_stored (row : list SqliteValue) : NaviData :=
  NaviData_of_row [column row 1; column row 2].

Definition sample_way_data : WayData :=
  mkWayData 1 [Byte.xaa; Byte.xbb] 1 0.

(** The four tables keyed by way id. *)
Definition way_tables : list string :=
  ["way"; "way_nodes"; "way_data"; "navi_data"].

(** Each of them exists and has [way_id] as its first column. *)
Definition keyed_by_way (s : SQLiteWrapper) : Prop :=
  forall t, In t way_tables ->
            exists tb, tables s !! t = Some tb
                       /\ index_of (columns tb) "way_id" = Some 0%nat.

(** A table without the rows of way [id]. *)
Definition drop_way (id : Z) (tb : Table) : Table :=
  set_rows tb (rows_of_others id (rows tb)).

(** A database holding one way with its nodes and navigation entries. *)
Definition populated_db : SQLiteWrapper :=
  snd (SaveNaviData sample_navi
         (snd (SaveWayNodes sample_nodes
                 (snd (SaveWay sample_way fresh_db))))).

(** What the updates make of a stored row of the way they address. *)
Definition updated_way_row (way : Way) (row : list SqliteValue)
  : list SqliteValue :=
  [column row 0; link_value (pre_way_id way); link_value (next_way_id way);
   VInt (speed_min way); VInt (speed_max way)].

Definition updated_speed_row (speed_min speed_max : Z)
           (row : list SqliteValue) : list SqliteValue :=
  [column row 0; column row 1; column row 2; VInt speed_min; VInt speed_max].

Definition updated_way_data_row (wd : WayData) (row : list SqliteValue)
  : list SqliteValue :=
  [column row 0; VBlob (raw_data wd); VInt (navi_number wd);
   VInt (navi_table_id wd)].

(** Applies [f] to the rows of way [id] and leaves the others. *)
Definition map_rows_of_way (id : Z)
           (f : list SqliteValue -> list SqliteValue)
           (rs : list (list SqliteValue)) : list (list SqliteValue) :=
  map (fun row => if of_way id row then f row else row) rs.

(** Every row has as many values as the table has columns. *)
Definition full_rows (tb : Table) : Prop :=
  Forall (fun row => length row = length (columns tb)) (rows tb).

(** The table [InitDatabase] makes under each of the five names. *)
Definition created_table (name : string) : option Table :=
  if decide (name = "speed_limit") then Some speed_limit_table
  else if decide (name = "way")
       then Some (mkTable way_columns way_types (Some "way_id") [])
  else if decide (name = "way_nodes")
       then Some (mkTable way_nodes_columns way_nodes_types None [])
  else if decide (name = "way_data")
       then Some (mkTable way_data_columns way_data_types (Some "way_id") [])
  else if decide (name = "navi_data")
       then Some (mkTable navi_data_columns navi_data_types None [])
  else None.

(** Statement [sql] creates a table named [t]. *)
Definition creates (sql : Statement) (t : string) : bool :=
  match sql with
  | SqlCreateTable name _ _ => String.eqb name t
  | _ => false
  end.

(** Table [t] is in neither the catalog nor the snapshot of an open
    transaction. *)
Definition without_table (t : string) (s : SQLiteWrapper) : Prop :=
  tables s !! t = None
  /\ forall snap, transaction s = Some snap -> snap !! t = None.

(** The state after a sequence of calls. *)
Definition state_after_all (ops : list Operation) (s : SQLiteWrapper)
  : SQLiteWrapper :=
  fold_left (fun st op => state_after op st) ops s.

(** Allocating a way id and saving a way under it, [n] times in turn: the
    ids handed out, each with the result of its [SaveWay]. *)
Fixpoint allocate_and_save (n : nat) (s : SQLiteWrapper)
  : list (Z * bool) * SQLiteWrapper :=
  match n with
  | O => ([], s)
  | S n =>
      match CreateNewWayId 0 s with
      | (Normal (_, id), s1) =>
          match SaveWay (mkWay id 0 0 1 1) s1 with
          | (Normal ok, s2) =>
              let '(more, s3) := allocate_and_save n s2 in
              ((id, ok) :: more, s3)
          | (out_of_range, s2) => ([], s2)
          end
      | (out_of_range, s1) => ([], s1)
      end
  end.

(** ** Batches, call by call *)

(** The INSERT that carries one node, one navigation entry, one seed row,
    as the driver receives it; the last argument is its outcome. *)
Definition node_insert (way_id : Z) (n : Node) : bool -> DriverCall :=
  CallNonQuery
    (SqlInsert "way_nodes"
       ["way_id"; "node_index"; "data_line_number"; "node_value"])
    (<[4%nat := VText (node_value n)]>
       (<[3%nat := VInt (data_line_number n)]>
          (<[2%nat := VInt (node_index n)]> {[1%nat := VInt way_id]}))).

Definition navi_insert (way_id : Z) (d : NaviData) : bool -> DriverCall :=
  CallNonQuery
    (SqlInsert "navi_data" ["way_id"; "navi_index"; "data"])
    (<[3%nat := VBlob (data d)]>
       (<[2%nat := VInt (navi_index d)]> {[1%nat := VInt way_id]})).

Definition seed_insert (id : Z) : bool -> DriverCall :=
  CallNonQuery
    (SqlInsert "speed_limit" ["id"; "speed"])
    (<[2%nat := VInt (30 + 10 * (id - 1))]> {[1%nat := VInt id]}).

(** The thirteen seed inserts, for [id] from 1 to 13. *)
Definition seed_inserts : list (bool -> DriverCall) :=
  map seed_insert (map Z.of_nat (seq 1 13)).

Definition succeeded (call : bool -> DriverCall) : DriverCall := call true.
Definition failed (call : bool -> DriverCall) : DriverCall := call false.

(** The calls of a batch that returned [res]. When [res] is [true]: BEGIN,
    every insert of the batch, successful, in order, COMMIT. When [res] is
    [false]: BEGIN, the first [k] inserts, successful, then insert [k],
    failed, then ROLLBACK -- the inserts after it are not sent. *)
Definition batch_calls (inserts : list (bool -> DriverCall)) (res : bool)
           (made : list DriverCall) : Prop :=
  if res
  then made = [CallBegin] ++ map succeeded inserts ++ [CallCommit]
  else exists k ins,
      inserts !! k = Some ins
      /\ made = [CallBegin] ++ map succeeded (take k inserts)
                ++ [failed ins; CallRollback].

(** Operation [op], started in state [s], writes the rows [new_rows] into
    table [t] with the inserts [inserts], all or nothing: it returns with
    no transaction open, having made the calls of a batch; when it returns
    [true] the table -- if it has the columns [cols] -- holds its old rows
    followed by [new_rows], and every other table is as before; when it
    returns [false] every table is as before. *)
Definition all_rows_or_none (op : Op bool) (t : string) (cols : list string)
           (inserts : list (bool -> DriverCall))
           (new_rows : list (list SqliteValue)) (s : SQLiteWrapper) : Prop :=
  exists (res : bool) (s' : SQLiteWrapper) (made : list DriverCall),
    op s = (Normal res, s')
    /\ transaction s' = None
    /\ calls s' = calls s ++ made
    /\ batch_calls inserts res made
    /\ (if res
        then (forall tb, tables s !! t = Some tb -> columns tb = cols ->
                         tables s'
                         = <[t := set_rows tb (rows tb ++ new_rows)]>
                             (tables s))
             /\ (new_rows = [] -> tables s' = tables s)
        else tables s' = tables s).

(** ** Initialization, call by call *)

(** The five CREATE TABLE statements of a creating [InitDatabase], in the
    order in which it sends them. *)
Definition init_creates : list (bool -> DriverCall) :=
  [CallNonQuery
     (SqlCreateTable "speed_limit"
        [mkColumn "id" INTEGER None; mkColumn "speed" INTEGER None]
        (Some "id")) ∅;
   CallNonQuery
     (SqlCreateTable "way"
        [mkColumn "way_id" TEXT None; mkColumn "pre_way_id" TEXT None;
         mkColumn "next_way_id" TEXT None;
         mkColumn "speed_min" INTEGER
                  (Some (mkReference "speed_limit" "id" true false));
         mkColumn "speed_max" INTEGER
                  (Some (mkReference "speed_limit" "id" true false))]
        (Some "way_id")) ∅;
   CallNonQuery
     (SqlCreateTable "way_nodes"
        [mkColumn "way_id" TEXT (Some (mkReference "way" "way_id" true true));
         mkColumn "node_index" TEXT None;
         mkColumn "data_line_number" TEXT None;
         mkColumn "node_value" TEXT None]
        None) ∅;
   CallNonQuery
     (SqlCreateTable "way_data"
        [mkColumn "way_id" TEXT (Some (mkReference "way" "way_id" true true));
         mkColumn "raw_data" BLOB None;
         mkColumn "navi_number" INTEGER None;
         mkColumn "navi_table_id" TEXT None]
        (Some "way_id")) ∅;
   CallNonQuery
     (SqlCreateTable "navi_data"
        [mkColumn "way_id" TEXT (Some (mkReference "way" "way_id" true true));
         mkColumn "navi_index" INTEGER None;
         mkColumn "data" BLOB None]
        None) ∅].

(** The tables they make, each empty. *)
Definition new_tables : list (string * Table) :=
  [("speed_limit", mkTable ["id"; "speed"] [INTEGER; INTEGER] (Some "id") []);
   ("way", mkTable way_columns way_types (Some "way_id") []);
   ("way_nodes", mkTable way_nodes_columns way_nodes_types None []);
   ("way_data", mkTable way_data_columns way_data_types (Some "way_id") []);
   ("navi_data", mkTable navi_data_columns navi_data_types None [])].

Definition add_tables (new : list (string * Table))
           (tbls : gmap string Table) : gmap string Table :=
  fold_left (fun m e => <[fst e := snd e]> m) new tbls.



(** * Properties *)

(** ** The driver calls, one at a time *)

Lemma bind_run {A B} (m : Op A) (k : A -> Op B) (s : SQLiteWrapper) :
  bind m k s = match m s with
               | (Normal a, s') => k a s'
               | (out_of_range, s') => (out_of_range, s')
               end.
Proof. reflexivity. Qed.

Lemma run_pair {A} (op : Op A) (s : SQLiteWrapper) (r : Outcome A) :
  fst (op s) = r -> op s = (r, snd (op s)).
Proof. intros <-. by destruct (op s). Qed.

Lemma wrap64_id (z : Z) : is_uint64 z -> wrap64 z = z.
Proof. intros H. unfold wrap64. apply Z.mod_small. exact H. Qed.

Lemma wrap64_range (z : Z) : is_uint64 (wrap64 z).
Proof. unfold is_uint64, wrap64. apply Z.mod_pos_bound. lia. Qed.

Lemma take_fault_tables s : tables (snd (take_fault s)) = tables s.
Proof. unfold take_fault. by destruct (faults s). Qed.

Lemma take_fault_transaction s :
  transaction (snd (take_fault s)) = transaction s.
Proof. unfold take_fault. by destruct (faults s). Qed.

Lemma take_fault_calls s : calls (snd (take_fault s)) = calls s.
Proof. unfold take_fault. by destruct (faults s). Qed.

Lemma take_fault_no_fault s : no_fault s -> fst (take_fault s) = false.
Proof.
  unfold no_fault, take_fault. destruct (faults s) as [|[] fs]; simpl; congruence.
Qed.

(** [ExcuteNonQuery] always returns; it records itself in the history, keeps
    the transaction as it is, and changes the tables exactly when it
    succeeds. *)
Lemma ExcuteNonQuery_spec sql params s :
  exists ok s1,
    ExcuteNonQuery sql params s = (Normal ok, s1)
    /\ calls s1 = calls s ++ [CallNonQuery sql params ok]
    /\ transaction s1 = transaction s
    /\ (if ok then exec sql params (tables s) = Some (tables s1)
        else tables s1 = tables s).
Proof.
  unfold ExcuteNonQuery.
  pose proof (take_fault_tables s) as Ht.
  pose proof (take_fault_transaction s) as Hx.
  pose proof (take_fault_calls s) as Hc.
  destruct (take_fault s) as [fault s0]; simpl in *.
  destruct fault.
  - eexists false, _. split; [reflexivity|]. simpl. by rewrite Hc, Hx, Ht.
  - destruct (exec sql params (tables s0)) as [tbls|] eqn:E.
    + eexists true, _. split; [reflexivity|]. simpl.
      by rewrite Hc, Hx, <- Ht, E.
    + eexists false, _. split; [reflexivity|]. simpl. by rewrite Hc, Hx, Ht.
Qed.

(** Without a scheduled failure the outcome is the one of the statement. *)
Lemma ExcuteNonQuery_no_fault sql params s :
  no_fault s ->
  fst (ExcuteNonQuery sql params s)
  = Normal (bool_decide (is_Some (exec sql params (tables s)))).
Proof.
  intros Hn. unfold ExcuteNonQuery.
  pose proof (take_fault_tables s) as Ht.
  pose proof (take_fault_no_fault s Hn) as Hf.
  destruct (take_fault s) as [fault s0]; simpl in *. subst fault.
  rewrite Ht. by destruct (exec sql params (tables s)).
Qed.

Lemma ExcuteNonQuery_fault sql params s fs :
  faults s = true :: fs ->
  ExcuteNonQuery sql params s
  = (Normal false,
     mkSQLite (tables s) (transaction s) fs
              (calls s ++ [CallNonQuery sql params false])).
Proof. intros Hf. unfold ExcuteNonQuery, take_fault. by rewrite Hf. Qed.

(** [ExcuteQuery] never changes the tables. *)
Lemma ExcuteQuery_spec q s :
  exists reader s1,
    ExcuteQuery q s = (Normal reader, s1)
    /\ calls s1 = calls s ++ [CallQuery q (bool_decide (is_Some reader))]
    /\ transaction s1 = transaction s
    /\ tables s1 = tables s
    /\ (reader = None \/ reader = eval q (tables s)).
Proof.
  unfold ExcuteQuery.
  pose proof (take_fault_tables s) as Ht.
  pose proof (take_fault_transaction s) as Hx.
  pose proof (take_fault_calls s) as Hc.
  destruct (take_fault s) as [fault s0]; simpl in *.
  eexists _, _. split; [reflexivity|]. simpl. rewrite Hc, Hx, Ht.
  repeat split; try done. destruct fault; [by left | by right].
Qed.

Lemma ExcuteQuery_no_fault q s :
  no_fault s -> fst (ExcuteQuery q s) = Normal (eval q (tables s)).
Proof.
  intros Hn. unfold ExcuteQuery.
  pose proof (take_fault_tables s) as Ht.
  pose proof (take_fault_no_fault s Hn) as Hf.
  destruct (take_fault s) as [fault s0]; simpl in *. subst fault.
  by rewrite Ht.
Qed.

Lemma exec_insert (t : string) (cols : list string)
      (params : gmap nat SqliteValue) (tbls : gmap string Table) (tb : Table) :
  tbls !! t = Some tb ->
  exec (SqlInsert t cols) params tbls
  = (fun tb' => <[t := tb']> tbls) <$> insert_into tb cols params.
Proof. intros H. simpl. rewrite H. by destruct (insert_into tb cols params). Qed.

(** ** Multi-row saves *)

Lemma insert_each_spec {A} (bind_row : A -> SQLiteCommand -> SQLiteCommand)
      (items : list A) :
  forall cmd s,
  exists res s1 done_,
    insert_each bind_row items cmd s = (Normal res, s1)
    /\ calls s1 = calls s ++ insert_calls done_
    /\ map fst done_ = take (length done_) (bound_cmds bind_row items cmd)
    /\ res = forallb snd done_
    /\ transaction s1 = transaction s
    /\ (res = true ->
        map fst done_ = bound_cmds bind_row items cmd
        /\ apply_all (bound_cmds bind_row items cmd) (tables s)
           = Some (tables s1)).
Proof.
  induction items as [|x rest IH]; intros cmd s.
  - exists true, s, []. simpl. rewrite app_nil_r. by repeat split.
  - simpl. unfold bind, ExcuteNonQueryCmd.
    destruct (ExcuteNonQuery_spec (cmd_sql (bind_row x cmd))
                (cmd_params (bind_row x cmd)) s)
      as (ok & s1 & Hrun & Hc & Hx & Ht).
    rewrite Hrun. destruct ok; simpl.
    + destruct (IH (bind_row x cmd) s1)
        as (res & s2 & done_ & Hrun2 & Hc2 & Hp2 & Hr2 & Hx2 & Hok2).
      exists res, s2, ((bind_row x cmd, true) :: done_).
      rewrite Hrun2. split; [done|].
      split; [by rewrite Hc2, Hc, <- app_assoc|].
      split; [simpl; by rewrite Hp2|].
      split; [done|]. split; [congruence|].
      intros Hres. destruct (Hok2 Hres) as [E1 E2]. simpl.
      rewrite Ht. split; [by f_equal | done].
    + exists false, s1, [(bind_row x cmd, false)]. simpl.
      repeat split; done.
Qed.

(** BEGIN, the inserts, then COMMIT or ROLLBACK: the whole batch or nothing. *)
Lemma transactional_save {A} (bind_row : A -> SQLiteCommand -> SQLiteCommand)
      (items : list A) (cmd : SQLiteCommand) (s : SQLiteWrapper) :
  transaction s = None ->
  all_or_nothing
    (do _ <- BeginTransaction;
     do res <- insert_each bind_row items cmd;
     finish_transaction res)
    (bound_cmds bind_row items cmd) s.
Proof.
  intros Hx. unfold all_or_nothing, bind, BeginTransaction. rewrite Hx.
  destruct (insert_each_spec bind_row items cmd
              (mkSQLite (tables s) (Some (tables s)) (faults s)
                        (calls s ++ [CallBegin])))
    as (res & s1 & done_ & Hrun & Hc & Hp & Hr & Hx1 & Hok).
  simpl in *. rewrite Hrun.
  destruct res; simpl; unfold bind, CommitTransaction, RollbackTransaction.
  - eexists true, _, done_. split; [reflexivity|]. simpl.
    rewrite Hc, <- !app_assoc. repeat (split; [done|]).
    destruct (Hok eq_refl) as [E1 E2]. by rewrite E2.
  - eexists false, _, done_. split; [reflexivity|]. simpl.
    rewrite Hc, Hx1, <- !app_assoc. by repeat (split; [done|]).
Qed.

(** ** Multi-row saves, call by call *)

(** The insert loop: either every command was sent and has succeeded, or the
    loop has stopped at the first command that failed. *)
Lemma insert_each_trace {A} (bind_row : A -> SQLiteCommand -> SQLiteCommand)
      (items : list A) :
  forall cmd s,
  exists res s1,
    insert_each bind_row items cmd s = (Normal res, s1)
    /\ transaction s1 = transaction s
    /\ (if res
        then calls s1
             = calls s
               ++ map (fun c => CallNonQuery (cmd_sql c) (cmd_params c) true)
                      (bound_cmds bind_row items cmd)
             /\ apply_all (bound_cmds bind_row items cmd) (tables s)
                = Some (tables s1)
        else exists k c,
            bound_cmds bind_row items cmd !! k = Some c
            /\ calls s1
               = calls s
                 ++ map (fun c => CallNonQuery (cmd_sql c) (cmd_params c) true)
                        (take k (bound_cmds bind_row items cmd))
                 ++ [CallNonQuery (cmd_sql c) (cmd_params c) false]).
Proof.
  induction items as [|x rest IH]; intros cmd s.
  - exists true, s. simpl. by rewrite app_nil_r.
  - cbn [insert_each bound_cmds]. rewrite bind_run. unfold ExcuteNonQueryCmd.
    destruct (ExcuteNonQuery_spec (cmd_sql (bind_row x cmd))
                (cmd_params (bind_row x cmd)) s)
      as (ok & s1 & Hrun & Hc & Hx & Ht).
    rewrite Hrun. destruct ok; cbn [negb].
    + destruct (IH (bind_row x cmd) s1) as (res & s2 & Hrun2 & Hx2 & Hres).
      exists res, s2. rewrite Hrun2. split; [done|]. split; [congruence|].
      destruct res.
      * destruct Hres as [Hc2 Hall]. split.
        -- rewrite Hc2, Hc, <- app_assoc. reflexivity.
        -- cbn [apply_all]. by rewrite Ht.
      * destruct Hres as (k & c & Hk & Hc2).
        exists (S k), c. split; [done|].
        rewrite Hc2, Hc, <- app_assoc. reflexivity.
    + exists false, s1. split; [done|]. split; [done|].
      exists 0%nat, (bind_row x cmd). split; [done|]. by rewrite Hc.
Qed.

Lemma lookup_map {A B} (f : A -> B) (l : list A) (k : nat) (x : A) :
  l !! k = Some x -> map f l !! k = Some (f x).
Proof.
  revert k. induction l as [|a l IH]; intros [|k] H; try done.
  - injection H as ->. reflexivity.
  - by apply IH.
Qed.

(** BEGIN, the insert loop, then COMMIT or ROLLBACK. *)
Lemma transactional_trace {A} (bind_row : A -> SQLiteCommand -> SQLiteCommand)
      (items : list A) (cmd : SQLiteCommand) (s : SQLiteWrapper) :
  transaction s = None ->
  exists res s' made,
    (do _ <- BeginTransaction;
     do res <- insert_each bind_row items cmd;
     finish_transaction res) s = (Normal res, s')
    /\ transaction s' = None
    /\ calls s' = calls s ++ made
    /\ batch_calls
         (map (fun c => CallNonQuery (cmd_sql c) (cmd_params c))
              (bound_cmds bind_row items cmd)) res made
    /\ (if res
        then apply_all (bound_cmds bind_row items cmd) (tables s)
             = Some (tables s')
        else tables s' = tables s).
Proof.
  intros Hx. rewrite bind_run. unfold BeginTransaction. rewrite Hx. cbn iota.
  rewrite bind_run.
  destruct (insert_each_trace bind_row items cmd
              (mkSQLite (tables s) (Some (tables s)) (faults s)
                        (calls s ++ [CallBegin])))
    as (res & s1 & Hrun & Hx1 & Hres).
  rewrite Hrun. cbn [tables transaction calls] in Hx1, Hres.
  unfold finish_transaction, batch_calls, succeeded, failed.
  destruct res; rewrite bind_run; cbn iota.
  - destruct Hres as [Hc Hall]. eexists true, _, _.
    split; [reflexivity|]. cbn [transaction calls tables].
    split; [done|]. split; [|split; [reflexivity|done]].
    rewrite Hc, <- !app_assoc, map_map. reflexivity.
  - destruct Hres as (k & c & Hk & Hc). eexists false, _, _.
    split; [reflexivity|]. unfold RollbackTransaction.
    cbn [transaction calls tables]. rewrite Hx1.
    split; [done|]. split; [|split; [|done]].
    + rewrite Hc, <- !app_assoc. reflexivity.
    + exists k, (CallNonQuery (cmd_sql c) (cmd_params c)).
      split;
        [exact (lookup_map (fun c => CallNonQuery (cmd_sql c) (cmd_params c))
                           _ k c Hk)|].
      rewrite firstn_map, map_map. reflexivity.
Qed.

(** A run of successful inserts into one table appends, to the rows the
    table had, the row of each insert. *)
Lemma apply_all_inserts (t : string) (cols : list string)
      (ps : list (gmap nat SqliteValue)) :
  forall (tbls tbls' : gmap string Table) (tb : Table),
    tbls !! t = Some tb ->
    apply_all (map (mkCommand (SqlInsert t cols)) ps) tbls = Some tbls' ->
    tbls'
    = <[t := set_rows tb (rows tb
                          ++ map (insert_row (columns tb) cols) ps)]> tbls.
Proof.
  induction ps as [|p ps IH]; intros tbls tbls' tb Htb Hall.
  - simpl in Hall. injection Hall as <-. simpl. rewrite app_nil_r.
    rewrite insert_id; [done|]. rewrite Htb. by destruct tb.
  - cbn [map apply_all cmd_sql cmd_params] in Hall.
    rewrite (exec_insert _ _ _ _ tb Htb) in Hall.
    unfold insert_into in Hall at 1.
    destruct (negb (all_known (columns tb) cols)); [discriminate|].
    destruct (pk_conflict tb _); [discriminate|]. cbn [fmap option_fmap
      option_map] in Hall.
    rewrite (IH _ tbls' _ (lookup_insert_eq _ _ _) Hall).
    rewrite insert_insert_eq. cbn [set_rows columns rows types primary_key].
    by rewrite <- app_assoc.
Qed.

(** The commands the three batches send. *)
Lemma bound_cmds_nodes (id : Z) (nodes : list Node) :
  forall cmd,
    cmd_sql cmd = SqlInsert "way_nodes" way_nodes_columns ->
    (forall i, i <> 2%nat -> i <> 3%nat -> i <> 4%nat ->
               cmd_params cmd !! i
               = ({[1%nat := VInt id]} : gmap nat SqliteValue) !! i) ->
    bound_cmds SaveWayNodes_bind nodes cmd
    = map (mkCommand (SqlInsert "way_nodes" way_nodes_columns))
          (map (fun n =>
                  <[4%nat := VText (node_value n)]>
                    (<[3%nat := VInt (data_line_number n)]>
                       (<[2%nat := VInt (node_index n)]>
                          {[1%nat := VInt id]}))) nodes).
Proof.
  induction nodes as [|n nodes IH]; intros cmd Hsql Hp; [done|].
  cbn [bound_cmds map]. f_equal.
  - unfold SaveWayNodes_bind, BindParam. cbn [cmd_sql cmd_params].
    rewrite Hsql. f_equal. apply map_eq. intros i.
    destruct (decide (i = 4%nat)) as [->|H4];
      [by rewrite !lookup_insert_eq|].
    rewrite !(lookup_insert_ne _ 4%nat) by done.
    destruct (decide (i = 3%nat)) as [->|H3];
      [by rewrite !lookup_insert_eq|].
    rewrite !(lookup_insert_ne _ 3%nat) by done.
    destruct (decide (i = 2%nat)) as [->|H2];
      [by rewrite !lookup_insert_eq|].
    rewrite !(lookup_insert_ne _ 2%nat) by done.
    by apply Hp.
  - apply IH; [done|]. intros i H2 H3 H4.
    unfold SaveWayNodes_bind, BindParam. cbn [cmd_params].
    rewrite !lookup_insert_ne by done. by apply Hp.
Qed.

Lemma bound_cmds_navi (id : Z) (entries : list NaviData) :
  forall cmd,
    cmd_sql cmd = SqlInsert "navi_data" navi_data_columns ->
    (forall i, i <> 2%nat -> i <> 3%nat ->
               cmd_params cmd !! i
               = ({[1%nat := VInt id]} : gmap nat SqliteValue) !! i) ->
    bound_cmds SaveNaviData_bind entries cmd
    = map (mkCommand (SqlInsert "navi_data" navi_data_columns))
          (map (fun d =>
                  <[3%nat := VBlob (data d)]>
                    (<[2%nat := VInt (navi_index d)]>
                       {[1%nat := VInt id]})) entries).
Proof.
  induction entries as [|d entries IH]; intros cmd Hsql Hp; [done|].
  cbn [bound_cmds map]. f_equal.
  - unfold SaveNaviData_bind, BindParam. cbn [cmd_sql cmd_params].
    rewrite Hsql. f_equal. apply map_eq. intros i.
    destruct (decide (i = 3%nat)) as [->|H3];
      [by rewrite !lookup_insert_eq|].
    rewrite !(lookup_insert_ne _ 3%nat) by done.
    destruct (decide (i = 2%nat)) as [->|H2];
      [by rewrite !lookup_insert_eq|].
    rewrite !(lookup_insert_ne _ 2%nat) by done.
    by apply Hp.
  - apply IH; [done|]. intros i H2 H3.
    unfold SaveNaviData_bind, BindParam. cbn [cmd_params].
    rewrite !lookup_insert_ne by done. by apply Hp.
Qed.

Lemma bound_cmds_seed :
  bound_cmds FillTableSpeedLimit_bind FillTableSpeedLimit_range
             (NewCommand (SqlInsert "speed_limit" ["id"; "speed"]))
  = map (mkCommand (SqlInsert "speed_limit" ["id"; "speed"]))
        (map (fun id => <[2%nat := VInt (30 + 10 * (id - 1))]>
                          {[1%nat := VInt id]})
             (map Z.of_nat (seq 1 13))).
Proof. reflexivity. Qed.

(** From the commands of a batch to its calls and its rows. *)
Lemma batch_of_commands {A}
      (bind_row : A -> SQLiteCommand -> SQLiteCommand) (items : list A)
      (cmd : SQLiteCommand) (t : string) (cols : list string)
      (ps : list (gmap nat SqliteValue))
      (new_rows : list (list SqliteValue)) (s : SQLiteWrapper) :
  bound_cmds bind_row items cmd = map (mkCommand (SqlInsert t cols)) ps ->
  map (insert_row cols cols) ps = new_rows ->
  transaction s = None ->
  all_rows_or_none
    (do _ <- BeginTransaction;
     do res <- insert_each bind_row items cmd;
     finish_transaction res)
    t cols (map (CallNonQuery (SqlInsert t cols)) ps) new_rows s.
Proof.
  intros Hcmds Hrows Hx.
  destruct (transactional_trace bind_row items cmd s Hx)
    as (res & s' & made & Hrun & Hx' & Hc & Hb & Ht).
  exists res, s', made. split; [done|]. split; [done|]. split; [done|].
  rewrite Hcmds in Hb, Ht. rewrite map_map in Hb. split; [exact Hb|].
  destruct res; [|done]. split.
  - intros tb Htb Hcols.
    rewrite (apply_all_inserts t cols ps _ _ tb Htb Ht).
    by rewrite Hcols, Hrows.
  - intros ->. destruct ps; [|discriminate]. simpl in Ht. congruence.
Qed.

Lemma SaveWayNodes_batch (s : SQLiteWrapper) (way_nodes : WayNodes) :
  transaction s = None ->
  all_rows_or_none (SaveWayNodes way_nodes) "way_nodes" way_nodes_columns
    (map (node_insert (way_nodes_way_id way_nodes)) (nodes way_nodes))
    (map (node_row (way_nodes_way_id way_nodes)) (nodes way_nodes)) s.
Proof.
  intros Hx.
  pose proof (batch_of_commands SaveWayNodes_bind (nodes way_nodes)
                (SaveWayNodes_cmd way_nodes) "way_nodes" way_nodes_columns
                _ (map (node_row (way_nodes_way_id way_nodes))
                       (nodes way_nodes)) s
                (bound_cmds_nodes (way_nodes_way_id way_nodes)
                   (nodes way_nodes) (SaveWayNodes_cmd way_nodes) eq_refl
                   ltac:(intros i H2 H3 H4; reflexivity))) as H.
  rewrite !map_map in H. apply H; [|done].
  apply map_ext. intros n. reflexivity.
Qed.

Lemma SaveNaviData_batch (s : SQLiteWrapper) (navi_info : NaviInfo) :
  transaction s = None ->
  all_rows_or_none (SaveNaviData navi_info) "navi_data" navi_data_columns
    (map (navi_insert (navi_info_way_id navi_info)) (navi_data navi_info))
    (map (navi_row (navi_info_way_id navi_info)) (navi_data navi_info)) s.
Proof.
  intros Hx.
  pose proof (batch_of_commands SaveNaviData_bind (navi_data navi_info)
                (SaveNaviData_cmd navi_info) "navi_data" navi_data_columns
                _ (map (navi_row (navi_info_way_id navi_info))
                       (navi_data navi_info)) s
                (bound_cmds_navi (navi_info_way_id navi_info)
                   (navi_data navi_info) (SaveNaviData_cmd navi_info)
                   eq_refl ltac:(intros i H2 H3; reflexivity))) as H.
  rewrite !map_map in H. apply H; [|done].
  apply map_ext. intros d. reflexivity.
Qed.

Lemma FillTableSpeedLimit_batch (s : SQLiteWrapper) :
  transaction s = None ->
  all_rows_or_none FillTableSpeedLimit "speed_limit" ["id"; "speed"]
    seed_inserts seed_rows s.
Proof.
  intros Hx.
  pose proof (batch_of_commands FillTableSpeedLimit_bind
                FillTableSpeedLimit_range
                (NewCommand (SqlInsert "speed_limit" ["id"; "speed"]))
                "speed_limit" ["id"; "speed"] _ seed_rows s
                bound_cmds_seed) as H.
  rewrite !map_map in H. apply H; [|done]. reflexivity.
Qed.

(** C1. Each multi-row save -- [SaveWayNodes], [SaveNaviData] and the seed
    batch [FillTableSpeedLimit] -- started with no transaction open writes
    its rows inside one transaction. It sends BEGIN and then one INSERT per
    row, in order, stopping at the first that fails. When every insert has
    succeeded it sends COMMIT and returns [true]: the table holds its old
    rows followed by one row per node (per entry, per seed id). When an
    insert has failed it sends ROLLBACK and returns [false]: every table is
    as it was before the call, the rows already inserted included. No
    transaction is left open. *)
Theorem multi_row_save_all_or_nothing
        (s : SQLiteWrapper) (way_nodes : WayNodes) (navi_info : NaviInfo) :
  transaction s = None ->
  all_rows_or_none (SaveWayNodes way_nodes) "way_nodes" way_nodes_columns
    (map (node_insert (way_nodes_way_id way_nodes)) (nodes way_nodes))
    (map (node_row (way_nodes_way_id way_nodes)) (nodes way_nodes)) s
  /\ all_rows_or_none (SaveNaviData navi_info) "navi_data" navi_data_columns
       (map (navi_insert (navi_info_way_id navi_info)) (navi_data navi_info))
       (map (navi_row (navi_info_way_id navi_info)) (navi_data navi_info)) s
  /\ all_rows_or_none FillTableSpeedLimit "speed_limit" ["id"; "speed"]
       seed_inserts seed_rows s.
Proof.
  intros Hx. split; [|split].
  - by apply SaveWayNodes_batch.
  - by apply SaveNaviData_batch.
  - by apply FillTableSpeedLimit_batch.
Qed.

Lemma multi_row_save_all_or_nothing_witness :
  let s := failing_at 1 fresh_db in
  all_rows_or_none (SaveWayNodes sample_nodes) "way_nodes" way_nodes_columns
    (map (node_insert 1) (nodes sample_nodes))
    (map (node_row 1) (nodes sample_nodes)) s
  /\ all_rows_or_none (SaveNaviData sample_navi) "navi_data" navi_data_columns
       (map (navi_insert 1) (navi_data sample_navi))
       (map (navi_row 1) (navi_data sample_navi)) s
  /\ all_rows_or_none FillTableSpeedLimit "speed_limit" ["id"; "speed"]
       seed_inserts seed_rows s.
Proof.
  apply (multi_row_save_all_or_nothing (failing_at 1 fresh_db)
           sample_nodes sample_navi).
  reflexivity.
Defined.

(** A failure at the second of three rows: the first row was inserted, the
    third was never sent, and nothing of the batch is left. *)
Example SaveWayNodes_second_row_fails :
  let s := failing_at 1 fresh_db in
  fst (SaveWayNodes sample_nodes s) = Normal false
  /\ tables (snd (SaveWayNodes sample_nodes s)) = tables s
  /\ length (calls (snd (SaveWayNodes sample_nodes s)))
     = (length (calls s) + 4)%nat.
Proof. repeat split; reflexivity. Qed.

Example SaveWayNodes_all_rows_succeed :
  fst (SaveWayNodes sample_nodes fresh_db) = Normal true
  /\ rows <$> (tables (snd (SaveWayNodes sample_nodes fresh_db))
               !! "way_nodes")
     = Some [[VInt 1; VInt 0; VInt 10; VText "a"];
             [VInt 1; VInt 1; VInt 11; VText "b"];
             [VInt 1; VInt 2; VInt 12; VText "c"]].
Proof. repeat split; reflexivity. Qed.

(** ** Schema management *)

Lemma like_table_name (i : nat) (name : string) :
  kTableNames !! i = Some name -> like name name = true.
Proof.
  intros H. do 5 (destruct i as [|i]; [injection H as <-; reflexivity|]).
  discriminate.
Qed.

Lemma wrap_int_small (z : Z) : 0 <= z < 2 ^ 31 -> wrap_int z = z.
Proof. intros H. unfold wrap_int. rewrite Z.mod_small; lia. Qed.

(** The catalog query counts at least the table itself. *)
Lemma count_master_present (tbls : gmap string Table) (name : string) :
  is_Some (tbls !! name) -> like name name = true ->
  (1 <= length (List.filter (like name) (map fst (map_to_list tbls)))
   <= size tbls)%nat.
Proof.
  intros [tb Htb] Hl. split.
  - assert (In name (List.filter (like name) (map fst (map_to_list tbls))))
      as Hin.
    { apply filter_In. split; [|done].
      apply in_map_iff. exists (name, tb). split; [done|].
      apply list_elem_of_In, elem_of_map_to_list. done. }
    destruct (List.filter _ _); [destruct Hin | simpl; lia].
  - etrans; [apply List.filter_length_le|].
    by rewrite length_map, length_map_to_list.
Qed.

Lemma count_master_like (tbls : gmap string Table) (pattern name : string) :
  is_Some (tbls !! name) -> like pattern name = true ->
  (1 <= length (List.filter (like pattern) (map fst (map_to_list tbls)))
   <= size tbls)%nat.
Proof.
  intros [tb Htb] Hl. split.
  - assert (In name (List.filter (like pattern) (map fst (map_to_list tbls))))
      as Hin.
    { apply filter_In. split; [|done].
      apply in_map_iff. exists (name, tb). split; [done|].
      apply list_elem_of_In, elem_of_map_to_list. done. }
    destruct (List.filter _ _); [destruct Hin | simpl; lia].
  - etrans; [apply List.filter_length_le|].
    by rewrite length_map, length_map_to_list.
Qed.

(** A table of the fixed set that is in the catalog is reported as
    existing, provided the catalog query itself does not fail. *)
Lemma IsTableExisting_present (i : nat) (name : string) (s : SQLiteWrapper) :
  kTableNames !! i = Some name ->
  is_Some (tables s !! name) ->
  no_fault s ->
  Z.of_nat (size (tables s)) < 2 ^ 31 ->
  fst (IsTableExisting i s) = Normal true.
Proof.
  intros Hi Hin Hn Hsz. unfold IsTableExisting.
  assert (i < 5)%nat as Hlt by (apply lookup_lt_Some in Hi; exact Hi).
  replace (kMaxNumberOfTables <=? i)%nat with false
    by (symmetry; apply Nat.leb_gt; exact Hlt).
  unfold bind, at_. rewrite Hi. unfold ret at 1.
  pose proof (ExcuteQuery_no_fault (SqlSelectCountMaster name) s Hn) as Hq.
  destruct (ExcuteQuery (SqlSelectCountMaster name) s) as [r s1].
  simpl in Hq. subst r. simpl.
  pose proof (count_master_present (tables s) name Hin
                (like_table_name i name Hi)) as [H1 H2].
  unfold ret, GetIntValue, column. simpl. rewrite wrap_int_small by lia.
  replace (0 <? _) with true; [done|]. symmetry. apply Z.ltb_lt. lia.
Qed.

(** The existence test only reads: whatever it answers, the tables are
    unchanged and one catalog query was made (none for a bad index). *)
Lemma IsTableExisting_reads (i : nat) (s : SQLiteWrapper) :
  exists (existing : bool) (s1 : SQLiteWrapper),
    IsTableExisting i s = (Normal existing, s1)
    /\ tables s1 = tables s
    /\ transaction s1 = transaction s
    /\ (exists made, calls s1 = calls s ++ made
                     /\ forall c, In c made -> exists q ok, c = CallQuery q ok).
Proof.
  unfold IsTableExisting.
  destruct (kMaxNumberOfTables <=? i)%nat eqn:E.
  - exists false, s. repeat split; try done. exists []. rewrite app_nil_r.
    split; [done|]. intros c [].
  - apply Nat.leb_gt in E. destruct (lookup_lt_is_Some_2 kTableNames i E)
      as [name Hname].
    unfold bind, at_. rewrite Hname. unfold ret at 1.
    destruct (ExcuteQuery_spec (SqlSelectCountMaster name) s)
      as (reader & s1 & Hrun & Hc & Hx & Ht & _).
    rewrite Hrun.
    assert (exists made, calls s1 = calls s ++ made
              /\ forall c, In c made -> exists q ok, c = CallQuery q ok) as Hm.
    { eexists [_]. split; [exact Hc|]. intros c [<-|[]]. eauto. }
    destruct reader as [reader|]; eexists _, s1; (split; [reflexivity|]);
      done.
Qed.

(** [CreateTable] on an index of the fixed set returns normally; it makes
    one call, and the catalog changes exactly when it succeeds. *)
Lemma CreateTable_valid (i : nat) (s : SQLiteWrapper) :
  (i < kMaxNumberOfTables)%nat ->
  exists ok s1,
    CreateTable i s = (Normal ok, s1)
    /\ calls s1 = calls s ++ [CallNonQuery (CreateTable_sql i) ∅ ok]
    /\ transaction s1 = transaction s
    /\ (if ok then exec (CreateTable_sql i) ∅ (tables s) = Some (tables s1)
        else tables s1 = tables s).
Proof.
  intros Hlt. unfold CreateTable, bind.
  destruct (ExcuteNonQuery_spec (CreateTable_sql i) ∅ s)
    as (ok & s1 & Hrun & Hc & Hx & Ht).
  rewrite Hrun. exists ok, s1. destruct ok; simpl.
  - by repeat split.
  - destruct (lookup_lt_is_Some_2 kTableNames i Hlt) as [name Hname].
    unfold at_. rewrite Hname. by repeat split.
Qed.

(** ** Initialization, call by call *)


Lemma ExcuteQuery_runs (q : Query) (s : SQLiteWrapper) :
  no_fault s ->
  ExcuteQuery q s
  = (Normal (eval q (tables s)),
     mkSQLite (tables s) (transaction s) (tail (faults s))
              (calls s ++ [CallQuery q (bool_decide (is_Some
                                          (eval q (tables s))))])).
Proof.
  intros Hn. unfold ExcuteQuery, take_fault, no_fault in *.
  destruct (faults s) as [|[] fs] eqn:E; simpl in *; try done.
  by destruct s; simpl in *; subst.
Qed.







(** The run on an empty database succeeds; a failure of the fourth call
    stops it after two tables. *)
Example InitDatabase_on_empty_db :
  fst (InitDatabase empty_db) = Normal true
  /\ tables fresh_db
     = <["speed_limit" := speed_limit_table]> (add_tables new_tables ∅)
  /\ calls fresh_db
     = [CallQuery (SqlSelectCountMaster "way") true]
       ++ map succeeded init_creates
       ++ [CallBegin] ++ map succeeded seed_inserts ++ [CallCommit].
Proof. repeat split; reflexivity. Qed.

Example InitDatabase_stops_at_first_failure :
  let s := failing_at 3 empty_db in
  fst (InitDatabase s) = Normal false
  /\ map fst (map_to_list (tables (snd (InitDatabase s))))
     = ["way"; "speed_limit"]
  /\ length (calls (snd (InitDatabase s))) = 4%nat.
Proof. repeat split; reflexivity. Qed.

Example InitDatabase_twice :
  fst (InitDatabase fresh_db) = Normal true
  /\ tables (snd (InitDatabase fresh_db)) = tables fresh_db
  /\ length (calls (snd (InitDatabase fresh_db)))
     = S (length (calls fresh_db)).
Proof. repeat split; reflexivity. Qed.

(** ** Reading loops *)

(** Texts and blobs read through the integer getters. *)
Example int_of_value_examples :
  int_of_value (VText "9") = 9
  /\ int_of_value (VText "  -12ab") = -12
  /\ int_of_value (VText "abc") = 0
  /\ int_of_value (VBlob [Byte.x35]) = 5
  /\ int_of_value (VText "99999999999999999999") = 2 ^ 63 - 1.
Proof. repeat split; reflexivity. Qed.

Lemma while_Read_last {S} (f : list SqliteValue -> S)
      (reader : list (list SqliteValue)) (row : list SqliteValue) (init : S) :
  while_Read (fun _ r => f r) (reader ++ [row]) init = f row.
Proof. unfold while_Read. by rewrite fold_left_app. Qed.

(** A loop whose body sets [res = true] leaves [res] true exactly when it
    ran at least once, and leaves the output alone when it did not run. *)
Lemma while_Read_flag {S} (body : bool * S -> list SqliteValue -> bool * S)
      (reader : list (list SqliteValue)) (out : S) :
  (forall acc row, fst (body acc row) = true) ->
  fst (while_Read body reader (false, out))
  = match reader with [] => false | _ :: _ => true end
  /\ (reader = [] -> snd (while_Read body reader (false, out)) = out).
Proof.
  intros Hbody. split; [|by intros ->].
  unfold while_Read. destruct reader as [|row reader]; [done|].
  simpl. generalize (body (false, out) row) (Hbody (false, out) row).
  induction reader as [|r reader IH]; intros acc Hacc; simpl; [done|].
  apply IH, Hbody.
Qed.

(** ** Ways: NULL links and speed limits *)

Lemma SaveWay_cmd_eq (way : Way) :
  SaveWay_cmd way
  = mkCommand (SqlInsert "way" way_columns)
      (<[5%nat := VInt (speed_max way)]>
         (<[4%nat := VInt (speed_min way)]>
            (<[3%nat := link_value (next_way_id way)]>
               (<[2%nat := link_value (pre_way_id way)]>
                  (<[1%nat := VInt (way_id way)]> ∅))))).
Proof.
  unfold SaveWay_cmd, link_value, BindNull, BindParam, NewCommand.
  by destruct (pre_way_id way =? 0), (next_way_id way =? 0).
Qed.

Lemma UpdateWay_cmd_eq (id : Z) (way : Way) :
  UpdateWay_cmd id way
  = mkCommand
      (SqlUpdate "way"
         ["pre_way_id"; "next_way_id"; "speed_min"; "speed_max"] "way_id")
      (<[5%nat := VInt id]>
         (<[4%nat := VInt (speed_max way)]>
            (<[3%nat := VInt (speed_min way)]>
               (<[2%nat := link_value (next_way_id way)]>
                  (<[1%nat := link_value (pre_way_id way)]> ∅))))).
Proof.
  unfold UpdateWay_cmd, link_value, BindNull, BindParam, NewCommand.
  by destruct (pre_way_id way =? 0), (next_way_id way =? 0).
Qed.

Lemma insert_row_way (way : Way) :
  insert_row way_columns way_columns (cmd_params (SaveWay_cmd way))
  = way_row way.
Proof. rewrite SaveWay_cmd_eq. reflexivity. Qed.

Lemma SaveWay_appends (way : Way) (s s1 : SQLiteWrapper) (tb : Table) :
  tables s !! "way" = Some tb ->
  columns tb = way_columns ->
  SaveWay way s = (Normal true, s1) ->
  tables s1 = <["way" := set_rows tb (rows tb ++ [way_row way])]> (tables s).
Proof.
  intros Htb Hcols Hrun. unfold SaveWay, ExcuteNonQueryCmd in Hrun.
  rewrite bind_run in Hrun.
  destruct (ExcuteNonQuery_spec (cmd_sql (SaveWay_cmd way))
              (cmd_params (SaveWay_cmd way)) s)
    as (ok & s' & Hrun' & _ & _ & Ht).
  rewrite Hrun' in Hrun.
  destruct ok; unfold ret in Hrun; simpl in Hrun; [|discriminate].
  assert (s' = s1) as <- by congruence.
  replace (cmd_sql (SaveWay_cmd way)) with (SqlInsert "way" way_columns) in Ht
    by (by rewrite SaveWay_cmd_eq).
  rewrite (exec_insert _ _ _ _ tb Htb) in Ht. unfold insert_into in Ht.
  rewrite Hcols, insert_row_way in Ht.
  change (all_known way_columns way_columns) with true in Ht. simpl in Ht.
  destruct (pk_conflict tb (way_row way)); [discriminate|].
  simpl in Ht. congruence.
Qed.

Lemma eval_select_all (t : string) (col : string) (v : Z)
      (tbls : gmap string Table) (tb : Table) (i : nat) :
  tbls !! t = Some tb ->
  index_of (columns tb) col = Some i ->
  eval (SqlSelect None t [(col, v)]) tbls
  = Some (List.filter (fun row => sql_eqb (column row i) (VInt v)) (rows tb)).
Proof.
  intros Htb Hi. simpl. rewrite Htb. unfold all_known. simpl. rewrite Hi.
  simpl. f_equal. rewrite map_id. apply filter_ext. intros row.
  unfold cond_holds. simpl. rewrite Hi. apply andb_true_r.
Qed.

(** A link survives the trip through [link_value] and the NULL-aware read. *)
Lemma link_value_decode (row : list SqliteValue) (i : nat) (v : Z) :
  is_uint64 v -> column row i = link_value v -> GetUint64OrZero row i = v.
Proof.
  intros Hv Hc. unfold GetUint64OrZero, GetDataType, GetUint64Value.
  rewrite Hc. unfold link_value. destruct (v =? 0) eqn:E; simpl.
  - apply Z.eqb_eq in E. by subst.
  - by apply wrap64_id.
Qed.

(** A way saved with [speed_min = 0] holds the integer 0 in that column,
    while its links that are 0 hold NULL. *)
Example SaveWay_zero_speed_is_stored_as_zero :
  rows <$> (tables (snd (SaveWay sample_way fresh_db)) !! "way")
  = Some [[VInt 1; VNull; VInt 7; VInt 0; VInt 3]].
Proof. reflexivity. Qed.

(** ** Queries by way id *)

Lemma QueryNaviDataWithWayId_rows (reader : list (list SqliteValue))
      (res : bool) (old : list NaviData) :
  while_Read QueryNaviDataWithWayId_row reader (res, old)
  = (if at_least_one reader then true else res,
     old ++ map NaviData_of_row reader).
Proof.
  unfold while_Read. revert res old.
  induction reader as [|row reader IH]; intros res old; simpl.
  - by rewrite app_nil_r.
  - unfold QueryNaviDataWithWayId_row at 2. simpl. rewrite IH.
    rewrite <- app_assoc. simpl.
    by destruct (at_least_one reader).
Qed.

(** C10. The list query appends to the caller's vector and never clears it:
    whatever the vector holds on entry stays in place, in order, and the
    entries built from the rows read follow it; the flag tells whether a row
    was read. *)
Theorem QueryNaviDataWithWayId_appends
        (way_id : Z) (old : list NaviData) (s : SQLiteWrapper) :
  exists (reader : option (list (list SqliteValue))) (s' : SQLiteWrapper),
    ExcuteQuery (SqlSelect (Some ["navi_index"; "data"]) "navi_data"
                           [("way_id", way_id)]) s
    = (Normal reader, s')
    /\ QueryNaviDataWithWayId way_id old s
       = (Normal (at_least_one (rows_read reader),
                  old ++ map NaviData_of_row (rows_read reader)), s').
Proof.
  unfold QueryNaviDataWithWayId. rewrite bind_run.
  destruct (ExcuteQuery _ s) as [[reader|] s'] eqn:E.
  - exists reader, s'. split; [done|]. destruct reader as [reader|].
    + unfold ret. rewrite QueryNaviDataWithWayId_rows. simpl.
      by destruct (at_least_one reader).
    + unfold ret. simpl. by rewrite app_nil_r.
  - exfalso. destruct (ExcuteQuery_spec
      (SqlSelect (Some ["navi_index"; "data"]) "navi_data"
                 [("way_id", way_id)]) s) as (r & s1 & H & _).
    congruence.
Qed.

Example QueryNaviDataWithWayId_keeps_old_entries :
  let s := snd (SaveNaviData sample_navi fresh_db) in
  fst (QueryNaviDataWithWayId 1 [mkNaviData 9 []] s)
  = Normal (true, [mkNaviData 9 []; mkNaviData 0 [Byte.x78];
                   mkNaviData 1 [Byte.x79]])
  /\ fst (QueryNaviDataWithWayId 2 [mkNaviData 9 []] s)
     = Normal (false, [mkNaviData 9 []]).
Proof. split; reflexivity. Qed.

(** The common shape of the single-record queries. *)
Lemma query_loop_found {Out} (q : Query)
      (body : bool * Out -> list SqliteValue -> bool * Out) :
  (forall acc row, fst (body acc row) = true) ->
  found_iff_row_read q
    (fun out =>
       do reader <- ExcuteQuery q;
       match reader with
       | None => ret (false, out)
       | Some reader => ret (while_Read body reader (false, out))
       end).
Proof.
  intros Hbody out s. rewrite bind_run.
  destruct (ExcuteQuery_spec q s) as (reader & s' & Hrun & _).
  rewrite Hrun. exists reader, s'.
  destruct reader as [reader|]; simpl.
  - exists (snd (while_Read body reader (false, out))).
    destruct (while_Read_flag body reader out Hbody) as [Hf Ho].
    split; [done|]. split; [|done].
    unfold ret, rows_read, at_least_one. simpl. rewrite <- Hf.
    by destruct (while_Read _ _ _).
  - exists out. by repeat split.
Qed.

Lemma QueryWayNodesWithWayId_rows (reader : list (list SqliteValue))
      (res : bool) (acc : list Node) :
  exists more,
    while_Read QueryWayNodesWithWayId_row reader (res, acc)
    = (if at_least_one reader then true else res, acc ++ more)
    /\ length more = length reader.
Proof.
  unfold while_Read. revert res acc.
  induction reader as [|row reader IH]; intros res acc; simpl.
  - exists []. by rewrite app_nil_r.
  - unfold QueryWayNodesWithWayId_row at 2. simpl.
    destruct (IH true (acc ++ [mkNode (GetUint64Value row 1)
                                      (GetUint64Value row 2)
                                      (GetStringValue row 3)]))
      as (more & -> & Hlen).
    eexists (_ :: more). rewrite <- app_assoc. simpl.
    split; [|by rewrite Hlen]. by destruct (at_least_one reader).
Qed.

(** C6. Each query by way id -- for a way, its nodes, its data, its
    navigation entries (the list and the single-entry form) -- returns
    [true] exactly when its reader delivered at least one row. A query that
    ran and matched no row, like one that failed, returns [false] and leaves
    the output parameter as the caller passed it. *)
Theorem queries_found_iff_row_read (way_id navi_index : Z) :
  found_iff_row_read (SqlSelect None "way" [("way_id", way_id)])
                     (QueryWayWithWayId way_id)
  /\ found_iff_row_read (SqlSelect None "way_nodes" [("way_id", way_id)])
                        (QueryWayNodesWithWayId way_id)
  /\ found_iff_row_read (SqlSelect None "way_data" [("way_id", way_id)])
                        (QueryWayDataWithWayId way_id)
  /\ found_iff_row_read
       (SqlSelect (Some ["navi_index"; "data"]) "navi_data"
                  [("way_id", way_id)])
       (QueryNaviDataWithWayId way_id)
  /\ found_iff_row_read
       (SqlSelect (Some ["data"]) "navi_data"
                  [("way_id", way_id); ("navi_index", navi_index)])
       (QueryNaviDataWithWayIdAndIndex way_id navi_index).
Proof.
  split; [|split; [|split; [|split]]].
  - by apply query_loop_found.
  - intros out s. unfold QueryWayNodesWithWayId. rewrite bind_run.
    destruct (ExcuteQuery_spec
                (SqlSelect None "way_nodes" [("way_id", way_id)]) s)
      as (reader & s' & Hrun & _).
    rewrite Hrun. exists reader, s'.
    destruct reader as [reader|]; simpl.
    + destruct (QueryWayNodesWithWayId_rows reader false [])
        as (more & -> & Hlen).
      simpl. rewrite Hlen. eexists. split; [done|].
      split; [unfold ret; by destruct (at_least_one reader)|].
      by intros ->.
    + exists out. by repeat split.
  - by apply query_loop_found.
  - by apply query_loop_found.
  - by apply query_loop_found.
Qed.

Example QueryWayNodesWithWayId_not_found :
  fst (QueryWayNodesWithWayId 5 sample_nodes fresh_db)
  = Normal (false, sample_nodes).
Proof. reflexivity. Qed.

(** ** Allocators *)

(** [max()] over a column declared TEXT and over one declared INTEGER. *)
Example sql_max_of_9_and_10 :
  sql_max TEXT [VInt 9; VInt 10] = VInt 9
  /\ sql_max INTEGER [VInt 9; VInt 10] = VInt 10
  /\ sql_max TEXT [VNull; VInt 5; VInt 3] = VInt 5
  /\ sql_max TEXT [] = VNull.
Proof. repeat split; reflexivity. Qed.

(** The byte order of texts is a total order. *)
Lemma string_leb_refl (a : string) : String.leb a a = true.
Proof. by destruct (String.leb_total a a). Qed.

Lemma string_leb_trans (a b c : string) :
  String.leb a b = true -> String.leb b c = true -> String.leb a c = true.
Proof.
  unfold String.leb. revert b c.
  induction a as [|x a IH]; intros [|y b] [|z c]; simpl; try done.
  unfold Ascii.compare.
  destruct (N.compare_spec (N_of_ascii x) (N_of_ascii y)) as [Exy|Exy|Exy];
    destruct (N.compare_spec (N_of_ascii y) (N_of_ascii z)) as [Eyz|Eyz|Eyz];
    try done.
  - rewrite Exy, Eyz, N.compare_refl. apply IH.
  - rewrite Exy. by rewrite (proj2 (N.compare_lt_iff _ _) Eyz).
  - rewrite <- Eyz. by rewrite (proj2 (N.compare_lt_iff _ _) Exy).
  - assert (N_of_ascii x < N_of_ascii z)%N as H by lia.
    by rewrite (proj2 (N.compare_lt_iff _ _) H).
Qed.

Lemma decimal_inj (a b : Z) : decimal a = decimal b -> a = b.
Proof.
  unfold decimal. intros H. apply DecimalZ.to_int_inj.
  assert (forall n, Z.to_int n <> Decimal.Pos Decimal.Nil
                    /\ Z.to_int n <> Decimal.Neg Decimal.Nil) as Hnil.
  { intros [|p|p]; simpl; split; try discriminate;
      intros [= E]; by apply (DecimalPos.Unsigned.to_uint_nonnil p). }
  destruct (Hnil a) as [Ha1 Ha2]. destruct (Hnil b) as [Hb1 Hb2].
  pose proof (NilZero.isi _ Ha1 Ha2) as Ea.
  pose proof (NilZero.isi _ Hb1 Hb2) as Eb.
  rewrite H in Ea. congruence.
Qed.

(** ** Integers in TEXT columns *)

(** The rows of the model keep an integer bound to a TEXT column as the
    integer, where SQLite keeps its decimal text. The lemmas of this section
    show that the component cannot tell the difference except through the
    order of [max()]: equality of two such values, equality with the quoted
    decimal of a query, and the integer read back are the same on both. *)

Lemma digits_value_acc (d : Decimal.uint) :
  forall acc : positive,
    digits_value (String.list_ascii_of_string (NilEmpty.string_of_uint d))
                 (Z.pos acc)
    = Z.pos (Pos.of_uint_acc d acc).
Proof.
  induction d; intros acc; cbn [NilEmpty.string_of_uint
    String.list_ascii_of_string digits_value Pos.of_uint_acc];
    [reflexivity|..];
    match goal with
    | |- context [digit_of ?c] =>
        let v := eval vm_compute in (digit_of c) in
        change (digit_of c) with v
    end; cbn iota; rewrite <- IHd; f_equal; lia.
Qed.

Lemma digits_value_uint (d : Decimal.uint) :
  digits_value (String.list_ascii_of_string (NilEmpty.string_of_uint d)) 0
  = Z.of_N (Pos.of_uint d).
Proof.
  induction d; cbn [NilEmpty.string_of_uint String.list_ascii_of_string
    digits_value Pos.of_uint]; [reflexivity|..];
    match goal with
    | |- context [digit_of ?c] =>
        let v := eval vm_compute in (digit_of c) in
        change (digit_of c) with v
    end; cbn iota; [exact IHd|..];
    match goal with
    | |- digits_value _ ?a = _ =>
        let v := eval vm_compute in a in change a with v
    end; by rewrite digits_value_acc.
Qed.

Lemma digits_value_pos (p : positive) :
  digits_value
    (String.list_ascii_of_string (NilEmpty.string_of_uint (Pos.to_uint p))) 0
  = Z.pos p.
Proof.
  rewrite digits_value_uint. exact (DecimalZ.of_to (Z.pos p)).
Qed.

(** The text of a positive number starts with a digit: there is nothing to
    skip and no sign. *)
Lemma int_of_text_digits (d : Decimal.uint) :
  d <> Decimal.Nil ->
  int_of_text (String.list_ascii_of_string (NilEmpty.string_of_uint d))
  = clamp_int64
      (digits_value
         (String.list_ascii_of_string (NilEmpty.string_of_uint d)) 0).
Proof. intros Hd. by destruct d. Qed.

(** Reading the decimal text of an integer gives the integer back, within
    the signed 64-bit range. *)
Lemma int_of_text_decimal (n : Z) :
  int_of_text (String.list_ascii_of_string (decimal n)) = clamp_int64 n.
Proof.
  unfold decimal. destruct n as [|p|p]; cbn [Z.to_int NilZero.string_of_int].
  - reflexivity.
  - pose proof (DecimalPos.Unsigned.to_uint_nonnil p) as Hp.
    replace (NilZero.string_of_uint (Pos.to_uint p))
      with (NilEmpty.string_of_uint (Pos.to_uint p))
      by (by destruct (Pos.to_uint p)).
    by rewrite (int_of_text_digits _ Hp), digits_value_pos.
  - pose proof (DecimalPos.Unsigned.to_uint_nonnil p) as Hp.
    replace (NilZero.string_of_uint (Pos.to_uint p))
      with (NilEmpty.string_of_uint (Pos.to_uint p))
      by (by destruct (Pos.to_uint p)).
    cbn [String.list_ascii_of_string]. unfold int_of_text.
    cbn [skip_blanks]. change (is_blank "-") with false. cbn iota.
    change (Ascii.eqb "-" "-") with true. cbn iota.
    by rewrite digits_value_pos.
Qed.

Lemma clamp_int64_id (n : Z) : - 2 ^ 63 <= n < 2 ^ 63 -> clamp_int64 n = n.
Proof. intros H. unfold clamp_int64. lia. Qed.

(** What the typed getters read from an integer in a TEXT column. *)
Lemma int_of_value_stored (n : Z) :
  fits_int64 n -> int_of_value (stored_as TEXT (VInt n)) = int_of_value (VInt n).
Proof.
  intros H. cbn [stored_as int_of_value]. rewrite int_of_text_decimal.
  apply clamp_int64_id. unfold fits_int64 in H. lia.
Qed.

(** Equality of two integers in a TEXT column. *)
Lemma sql_eqb_stored (a b : Z) :
  sql_eqb (stored_as TEXT (VInt a)) (stored_as TEXT (VInt b))
  = sql_eqb (VInt a) (VInt b).
Proof.
  cbn [stored_as sql_eqb]. destruct (a =? b) eqn:E.
  - apply Z.eqb_eq in E. subst. apply String.eqb_refl.
  - apply Z.eqb_neq in E. apply String.eqb_neq. intros H. apply E.
    by apply decimal_inj.
Qed.

(** [std::to_string] of an identifier is its decimal text: the quoted way
    id of a query equals the text stored for the same way id. *)
Lemma to_string_decimal (n : Z) : 0 <= n -> to_string n = decimal n.
Proof. intros H. unfold to_string, decimal. by destruct n. Qed.

Lemma sql_eqb_quoted (a id : Z) :
  0 <= id ->
  sql_eqb (stored_as TEXT (VInt a)) (VText (to_string id))
  = sql_eqb (VInt a) (VInt id).
Proof.
  intros H. rewrite (to_string_decimal id H). apply (sql_eqb_stored a id).
Qed.

(** [max()] over a TEXT column that holds integers yields the one whose
    decimal text is the greatest. *)
Lemma sql_max_text (ids : list Z) :
  match ids with
  | [] => sql_max TEXT (map VInt ids) = VNull
  | _ :: _ => exists m, sql_max TEXT (map VInt ids) = VInt m
                        /\ is_text_max m ids
  end.
Proof.
  induction ids as [|a ids IH]; [done|].
  simpl. destruct ids as [|b ids].
  - exists a. split; [done|]. split; [by left|].
    intros n [<-|[]]. apply string_leb_refl.
  - destruct IH as (m & -> & Hin & Hle). simpl.
    destruct (String.leb (decimal a) (decimal m)) eqn:E.
    + exists m. split; [done|]. split; [by right|].
      intros n [<-|Hn]; [done | by apply Hle].
    + exists a. split; [done|]. split; [by left|].
      assert (String.leb (decimal m) (decimal a) = true) as Hma.
      { destruct (String.leb_total (decimal a) (decimal m)); congruence. }
      intros n [<-|Hn]; [apply string_leb_refl|].
      apply (string_leb_trans _ (decimal m)); [by apply Hle | done].
Qed.

Lemma is_text_max_unique (m m' : Z) (ids : list Z) :
  is_text_max m ids -> is_text_max m' ids -> m = m'.
Proof.
  intros [Hin Hle] [Hin' Hle']. apply decimal_inj.
  apply String.leb_antisym; [by apply Hle' | by apply Hle].
Qed.

Lemma eval_select_max (t col : string) (ty : ColumnType)
      (tbls : gmap string Table) (tb : Table) (ids : list Z) :
  tbls !! t = Some tb ->
  column_holds tb col ty ids ->
  eval (SqlSelectMax col t) tbls = Some [[sql_max ty (map VInt ids)]].
Proof.
  intros Htb (i & Hi & Hty & Hcol). simpl. by rewrite Htb, Hi, Hty, Hcol.
Qed.

(** A [max()] query yields exactly one row whenever it succeeds. *)
Lemma eval_select_max_one_row (t col : string) (tbls : gmap string Table)
      (reader : list (list SqliteValue)) :
  eval (SqlSelectMax col t) tbls = Some reader -> exists v, reader = [[v]].
Proof.
  simpl. destruct (tbls !! t) as [tb|]; [|done].
  destruct (index_of (columns tb) col); [|done].
  intros [= <-]. eauto.
Qed.

Lemma ExcuteQuery_faults (q : Query) (s : SQLiteWrapper) :
  faults (snd (ExcuteQuery q s)) = tail (faults s).
Proof.
  unfold ExcuteQuery, take_fault.
  destruct (faults s) as [|b fs] eqn:E; simpl; by rewrite ?E.
Qed.

Lemma wrap64_succ (m : Z) :
  is_uint64 m -> wrap64 (m + 1) = if m =? UINT64_MAX then 0 else m + 1.
Proof.
  intros Hu. unfold wrap64, UINT64_MAX, is_uint64 in *.
  destruct (m =? 18446744073709551615) eqn:E.
  - apply Z.eqb_eq in E. by subst.
  - apply Z.eqb_neq in E. apply Z.mod_small. lia.
Qed.

Lemma fits_int64_uint64 (ids : list Z) :
  Forall fits_int64 ids -> Forall is_uint64 ids.
Proof.
  intros H. eapply Forall_impl; [exact H|].
  intros n. unfold fits_int64, is_uint64. lia.
Qed.

Lemma fits_int64_below_max (m : Z) :
  fits_int64 m -> (m =? UINT64_MAX) = false.
Proof.
  intros H. apply Z.eqb_neq. unfold fits_int64, UINT64_MAX in *. lia.
Qed.

Lemma CreateNewWayId_no_fault (out : Z) (s : SQLiteWrapper) (tb : Table)
      (ids : list Z) :
  tables s !! "way" = Some tb ->
  column_holds tb "way_id" TEXT ids ->
  no_fault s ->
  fst (CreateNewWayId out s)
  = Normal (true,
            match sql_max TEXT (map VInt ids) with
             | VInt m => wrap64 (wrap64 m + 1)
             | _ => 1
             end).
Proof.
  intros Htb Hcol Hn. unfold CreateNewWayId. rewrite bind_run.
  pose proof (ExcuteQuery_no_fault (SqlSelectMax "way_id" "way") s Hn) as Hq.
  destruct (ExcuteQuery _ s) as [r s1]. cbn [fst] in Hq. rewrite Hq.
  rewrite (eval_select_max "way" "way_id" TEXT (tables s) tb ids Htb Hcol).
  unfold ret, while_Read, CreateNewWayId_row, GetDataType, GetUint64Value.
  simpl. pose proof (sql_max_text ids) as Hmax.
  destruct ids as [|a ids]; [by rewrite Hmax|].
  by destruct Hmax as (m & -> & _).
Qed.

(** The id [CreateNewWayId] stores, for a way table that holds [ids]. *)
Lemma CreateNewWayId_stores (out : Z) (s : SQLiteWrapper) (tb : Table)
      (ids : list Z) :
  tables s !! "way" = Some tb ->
  column_holds tb "way_id" TEXT ids ->
  Forall is_uint64 ids ->
  no_fault s ->
  (ids = [] -> fst (CreateNewWayId out s) = Normal (true, 1))
  /\ (forall m, is_text_max m ids ->
                fst (CreateNewWayId out s)
                = Normal (true, if m =? UINT64_MAX then 0 else m + 1)).
Proof.
  intros Htb Hcol Hids Hn.
  rewrite (CreateNewWayId_no_fault out s tb ids Htb Hcol Hn).
  pose proof (sql_max_text ids) as Hmax. split.
  - intros ->. by rewrite Hmax.
  - intros m Hm. destruct ids as [|a ids]; [by destruct Hm as [[] _]|].
    destruct Hmax as (m' & -> & Hm').
    rewrite (is_text_max_unique m' m _ Hm' Hm).
    assert (is_uint64 m) as Hu.
    { destruct Hm as [Hin _]. rewrite Forall_forall in Hids.
      apply Hids, list_elem_of_In, Hin. }
    by rewrite (wrap64_id m Hu), (wrap64_succ m Hu).
Qed.

(** C4, what the code does. [CreateNewWayId] asks for [max(way_id)] of the
    way table and returns [false], leaving the output alone, exactly when
    that query fails. On an empty table (the maximum is NULL) it stores 1.
    Otherwise, for ids below 2^63, it stores one more than what [max()]
    yields -- and since the column [way_id] is declared TEXT, that is the id
    whose decimal text is the greatest, not the greatest id: with the ways 9
    and 10 in the table it is 9, and the id stored is 10, which is taken. *)
Theorem CreateNewWayId_text_maximum (out : Z) (s : SQLiteWrapper) :
  (exists reader s' out',
      ExcuteQuery (SqlSelectMax "way_id" "way") s = (Normal reader, s')
      /\ CreateNewWayId out s
         = (Normal (bool_decide (is_Some reader), out'), s')
      /\ (reader = None -> out' = out))
  /\ (forall (tb : Table) (ids : list Z),
         tables s !! "way" = Some tb ->
         column_holds tb "way_id" TEXT ids ->
         Forall fits_int64 ids ->
         no_fault s ->
         (ids = [] -> fst (CreateNewWayId out s) = Normal (true, 1))
         /\ (forall m, is_text_max m ids ->
                       fst (CreateNewWayId out s) = Normal (true, m + 1))).
Proof.
  split.
  - unfold CreateNewWayId. rewrite bind_run.
    destruct (ExcuteQuery_spec (SqlSelectMax "way_id" "way") s)
      as (reader & s' & Hrun & _ & _ & _ & Hr).
    rewrite Hrun. exists reader, s'. destruct reader as [reader|].
    + destruct Hr as [Hr|Hr]; [done|]. symmetry in Hr.
      destruct (eval_select_max_one_row _ _ _ _ Hr) as [v ->].
      eexists. split; [done|]. split; [reflexivity | done].
    + exists out. by repeat split.
  - intros tb ids Htb Hcol Hids Hn.
    destruct (CreateNewWayId_stores out s tb ids Htb Hcol
                (fits_int64_uint64 ids Hids) Hn) as [Hempty Hmax].
    split; [done|]. intros m Hm. rewrite (Hmax m Hm).
    rewrite fits_int64_below_max; [done|].
    destruct Hm as [Hin _]. rewrite Forall_forall in Hids.
    apply Hids, list_elem_of_In, Hin.
Qed.

Lemma CreateNewWayId_text_maximum_witness :
  fst (CreateNewWayId 0 two_ways_db) = Normal (true, 10)
  /\ rows <$> (tables two_ways_db !! "way")
     = Some [way_row (mkWay 9 0 10 1 1); way_row (mkWay 10 9 0 1 1)]
  /\ fst (CreateNewWayId 0 fresh_db) = Normal (true, 1).
Proof.
  split; [|split; [reflexivity|]].
  - destruct (CreateNewWayId_text_maximum 0 two_ways_db) as [_ H].
    refine (proj2 (H (mkTable way_columns way_types (Some "way_id")
                        [way_row (mkWay 9 0 10 1 1);
                         way_row (mkWay 10 9 0 1 1)])
                     [9; 10] _ _ _ _) 9 _).
    + reflexivity.
    + exists 0%nat. repeat split.
    + repeat constructor; unfold fits_int64; simpl; lia.
    + vm_compute. discriminate.
    + split; [simpl; tauto|]. intros n [<-|[<-|[]]]; reflexivity.
  - destruct (CreateNewWayId_text_maximum 0 fresh_db) as [_ H].
    refine (proj1 (H (mkTable way_columns way_types (Some "way_id") []) []
                     _ _ _ _) _).
    + reflexivity.
    + exists 0%nat. repeat split.
    + constructor.
    + vm_compute. discriminate.
    + reflexivity.
Defined.

(** Allocating and saving in turn from an empty way table: the ids 1 to 10
    are handed out and saved, then 10 is handed out again and the save is
    refused by the primary key. *)
Example CreateNewWayId_eleventh_id :
  fst (allocate_and_save 11 fresh_db)
  = [(1, true); (2, true); (3, true); (4, true); (5, true); (6, true);
     (7, true); (8, true); (9, true); (10, true); (10, false)].
Proof. vm_compute. reflexivity. Qed.

(** With ids of one digit the text order is the order of the numbers: after
    5 comes 6, whatever lies below. *)
Example CreateNewWayId_after_5 :
  let s := snd (SaveWay (mkWay 2 0 0 1 1) (snd (SaveWay (mkWay 5 0 2 1 1)
                  (snd (SaveWay (mkWay 3 0 5 1 1) fresh_db))))) in
  fst (CreateNewWayId 0 s) = Normal (true, 6).
Proof. reflexivity. Qed.

(** At the top of the range the sum wraps: with [UINT64_MAX] as the only
    way id, 0 is stored. *)
Example CreateNewWayId_wraps_to_zero :
  let s := snd (SaveWay (mkWay UINT64_MAX 0 0 1 1) fresh_db) in
  fst (CreateNewWayId 7 s) = Normal (true, 0).
Proof. vm_compute. reflexivity. Qed.

Lemma no_faults_2 (s : SQLiteWrapper) (q : Query) :
  no_faults 2 s -> no_fault s /\ no_fault (snd (ExcuteQuery q s)).
Proof.
  unfold no_faults, no_fault. rewrite ExcuteQuery_faults.
  destruct (faults s) as [|a [|b fs]]; simpl; intros H.
  - split; discriminate.
  - inversion H; subst. split; discriminate.
  - inversion H as [|? ? -> H']; subst. inversion H'; subst.
    split; discriminate.
Qed.

(** The first query of [GetNaviTableId]: the current shard. *)
Lemma GetNaviTableId_current (s : SQLiteWrapper) (way_data : Table)
      (ids : list Z) (cur : Z) :
  tables s !! "way_data" = Some way_data ->
  column_holds way_data "navi_table_id" TEXT ids ->
  Forall is_uint64 ids ->
  text_max_or_zero cur ids ->
  eval (SqlSelectMax "navi_table_id" "way_data") (tables s)
  = Some [[sql_max TEXT (map VInt ids)]]
  /\ while_Read GetNaviTableId_max_row [[sql_max TEXT (map VInt ids)]]
                (false, 0) = (true, cur).
Proof.
  intros Hwd Hcol Hids Hcur.
  split; [by apply (eval_select_max _ _ TEXT _ way_data)|].
  unfold while_Read, GetNaviTableId_max_row, GetUint64OrZero, GetDataType,
    GetUint64Value. simpl. pose proof (sql_max_text ids) as Hmax.
  destruct Hcur as [[-> ->]|Hcur].
  - by rewrite Hmax.
  - destruct ids as [|a ids]; [by destruct Hcur as [[] _]|].
    destruct Hmax as (m & -> & Hm). simpl.
    rewrite (is_text_max_unique m cur _ Hm Hcur). f_equal. apply wrap64_id.
    destruct Hcur as [Hin _]. rewrite Forall_forall in Hids.
    apply Hids, list_elem_of_In, Hin.
Qed.

Lemma GetNaviTableId_no_fault (out : Z) (s : SQLiteWrapper)
      (way_data shard : Table) (ids : list Z) (cur : Z) :
  tables s !! "way_data" = Some way_data ->
  column_holds way_data "navi_table_id" TEXT ids ->
  Forall is_uint64 ids ->
  text_max_or_zero cur ids ->
  tables s !! ("navi_data_" +:+ to_string cur) = Some shard ->
  no_faults 2 s ->
  fst (GetNaviTableId out s)
  = Normal (true,
            if wrap64 (Z.of_nat (length (rows shard)))
               <? kMaxRowNumberOfDBTable
            then cur else wrap64 (cur + 1)).
Proof.
  intros Hwd Hcol Hids Hcur Hshard Hn.
  destruct (no_faults_2 s (SqlSelectMax "navi_table_id" "way_data") Hn)
    as [Hn1 Hn2].
  unfold GetNaviTableId. rewrite bind_run.
  pose proof (ExcuteQuery_no_fault
                (SqlSelectMax "navi_table_id" "way_data") s Hn1) as Hq.
  destruct (ExcuteQuery_spec (SqlSelectMax "navi_table_id" "way_data") s)
    as (r & s1 & Hrun & _ & _ & Ht & _).
  rewrite Hrun in Hq, Hn2 |- *. cbn [fst snd] in Hq, Hn2.
  assert (r = eval (SqlSelectMax "navi_table_id" "way_data") (tables s))
    as -> by congruence.
  destruct (GetNaviTableId_current s way_data ids cur Hwd Hcol Hids Hcur)
    as [-> ->].
  rewrite bind_run.
  pose proof (ExcuteQuery_no_fault
                (SqlSelectCount ("navi_data_" +:+ to_string cur)) s1 Hn2)
    as Hq2.
  destruct (ExcuteQuery _ s1) as [r2 s2]. cbn [fst] in Hq2. rewrite Hq2.
  simpl. rewrite Ht, Hshard. reflexivity.
Qed.

(** C5, what the code does. With both queries succeeding and shard ids
    below 2^63, [GetNaviTableId] takes as current shard what
    [max(navi_table_id)] yields over way_data (0 when there is none), counts
    the rows of [navi_data_<current>], and stores the current shard when the
    count is below 10000 and the current shard plus one when it is 10000 or
    more. Since the column [navi_table_id] is declared TEXT, the current
    shard is the one whose decimal text is the greatest, not the greatest
    shard: with way data in the shards 9 and 10 it is 9, however full shard
    10 is. *)
Theorem GetNaviTableId_shard (out : Z) (s : SQLiteWrapper)
        (way_data shard : Table) (ids : list Z) (cur : Z) :
  tables s !! "way_data" = Some way_data ->
  column_holds way_data "navi_table_id" TEXT ids ->
  Forall fits_int64 ids ->
  text_max_or_zero cur ids ->
  tables s !! ("navi_data_" +:+ to_string cur) = Some shard ->
  is_uint64 (Z.of_nat (length (rows shard))) ->
  no_faults 2 s ->
  fst (GetNaviTableId out s)
  = Normal (true,
            if Z.of_nat (length (rows shard)) <? 10000 then cur
            else cur + 1).
Proof.
  intros Hwd Hcol Hids Hcur Hshard Hlen Hn.
  rewrite (GetNaviTableId_no_fault out s way_data shard ids cur
             Hwd Hcol (fits_int64_uint64 ids Hids) Hcur Hshard Hn).
  rewrite (wrap64_id _ Hlen). unfold kMaxRowNumberOfDBTable.
  destruct (_ <? 10000); [done|]. do 2 f_equal.
  assert (fits_int64 cur) as Hfit.
  { destruct Hcur as [[_ ->]|[Hin _]].
    - unfold fits_int64. lia.
    - rewrite Forall_forall in Hids. apply Hids, list_elem_of_In, Hin. }
  rewrite wrap64_succ, fits_int64_below_max; try done.
  unfold fits_int64, is_uint64 in *. lia.
Qed.

Lemma GetNaviTableId_shard_witness :
  fst (GetNaviTableId 0 two_shards_db) = Normal (true, 9)
  /\ fst (GetNaviTableId 0 (shard_db 2 9999)) = Normal (true, 2)
  /\ fst (GetNaviTableId 0 (shard_db 2 10000)) = Normal (true, 3).
Proof.
  split; [|split].
  - refine (GetNaviTableId_shard 0 two_shards_db
              (mkTable ["way_id"; "raw_data"; "navi_number"; "navi_table_id"]
                 [TEXT; BLOB; INTEGER; TEXT] (Some "way_id")
                 [[VInt 1; VBlob []; VInt 1; VInt 9];
                  [VInt 2; VBlob []; VInt 1; VInt 10]])
              (mkTable ["way_id"; "navi_index"; "data"] [TEXT; INTEGER; BLOB]
                 None [[VInt 1; VInt 0; VBlob []]])
              [9; 10] 9 _ _ _ _ _ _ _).
    + reflexivity.
    + exists 3%nat. repeat split.
    + repeat constructor; unfold fits_int64; simpl; lia.
    + right. split; [simpl; tauto|]. intros n [<-|[<-|[]]]; reflexivity.
    + reflexivity.
    + unfold is_uint64. simpl. lia.
    + constructor.
  - refine (GetNaviTableId_shard 0 (shard_db 2 9999)
              (mkTable ["way_id"; "raw_data"; "navi_number"; "navi_table_id"]
                 [TEXT; BLOB; INTEGER; TEXT] (Some "way_id")
                 [[VInt 1; VBlob []; VInt 1; VInt 2]])
              (mkTable ["way_id"; "navi_index"; "data"] [TEXT; INTEGER; BLOB]
                 None (replicate (Z.to_nat 9999) [VInt 1; VInt 0; VBlob []]))
              [2] 2 _ _ _ _ _ _ _).
    + reflexivity.
    + exists 3%nat. repeat split.
    + repeat constructor; unfold fits_int64; simpl; lia.
    + right. split; [simpl; tauto|]. intros n [<-|[]]. reflexivity.
    + reflexivity.
    + cbn [rows]. rewrite length_replicate. unfold is_uint64. lia.
    + constructor.
  - refine (GetNaviTableId_shard 0 (shard_db 2 10000)
              (mkTable ["way_id"; "raw_data"; "navi_number"; "navi_table_id"]
                 [TEXT; BLOB; INTEGER; TEXT] (Some "way_id")
                 [[VInt 1; VBlob []; VInt 1; VInt 2]])
              (mkTable ["way_id"; "navi_index"; "data"] [TEXT; INTEGER; BLOB]
                 None (replicate (Z.to_nat 10000) [VInt 1; VInt 0; VBlob []]))
              [2] 2 _ _ _ _ _ _ _).
    + reflexivity.
    + exists 3%nat. repeat split.
    + repeat constructor; unfold fits_int64; simpl; lia.
    + right. split; [simpl; tauto|]. intros n [<-|[]]. reflexivity.
    + reflexivity.
    + cbn [rows]. rewrite length_replicate. unfold is_uint64. lia.
    + constructor.
Defined.

(** In [two_shards_db] the greatest shard is 10 and it is full: the next
    entries belong into shard 11. *)
Example two_shards_db_full :
  (exists shard, tables two_shards_db !! "navi_data_10" = Some shard
                 /\ Z.of_nat (length (rows shard)) = 10000)
  /\ is_max 10 [9; 10].
Proof.
  split.
  - eexists. split; [reflexivity|]. cbn [rows]. rewrite length_replicate.
    lia.
  - split; [simpl; tauto|]. intros n [<-|[<-|[]]]; lia.
Qed.

(** With an empty way_data table the current shard is 0. *)
Example GetNaviTableId_empty_way_data :
  let s := mkSQLite
             (<["navi_data_0" :=
                  mkTable ["way_id"; "navi_index"; "data"]
                          [TEXT; INTEGER; BLOB] None []]>
                (tables fresh_db)) None [] [] in
  fst (GetNaviTableId 9 s) = Normal (true, 0).
Proof. reflexivity. Qed.

(** At the top of the range the sum wraps: with shard [UINT64_MAX] full, 0
    is stored. *)
Example GetNaviTableId_wraps_to_zero :
  fst (GetNaviTableId 7 (shard_db UINT64_MAX 10000)) = Normal (true, 0).
Proof. vm_compute. reflexivity. Qed.

(** ** Table indices *)

(** Creating a table of the fixed set puts its name into the catalog. *)
Lemma CreateTable_creates (i : nat) (name : string) (s s1 : SQLiteWrapper) :
  kTableNames !! i = Some name ->
  CreateTable i s = (Normal true, s1) ->
  is_Some (tables s1 !! name).
Proof.
  intros Hi Hrun.
  assert (i < kMaxNumberOfTables)%nat as Hlt
      by (apply lookup_lt_Some in Hi; exact Hi).
  destruct (CreateTable_valid i s Hlt) as (ok & s' & Hrun' & _ & _ & Ht).
  rewrite Hrun in Hrun'. injection Hrun' as <- <-.
  do 5 (destruct i as [|i];
        [ injection Hi as <-; simpl in Ht;
          match type of Ht with
          | context [tables s !! ?n] => destruct (tables s !! n)
          end; [discriminate|];
          injection Ht as <-; rewrite lookup_insert_eq; eauto |]).
  discriminate.
Qed.

(** For an index of the fixed set, [CreateTable] that succeeds followed by
    [IsTableExisting] whose catalog query does not fail answers [true]. *)
Lemma CreateTable_then_IsTableExisting (i : nat) (s s1 : SQLiteWrapper) :
  (i < kMaxNumberOfTables)%nat ->
  CreateTable i s = (Normal true, s1) ->
  no_fault s1 ->
  Z.of_nat (size (tables s1)) < 2 ^ 31 ->
  fst (IsTableExisting i s1) = Normal true.
Proof.
  intros Hlt Hrun Hn Hsz.
  destruct (lookup_lt_is_Some_2 kTableNames i Hlt) as [name Hname].
  apply (IsTableExisting_present i name s1 Hname); try done.
  by apply (CreateTable_creates i name s s1).
Qed.

(** C8, what the code does for an index outside the fixed set.
    [IsTableExisting] returns [false] without calling the driver.
    [CreateTable] has no such guard: it sends the empty statement; when the
    driver accepts it, [CreateTable] returns [true] (the catalog being
    unchanged), and when the driver reports a failure, building the error
    message throws [std::out_of_range]. It never returns [false]. *)
Theorem CreateTable_out_of_range (i : nat) (s : SQLiteWrapper) :
  (kMaxNumberOfTables <= i)%nat ->
  IsTableExisting i s = (Normal false, s)
  /\ CreateTable_sql i = SqlEmpty
  /\ (no_fault s ->
      exists s', CreateTable i s = (Normal true, s')
                 /\ tables s' = tables s
                 /\ calls s' = calls s ++ [CallNonQuery SqlEmpty ∅ true])
  /\ (forall fs, faults s = true :: fs ->
                 fst (CreateTable i s) = out_of_range)
  /\ (forall s', CreateTable i s <> (Normal false, s')).
Proof.
  intros Hge. unfold kMaxNumberOfTables in Hge.
  assert (CreateTable_sql i = SqlEmpty) as Hsql.
  { do 5 (destruct i as [|i]; [lia|]). reflexivity. }
  assert (kTableNames !! i = None) as Hat.
  { apply lookup_ge_None. simpl. lia. }
  split; [|split; [done|split; [|split]]].
  - unfold IsTableExisting.
    replace (kMaxNumberOfTables <=? i)%nat with true; [done|].
    symmetry. apply Nat.leb_le. exact Hge.
  - intros Hn. unfold CreateTable. rewrite bind_run, Hsql.
    pose proof (ExcuteNonQuery_no_fault SqlEmpty ∅ s Hn) as Hok.
    destruct (ExcuteNonQuery_spec SqlEmpty ∅ s)
      as (ok & s' & Hrun & Hc & _ & Ht).
    rewrite Hrun in Hok |- *. simpl in Hok.
    assert (ok = true) as -> by (injection Hok as ->; done).
    exists s'. simpl in *. repeat split; [congruence | done].
  - intros fs Hf. unfold CreateTable. rewrite bind_run, Hsql.
    rewrite (ExcuteNonQuery_fault SqlEmpty ∅ s fs Hf). simpl.
    rewrite bind_run. unfold at_. by rewrite Hat.
  - intros s' Hrun. unfold CreateTable in Hrun. rewrite bind_run in Hrun.
    destruct (ExcuteNonQuery_spec (CreateTable_sql i) ∅ s)
      as (ok & s1 & Hrun1 & _).
    rewrite Hrun1 in Hrun. destruct ok; simpl in Hrun; [discriminate|].
    rewrite bind_run in Hrun. unfold at_ in Hrun. rewrite Hat in Hrun.
    discriminate.
Qed.

Lemma CreateTable_out_of_range_witness :
  IsTableExisting 5%nat fresh_db = (Normal false, fresh_db)
  /\ CreateTable_sql 5%nat = SqlEmpty
  /\ (no_fault fresh_db ->
      exists s', CreateTable 5%nat fresh_db = (Normal true, s')
                 /\ tables s' = tables fresh_db
                 /\ calls s' = calls fresh_db ++ [CallNonQuery SqlEmpty ∅ true])
  /\ (forall fs, faults fresh_db = true :: fs ->
                 fst (CreateTable 5%nat fresh_db) = out_of_range)
  /\ (forall s', CreateTable 5%nat fresh_db <> (Normal false, s')).
Proof.
  apply (CreateTable_out_of_range 5%nat fresh_db).
  unfold kMaxNumberOfTables. lia.
Defined.

Example CreateTable_index_5_succeeds :
  fst (CreateTable 5%nat fresh_db) = Normal true.
Proof. reflexivity. Qed.

Example CreateTable_index_5_throws :
  fst (CreateTable 5%nat (failing_at 0 fresh_db)) = out_of_range.
Proof. reflexivity. Qed.

Example CreateTable_way_then_IsTableExisting :
  let s := snd (CreateTable kTableWay empty_db) in
  fst (CreateTable kTableWay empty_db) = Normal true
  /\ fst (IsTableExisting kTableWay s) = Normal true.
Proof. split; reflexivity. Qed.

(** ** The seed of speed_limit *)

Example seed_rows_listed :
  seed_rows
  = [[VInt 1; VInt 30]; [VInt 2; VInt 40]; [VInt 3; VInt 50];
     [VInt 4; VInt 60]; [VInt 5; VInt 70]; [VInt 6; VInt 80];
     [VInt 7; VInt 90]; [VInt 8; VInt 100]; [VInt 9; VInt 110];
     [VInt 10; VInt 120]; [VInt 11; VInt 130]; [VInt 12; VInt 140];
     [VInt 13; VInt 150]].
Proof. reflexivity. Qed.

(** A statement that does not write rows of [t] leaves an existing [t] as it
    is; creating [t] anew is refused. *)
Lemma exec_frame (sql : Statement) (params : gmap nat SqliteValue)
      (tbls tbls' : gmap string Table) (t : string) (tb : Table) :
  exec sql params tbls = Some tbls' ->
  tbls !! t = Some tb ->
  modifies sql t = false ->
  tbls' !! t = Some tb.
Proof.
  intros Hexec Htb Hm. destruct sql as [|name cols pk|t' cols|t' sc wc|t' wc];
    simpl in Hexec, Hm.
  - congruence.
  - destruct (tbls !! name) eqn:E; [discriminate|].
    injection Hexec as <-. rewrite lookup_insert_ne; [done|]. congruence.
  - apply String.eqb_neq in Hm. destruct (tbls !! t'); [|discriminate].
    destruct (insert_into _ _ _); [|discriminate].
    injection Hexec as <-. by rewrite lookup_insert_ne.
  - apply String.eqb_neq in Hm. destruct (tbls !! t') as [tb'|]; [|discriminate].
    destruct (index_of (columns tb') wc); [|discriminate].
    destruct (negb _); [discriminate|].
    injection Hexec as <-. by rewrite lookup_insert_ne.
  - apply String.eqb_neq in Hm. destruct (tbls !! t') as [tb'|]; [|discriminate].
    destruct (index_of (columns tb') wc); [|discriminate].
    injection Hexec as <-. by rewrite lookup_insert_ne.
Qed.

Lemma apply_all_frame (cmds : list SQLiteCommand) (t : string) (tb : Table) :
  Forall (fun c => modifies (cmd_sql c) t = false) cmds ->
  forall tbls tbls',
    apply_all cmds tbls = Some tbls' ->
    tbls !! t = Some tb ->
    tbls' !! t = Some tb.
Proof.
  induction 1 as [|c cmds Hc _ IH]; intros tbls tbls' Hall Htb; simpl in Hall.
  - congruence.
  - destruct (exec (cmd_sql c) (cmd_params c) tbls) as [tbls1|] eqn:E;
      [|discriminate].
    apply (IH tbls1 tbls' Hall). by apply (exec_frame _ _ _ _ _ _ E).
Qed.

(** A batch of inserts into one table acts on that table only. *)
Lemma apply_all_table (t : string) (cmds : list SQLiteCommand) :
  forall (tbls : gmap string Table) (tb tb' : Table),
    tbls !! t = Some tb ->
    table_after t cmds tb = Some tb' ->
    apply_all cmds tbls = Some (<[t := tb']> tbls).
Proof.
  induction cmds as [|c cmds IH]; intros tbls tb tb' Htb Hafter;
    simpl in Hafter |- *.
  - injection Hafter as <-. by rewrite insert_id.
  - destruct (cmd_sql c) as [| |t' cols| |] eqn:Esql; try discriminate.
    destruct (String.eqb t' t) eqn:Et; [|discriminate].
    apply String.eqb_eq in Et. subst t'.
    destruct (insert_into tb cols (cmd_params c)) as [tb1|] eqn:Ei;
      [|discriminate].
    rewrite (exec_insert _ _ _ _ tb Htb), Ei. simpl.
    rewrite (IH (<[t := tb1]> tbls) tb1 tb' (lookup_insert_eq _ _ _) Hafter).
    by rewrite insert_insert_eq.
Qed.

Lemma keeps_settled_ret {A} (a : A) : keeps_settled (ret a).
Proof. by intros s Hs. Qed.

Lemma keeps_settled_bind {A B} (m : Op A) (k : A -> Op B) :
  keeps_settled m -> (forall a, keeps_settled (k a)) ->
  keeps_settled (bind m k).
Proof.
  intros Hm Hk s Hs. rewrite bind_run. specialize (Hm s Hs).
  destruct (m s) as [[a|] s1]; simpl in *; [by apply Hk | done].
Qed.

Lemma keeps_settled_at {A} (arr : list A) (i : nat) :
  keeps_settled (at_ arr i).
Proof. intros s Hs. unfold at_. by destruct (arr !! i). Qed.

Lemma keeps_settled_ExcuteQuery (q : Query) : keeps_settled (ExcuteQuery q).
Proof.
  intros s [Hx Hseed].
  destruct (ExcuteQuery_spec q s) as (r & s1 & Hrun & _ & Hx1 & Ht & _).
  rewrite Hrun. simpl. split; [congruence|]. unfold seeded. by rewrite Ht.
Qed.

Lemma keeps_settled_ExcuteNonQuery (sql : Statement)
      (params : gmap nat SqliteValue) :
  modifies sql "speed_limit" = false ->
  keeps_settled (ExcuteNonQuery sql params).
Proof.
  intros Hm s [Hx Hseed].
  destruct (ExcuteNonQuery_spec sql params s) as (ok & s1 & Hrun & _ & Hx1 & Ht).
  rewrite Hrun. simpl. split; [congruence|]. unfold seeded in *.
  destruct ok; [|by rewrite Ht].
  by apply (exec_frame sql params (tables s) _ _ _ Ht).
Qed.

Lemma bound_cmds_sql {A} (bind_row : A -> SQLiteCommand -> SQLiteCommand)
      (P : Statement -> Prop) :
  (forall x c, cmd_sql (bind_row x c) = cmd_sql c) ->
  forall items cmd,
    P (cmd_sql cmd) ->
    Forall (fun c => P (cmd_sql c)) (bound_cmds bind_row items cmd).
Proof.
  intros Hsql. induction items as [|x items IH]; intros cmd Hc; simpl.
  - constructor.
  - constructor; [by rewrite Hsql|]. apply IH. by rewrite Hsql.
Qed.

(** A multi-row save into another table keeps the seed. *)
Lemma keeps_settled_save {A} (bind_row : A -> SQLiteCommand -> SQLiteCommand)
      (items : list A) (cmd : SQLiteCommand) :
  (forall x c, cmd_sql (bind_row x c) = cmd_sql c) ->
  modifies (cmd_sql cmd) "speed_limit" = false ->
  keeps_settled
    (do _ <- BeginTransaction;
     do res <- insert_each bind_row items cmd;
     finish_transaction res).
Proof.
  intros Hsql Hm s [Hx Hseed].
  destruct (transactional_save bind_row items cmd s Hx)
    as (res & s' & done_ & Hrun & _ & _ & _ & Hx' & Hres).
  rewrite Hrun. simpl. split; [done|]. unfold seeded in *.
  destruct res; [|by rewrite Hres].
  destruct Hres as [_ Hall].
  apply (apply_all_frame _ "speed_limit" _
           (bound_cmds_sql bind_row
              (fun sql => modifies sql "speed_limit" = false)
              Hsql items cmd Hm) _ _ Hall Hseed).
Qed.

Lemma first_seed_row_conflicts :
  insert_into speed_limit_table ["id"; "speed"]
    (cmd_params (FillTableSpeedLimit_bind 1
                   (NewCommand (SqlInsert "speed_limit" ["id"; "speed"]))))
  = None.
Proof. reflexivity. Qed.

(** Seeding a table that already holds the seed fails at its first row and
    is rolled back. *)
Lemma FillTableSpeedLimit_settled : keeps_settled FillTableSpeedLimit.
Proof.
  intros s [Hx Hseed].
  destruct (transactional_save FillTableSpeedLimit_bind
              FillTableSpeedLimit_range
              (NewCommand (SqlInsert "speed_limit" ["id"; "speed"])) s Hx)
    as (res & s' & done_ & Hrun & _ & _ & _ & Hx' & Hres).
  unfold FillTableSpeedLimit. rewrite Hrun. simpl. split; [done|].
  unfold seeded in *. destruct res; [|by rewrite Hres].
  destruct Hres as [_ Hall]. exfalso. revert Hall.
  change FillTableSpeedLimit_range with (1 :: map Z.of_nat (seq 2 12)).
  cbn [bound_cmds apply_all].
  change (cmd_sql (FillTableSpeedLimit_bind 1 _))
    with (SqlInsert "speed_limit" ["id"; "speed"]).
  rewrite (exec_insert _ _ _ _ _ Hseed), first_seed_row_conflicts.
  discriminate.
Qed.

Lemma CreateTable_settled (i : nat) : keeps_settled (CreateTable i).
Proof.
  unfold CreateTable. apply keeps_settled_bind.
  - apply keeps_settled_ExcuteNonQuery.
    do 5 (destruct i as [|i]; [reflexivity|]). reflexivity.
  - intros ok. destruct ok; simpl; [apply keeps_settled_ret|].
    apply keeps_settled_bind; [apply keeps_settled_at|].
    intros _. apply keeps_settled_ret.
Qed.

(** Decomposes a call into driver calls that keep the seed. *)
Ltac settle :=
  repeat first
    [ apply keeps_settled_ret
    | apply keeps_settled_ExcuteQuery
    | apply keeps_settled_at
    | apply CreateTable_settled
    | apply FillTableSpeedLimit_settled
    | apply keeps_settled_save; [intros ? ?; reflexivity | reflexivity]
    | apply keeps_settled_ExcuteNonQuery;
      repeat match goal with
             | |- context [if ?c then _ else _] => destruct c
             end; reflexivity
    | apply keeps_settled_bind; [|intros ?]
    | match goal with
      | |- keeps_settled (if ?b then _ else _) => destruct b
      | |- keeps_settled (match ?x with _ => _ end) => destruct x
      end ].

Lemma IsTableExisting_settled (i : nat) : keeps_settled (IsTableExisting i).
Proof. unfold IsTableExisting. settle. Qed.

Lemma SaveWayNodes_settled (wn : WayNodes) : keeps_settled (SaveWayNodes wn).
Proof. unfold SaveWayNodes. settle. Qed.

Lemma SaveNaviData_settled (ni : NaviInfo) : keeps_settled (SaveNaviData ni).
Proof. unfold SaveNaviData. settle. Qed.

(** Every call of the component keeps a seeded speed_limit table as it is
    and leaves no transaction open. *)
Lemma state_after_settled (op : Operation) (s : SQLiteWrapper) :
  settled s -> settled (state_after op s).
Proof.
  revert s. change (keeps_settled (fun s => (Normal tt, state_after op s))).
  assert (forall A (m : Op A), keeps_settled m ->
            keeps_settled (fun s => (Normal tt, snd (m s)))) as Hsnd
      by (intros A m Hm s Hs; exact (Hm s Hs)).
  destruct op; simpl; apply Hsnd.
  - unfold InitDatabase. apply keeps_settled_bind;
      [apply IsTableExisting_settled | intros ?]. settle.
  - apply IsTableExisting_settled.
  - apply CreateTable_settled.
  - apply FillTableSpeedLimit_settled.
  - unfold SaveWay, ExcuteNonQueryCmd, SaveWay_cmd. settle.
  - apply SaveWayNodes_settled.
  - unfold SaveWayData, ExcuteNonQueryCmd. settle.
  - apply SaveNaviData_settled.
  - unfold QueryNaviDataWithWayId. settle.
  - unfold QueryNaviDataWithWayIdAndIndex. settle.
  - unfold QueryWayNodesWithWayId. settle.
  - unfold QueryWayWithWayId. settle.
  - unfold QueryWayDataWithWayId. settle.
  - unfold UpdateWay, ExcuteNonQueryCmd, UpdateWay_cmd. settle.
  - unfold UpdateWaySpeedLimit, ExcuteNonQueryCmd. settle.
  - unfold UpdateWayNodes, ExcuteNonQueryCmd. apply keeps_settled_bind;
      [settle | intros ok]. destruct ok; simpl;
      [apply SaveWayNodes_settled | settle].
  - unfold UpdateWayData, ExcuteNonQueryCmd. settle.
  - unfold UpdateNaviData, ExcuteNonQueryCmd. apply keeps_settled_bind;
      [settle | intros ok]. destruct ok; simpl;
      [apply SaveNaviData_settled | settle].
  - unfold DeleteWay, DeleteWayNodes, DeleteWayData, DeleteNaviData,
      ExcuteNonQueryCmd. settle.
  - unfold DeleteWayNodes, ExcuteNonQueryCmd. settle.
  - unfold DeleteWayData, ExcuteNonQueryCmd. settle.
  - unfold DeleteNaviData, ExcuteNonQueryCmd. settle.
  - unfold CreateNewWayId. settle.
  - unfold GetNaviTableId. settle.
Qed.

Lemma seed_batch_on_new_table :
  table_after "speed_limit"
    (bound_cmds FillTableSpeedLimit_bind FillTableSpeedLimit_range
       (NewCommand (SqlInsert "speed_limit" ["id"; "speed"])))
    (mkTable ["id"; "speed"] [INTEGER; INTEGER] (Some "id") [])
  = Some speed_limit_table.
Proof. reflexivity. Qed.

(** One successful [CreateTable] of the chain, with its effect on the
    catalog. *)
Ltac created i s H :=
  let ok := fresh "ok" in let s' := fresh "s" in
  let Hrun := fresh "Hrun" in let Hx := fresh "Hx" in let Ht := fresh "Ht" in
  destruct (CreateTable_valid i s ltac:(cbv; lia))
    as (ok & s' & Hrun & _ & Hx & Ht);
  rewrite bind_run, Hrun in H; destruct ok; simpl in H; [|discriminate];
  simpl in Ht;
  match type of Ht with
  | context [tables s !! ?n] => destruct (tables s !! n) eqn:?
  end; [discriminate|];
  injection Ht as Ht.

(** An [InitDatabase] that finds no way table and returns [true] has created
    the speed_limit table and filled it with exactly the seed. *)
Lemma InitDatabase_seeds (s s1 s' : SQLiteWrapper) :
  transaction s = None ->
  IsTableExisting kTableWay s = (Normal false, s1) ->
  InitDatabase s = (Normal true, s') ->
  settled s'.
Proof.
  intros Hx Hex Hinit.
  destruct (IsTableExisting_reads kTableWay s)
    as (e & s1' & Hr & _ & Hx1 & _).
  rewrite Hex in Hr. injection Hr as <- <-.
  unfold InitDatabase in Hinit. rewrite bind_run, Hex in Hinit.
  simpl in Hinit.
  created kTableSpeedLimit s1 Hinit. created kTableWay s0 Hinit.
  created kTableWayNodes s2 Hinit. created kTableWayData s3 Hinit.
  created kTableNaviData s4 Hinit.
  assert (tables s5 !! "speed_limit"
          = Some (mkTable ["id"; "speed"] [INTEGER; INTEGER] (Some "id") [])) as Hsl.
  { rewrite <- Ht3, <- Ht2, <- Ht1, <- Ht0, <- Ht.
    rewrite !lookup_insert_ne by done. apply lookup_insert_eq. }
  assert (transaction s5 = None) as Hnone by congruence.
  destruct (transactional_save FillTableSpeedLimit_bind
              FillTableSpeedLimit_range
              (NewCommand (SqlInsert "speed_limit" ["id"; "speed"])) s5 Hnone)
    as (res & s6 & done_ & Hfill & _ & _ & _ & Hnone6 & Hres).
  rewrite bind_run in Hinit. unfold FillTableSpeedLimit in Hinit.
  rewrite Hfill in Hinit. destruct res; unfold ret in Hinit; simpl in Hinit;
    [|discriminate].
  assert (s6 = s') as -> by congruence.
  destruct Hres as [_ Hall].
  rewrite (apply_all_table "speed_limit" _ _ _ _ Hsl seed_batch_on_new_table)
    in Hall.
  split; [done|]. unfold seeded. injection Hall as <-.
  apply lookup_insert_eq.
Qed.

(** C7, as the code has it. An [InitDatabase] that finds no way table and
    returns [true] leaves the speed_limit table holding exactly the rows
    [(id, 30 + 10 * (id - 1))] for [id] from 1 to 13. From then on every
    call of the component -- saves, queries, updates, deletes, the two
    allocators, and the schema calls themselves -- leaves these rows as they
    are. (An [InitDatabase] that finds the way table returns [true] without
    looking at speed_limit.) *)
Theorem speed_limit_seed :
  (forall s s1 s' : SQLiteWrapper,
      transaction s = None ->
      IsTableExisting kTableWay s = (Normal false, s1) ->
      InitDatabase s = (Normal true, s') ->
      seeded s' /\ transaction s' = None)
  /\ (forall (op : Operation) (s : SQLiteWrapper),
         transaction s = None ->
         seeded s ->
         seeded (state_after op s) /\ transaction (state_after op s) = None).
Proof.
  split.
  - intros s s1 s' Hx Hex Hinit.
    destruct (InitDatabase_seeds s s1 s' Hx Hex Hinit). by split.
  - intros op s Hx Hseed.
    destruct (state_after_settled op s (conj Hx Hseed)). by split.
Qed.

Lemma speed_limit_seed_witness :
  (seeded fresh_db /\ transaction fresh_db = None)
  /\ (seeded (state_after (DoDeleteWay 1) fresh_db)
      /\ transaction (state_after (DoDeleteWay 1) fresh_db) = None)
  /\ (seeded (state_after DoFillTableSpeedLimit fresh_db)
      /\ transaction (state_after DoFillTableSpeedLimit fresh_db) = None).
Proof.
  destruct speed_limit_seed as [Hinit Hkeep].
  split; [|split].
  - apply (Hinit empty_db (snd (IsTableExisting kTableWay empty_db)) fresh_db).
    + reflexivity.
    + exact (run_pair (IsTableExisting kTableWay) empty_db (Normal false)
               eq_refl).
    + exact (run_pair InitDatabase empty_db (Normal true) eq_refl).
  - apply (Hkeep (DoDeleteWay 1) fresh_db); reflexivity.
  - apply (Hkeep DoFillTableSpeedLimit fresh_db); reflexivity.
Defined.

(** The statement "after a successful initialization speed_limit holds the
    seed" fails on the fast path: a first [InitDatabase] interrupted after
    the way table was created leaves speed_limit empty, and the next
    [InitDatabase] finds the way table and returns [true] at once. *)
Lemma InitDatabase_true_without_seed :
  let s := snd (InitDatabase (failing_at 3 empty_db)) in
  fst (InitDatabase (failing_at 3 empty_db)) = Normal false
  /\ transaction s = None
  /\ fst (InitDatabase s) = Normal true
  /\ rows <$> (tables (snd (InitDatabase s)) !! "speed_limit") = Some []
  /\ ~ seeded (snd (InitDatabase s)).
Proof.
  do 4 (split; [reflexivity|]).
  unfold seeded. intros H. vm_compute in H. discriminate.
Qed.

(** * Further properties of the component *)

(** ** What the calls keep *)

Lemma keeps_ret {A} (P : SQLiteWrapper -> Prop) (a : A) : keeps P (ret a).
Proof. by intros s Hs. Qed.

Lemma keeps_bind {A B} (P : SQLiteWrapper -> Prop) (m : Op A)
      (k : A -> Op B) :
  keeps P m -> (forall a, keeps P (k a)) -> keeps P (bind m k).
Proof.
  intros Hm Hk s Hs. rewrite bind_run. specialize (Hm s Hs).
  destruct (m s) as [[a|] s1]; simpl in *; [by apply Hk | done].
Qed.

Lemma keeps_at {A} (P : SQLiteWrapper -> Prop) (arr : list A) (i : nat) :
  keeps P (at_ arr i).
Proof. intros s Hs. unfold at_. by destruct (arr !! i). Qed.

(** Splits a call into its driver calls; [base] closes the goal for a single
    driver call. *)
Ltac keep_by base :=
  repeat first
    [ apply keeps_ret
    | apply keeps_at
    | base
    | apply keeps_bind; [|intros ?]
    | match goal with
      | |- keeps _ (if ?b then _ else _) => destruct b
      | |- keeps _ (match ?x with _ => _ end) => destruct x
      end ].

Lemma keeps_read_ExcuteQuery (s0 : SQLiteWrapper) (q : Query) :
  keeps (read_from s0) (ExcuteQuery q).
Proof.
  intros s (Ht & Hx & made & Hc & Hq).
  destruct (ExcuteQuery_spec q s) as (r & s1 & Hrun & Hc1 & Hx1 & Ht1 & _).
  rewrite Hrun. simpl. split; [congruence|]. split; [congruence|].
  eexists (made ++ [_]). rewrite Hc1, Hc, <- app_assoc. split; [done|].
  apply Forall_app. split; [done|]. by repeat constructor.
Qed.

Lemma read_from_state_after (op : Operation) (s0 s : SQLiteWrapper) :
  is_read op = true -> read_from s0 s -> read_from s0 (state_after op s).
Proof.
  intros Hop Hs.
  assert (forall A (m : Op A), keeps (read_from s0) m ->
            read_from s0 (snd (m s))) as Hsnd
      by (intros A m Hm; exact (Hm s Hs)).
  destruct op; try discriminate; simpl; apply Hsnd.
  - unfold IsTableExisting. keep_by ltac:(apply keeps_read_ExcuteQuery).
  - unfold QueryNaviDataWithWayId.
    keep_by ltac:(apply keeps_read_ExcuteQuery).
  - unfold QueryNaviDataWithWayIdAndIndex.
    keep_by ltac:(apply keeps_read_ExcuteQuery).
  - unfold QueryWayNodesWithWayId.
    keep_by ltac:(apply keeps_read_ExcuteQuery).
  - unfold QueryWayWithWayId. keep_by ltac:(apply keeps_read_ExcuteQuery).
  - unfold QueryWayDataWithWayId.
    keep_by ltac:(apply keeps_read_ExcuteQuery).
  - unfold CreateNewWayId. keep_by ltac:(apply keeps_read_ExcuteQuery).
  - unfold GetNaviTableId. keep_by ltac:(apply keeps_read_ExcuteQuery).
Qed.

(** X1. The five queries by way id, the two allocators and the existence
    test never write: they leave every table and the transaction state as
    they found them, and the only driver calls they make are queries. *)
Theorem reads_never_write (op : Operation) (s : SQLiteWrapper) :
  is_read op = true ->
  tables (state_after op s) = tables s
  /\ transaction (state_after op s) = transaction s
  /\ exists made, calls (state_after op s) = calls s ++ made
                  /\ Forall is_query_call made.
Proof.
  intros Hop. apply (read_from_state_after op s s Hop).
  split; [done|]. split; [done|]. exists []. by rewrite app_nil_r.
Qed.

Lemma reads_never_write_witness :
  let s := snd (SaveWay sample_way fresh_db) in
  tables (state_after (DoQueryWayWithWayId 1 sample_way) s) = tables s
  /\ transaction (state_after (DoQueryWayWithWayId 1 sample_way) s)
     = transaction s
  /\ exists made,
      calls (state_after (DoQueryWayWithWayId 1 sample_way) s)
      = calls s ++ made
      /\ Forall is_query_call made.
Proof.
  apply (reads_never_write (DoQueryWayWithWayId 1 sample_way)
           (snd (SaveWay sample_way fresh_db))).
  reflexivity.
Defined.

Lemma keeps_closed_ExcuteQuery (q : Query) :
  keeps no_transaction (ExcuteQuery q).
Proof.
  intros s Hs. destruct (ExcuteQuery_spec q s) as (r & s1 & Hrun & _ & Hx & _).
  rewrite Hrun. unfold no_transaction in *. simpl. congruence.
Qed.

Lemma keeps_closed_ExcuteNonQuery (sql : Statement)
      (params : gmap nat SqliteValue) :
  keeps no_transaction (ExcuteNonQuery sql params).
Proof.
  intros s Hs.
  destruct (ExcuteNonQuery_spec sql params s) as (ok & s1 & Hrun & _ & Hx & _).
  rewrite Hrun. unfold no_transaction in *. simpl. congruence.
Qed.

Lemma keeps_closed_save {A} (bind_row : A -> SQLiteCommand -> SQLiteCommand)
      (items : list A) (cmd : SQLiteCommand) :
  keeps no_transaction
    (do _ <- BeginTransaction;
     do res <- insert_each bind_row items cmd;
     finish_transaction res).
Proof.
  intros s Hs.
  destruct (transactional_save bind_row items cmd s Hs)
    as (res & s' & done_ & Hrun & _ & _ & _ & Hx & _).
  by rewrite Hrun.
Qed.

Ltac closing :=
  keep_by ltac:(first [ apply keeps_closed_ExcuteQuery
                      | apply keeps_closed_ExcuteNonQuery
                      | apply keeps_closed_save ]).

(** X2. No call of the component leaves a transaction open: started with no
    transaction open, every call returns with none open, whether it
    succeeds, fails or throws. *)
Theorem no_transaction_left_open (op : Operation) (s : SQLiteWrapper) :
  transaction s = None -> transaction (state_after op s) = None.
Proof.
  intros Hs.
  assert (forall A (m : Op A), keeps no_transaction m ->
            transaction (snd (m s)) = None) as Hsnd
      by (intros A m Hm; exact (Hm s Hs)).
  destruct op; simpl; apply Hsnd.
  - unfold InitDatabase, IsTableExisting, CreateTable, FillTableSpeedLimit.
    closing.
  - unfold IsTableExisting. closing.
  - unfold CreateTable. closing.
  - unfold FillTableSpeedLimit. closing.
  - unfold SaveWay, ExcuteNonQueryCmd. closing.
  - unfold SaveWayNodes. closing.
  - unfold SaveWayData, ExcuteNonQueryCmd. closing.
  - unfold SaveNaviData. closing.
  - unfold QueryNaviDataWithWayId. closing.
  - unfold QueryNaviDataWithWayIdAndIndex. closing.
  - unfold QueryWayNodesWithWayId. closing.
  - unfold QueryWayWithWayId. closing.
  - unfold QueryWayDataWithWayId. closing.
  - unfold UpdateWay, ExcuteNonQueryCmd. closing.
  - unfold UpdateWaySpeedLimit, ExcuteNonQueryCmd. closing.
  - unfold UpdateWayNodes, SaveWayNodes, ExcuteNonQueryCmd. closing.
  - unfold UpdateWayData, ExcuteNonQueryCmd. closing.
  - unfold UpdateNaviData, SaveNaviData, ExcuteNonQueryCmd. closing.
  - unfold DeleteWay, DeleteWayNodes, DeleteWayData, DeleteNaviData,
      ExcuteNonQueryCmd. closing.
  - unfold DeleteWayNodes, ExcuteNonQueryCmd. closing.
  - unfold DeleteWayData, ExcuteNonQueryCmd. closing.
  - unfold DeleteNaviData, ExcuteNonQueryCmd. closing.
  - unfold CreateNewWayId. closing.
  - unfold GetNaviTableId. closing.
Qed.

Lemma no_transaction_left_open_witness :
  transaction (state_after (DoUpdateWayNodes 1 sample_nodes)
                           (failing_at 2 fresh_db)) = None.
Proof.
  apply (no_transaction_left_open (DoUpdateWayNodes 1 sample_nodes)
           (failing_at 2 fresh_db)).
  reflexivity.
Defined.

(** ** Statements on one table *)

Lemma exec_delete (t wc : string) (params : gmap nat SqliteValue)
      (tbls : gmap string Table) (tb : Table) (wi : nat) :
  tbls !! t = Some tb ->
  index_of (columns tb) wc = Some wi ->
  exec (SqlDelete t wc) params tbls
  = Some (<[t := set_rows tb
                   (List.filter
                      (fun row => negb (sql_eqb (column row wi)
                                                (param params 1)))
                      (rows tb))]> tbls).
Proof. intros Htb Hwi. simpl. by rewrite Htb, Hwi. Qed.

(** [DELETE FROM t WHERE way_id=?] on a table whose first column is
    [way_id]. *)
Lemma exec_delete_way (t : string) (id : Z) (tbls : gmap string Table)
      (tb : Table) :
  tbls !! t = Some tb ->
  index_of (columns tb) "way_id" = Some 0%nat ->
  exec (cmd_sql (delete_cmd t id)) (cmd_params (delete_cmd t id)) tbls
  = Some (<[t := set_rows tb (rows_of_others id (rows tb))]> tbls).
Proof.
  intros Htb Hwi. unfold delete_cmd. simpl cmd_sql.
  by rewrite (exec_delete t "way_id" _ tbls tb 0 Htb Hwi).
Qed.

Lemma insert_row_way_nodes (params : gmap nat SqliteValue) :
  insert_row way_nodes_columns way_nodes_columns params
  = [param params 1; param params 2; param params 3; param params 4].
Proof. reflexivity. Qed.

Lemma insert_row_navi_data (params : gmap nat SqliteValue) :
  insert_row navi_data_columns navi_data_columns params
  = [param params 1; param params 2; param params 3].
Proof. reflexivity. Qed.

Lemma insert_into_node (tb : Table) (params : gmap nat SqliteValue)
      (id : Z) (n : Node) :
  columns tb = way_nodes_columns ->
  primary_key tb = None ->
  params !! 1%nat = Some (VInt id) ->
  insert_into tb way_nodes_columns
    (<[4%nat := VText (node_value n)]>
       (<[3%nat := VInt (data_line_number n)]>
          (<[2%nat := VInt (node_index n)]> params)))
  = Some (set_rows tb (rows tb ++ [node_row id n])).
Proof.
  intros Hcols Hpk Hid. unfold insert_into, pk_conflict.
  rewrite Hcols, Hpk.
  change (all_known way_nodes_columns way_nodes_columns) with true.
  cbn [negb]. rewrite insert_row_way_nodes. unfold param, node_row.
  rewrite lookup_insert_eq.
  rewrite (lookup_insert_ne _ 4%nat 3%nat), lookup_insert_eq by done.
  rewrite (lookup_insert_ne _ 4%nat 2%nat), (lookup_insert_ne _ 3%nat 2%nat),
    lookup_insert_eq by done.
  rewrite (lookup_insert_ne _ 4%nat 1%nat), (lookup_insert_ne _ 3%nat 1%nat),
    (lookup_insert_ne _ 2%nat 1%nat), Hid by done.
  reflexivity.
Qed.

Lemma table_after_way_nodes (nodes : list Node) :
  forall (cmd : SQLiteCommand) (tb : Table) (id : Z),
    columns tb = way_nodes_columns ->
    primary_key tb = None ->
    cmd_sql cmd = SqlInsert "way_nodes" way_nodes_columns ->
    cmd_params cmd !! 1%nat = Some (VInt id) ->
    table_after "way_nodes" (bound_cmds SaveWayNodes_bind nodes cmd) tb
    = Some (set_rows tb (rows tb ++ map (node_row id) nodes)).
Proof.
  induction nodes as [|n nodes IH]; intros cmd tb id Hcols Hpk Hsql Hid.
  - simpl. rewrite app_nil_r. by destruct tb.
  - cbn [bound_cmds table_after].
    change (cmd_sql (SaveWayNodes_bind n cmd)) with (cmd_sql cmd).
    rewrite Hsql, String.eqb_refl.
    change (cmd_params (SaveWayNodes_bind n cmd))
      with (<[4%nat := VText (node_value n)]>
              (<[3%nat := VInt (data_line_number n)]>
                 (<[2%nat := VInt (node_index n)]> (cmd_params cmd)))).
    rewrite (insert_into_node tb _ id n Hcols Hpk Hid).
    rewrite (IH (SaveWayNodes_bind n cmd) _ id); try done.
    + simpl. by rewrite <- app_assoc.
    + simpl. by rewrite !lookup_insert_ne by done.
Qed.

Lemma insert_into_navi (tb : Table) (params : gmap nat SqliteValue)
      (id : Z) (d : NaviData) :
  columns tb = navi_data_columns ->
  primary_key tb = None ->
  params !! 1%nat = Some (VInt id) ->
  insert_into tb navi_data_columns
    (<[3%nat := VBlob (data d)]> (<[2%nat := VInt (navi_index d)]> params))
  = Some (set_rows tb (rows tb ++ [navi_row id d])).
Proof.
  intros Hcols Hpk Hid. unfold insert_into, pk_conflict.
  rewrite Hcols, Hpk.
  change (all_known navi_data_columns navi_data_columns) with true.
  cbn [negb]. rewrite insert_row_navi_data. unfold param, navi_row.
  rewrite lookup_insert_eq.
  rewrite (lookup_insert_ne _ 3%nat 2%nat), lookup_insert_eq by done.
  rewrite (lookup_insert_ne _ 3%nat 1%nat), (lookup_insert_ne _ 2%nat 1%nat),
    Hid by done.
  reflexivity.
Qed.

Lemma table_after_navi_data (entries : list NaviData) :
  forall (cmd : SQLiteCommand) (tb : Table) (id : Z),
    columns tb = navi_data_columns ->
    primary_key tb = None ->
    cmd_sql cmd = SqlInsert "navi_data" navi_data_columns ->
    cmd_params cmd !! 1%nat = Some (VInt id) ->
    table_after "navi_data" (bound_cmds SaveNaviData_bind entries cmd) tb
    = Some (set_rows tb (rows tb ++ map (navi_row id) entries)).
Proof.
  induction entries as [|d entries IH]; intros cmd tb id Hcols Hpk Hsql Hid.
  - simpl. rewrite app_nil_r. by destruct tb.
  - cbn [bound_cmds table_after].
    change (cmd_sql (SaveNaviData_bind d cmd)) with (cmd_sql cmd).
    rewrite Hsql, String.eqb_refl.
    change (cmd_params (SaveNaviData_bind d cmd))
      with (<[3%nat := VBlob (data d)]>
              (<[2%nat := VInt (navi_index d)]> (cmd_params cmd))).
    rewrite (insert_into_navi tb _ id d Hcols Hpk Hid).
    rewrite (IH (SaveNaviData_bind d cmd) _ id); try done.
    + simpl. by rewrite <- app_assoc.
    + simpl. by rewrite !lookup_insert_ne by done.
Qed.

(** ** Saving and reading back the children of a way *)

Lemma save_tables {A} (bind_row : A -> SQLiteCommand -> SQLiteCommand)
      (items : list A) (cmd : SQLiteCommand) (s : SQLiteWrapper)
      (t : string) (tb tb' : Table) :
  transaction s = None ->
  tables s !! t = Some tb ->
  table_after t (bound_cmds bind_row items cmd) tb = Some tb' ->
  exists res s',
    (do _ <- BeginTransaction;
     do res <- insert_each bind_row items cmd;
     finish_transaction res) s = (Normal res, s')
    /\ transaction s' = None
    /\ tables s' = if res then <[t := tb']> (tables s) else tables s.
Proof.
  intros Hx Htb Hafter.
  destruct (transactional_save bind_row items cmd s Hx)
    as (res & s' & done_ & Hrun & _ & _ & _ & Hx' & Hres).
  exists res, s'. split; [done|]. split; [done|].
  destruct res; [|done]. destruct Hres as [_ Hall].
  rewrite (apply_all_table t _ _ _ _ Htb Hafter) in Hall. congruence.
Qed.

Lemma SaveWayNodes_appends_holds (way_nodes : WayNodes) (s : SQLiteWrapper)
        (tb : Table) :
  transaction s = None ->
  has_table s "way_nodes" way_nodes_columns None tb ->
  exists res s',
    SaveWayNodes way_nodes s = (Normal res, s')
    /\ transaction s' = None
    /\ tables s'
       = if res
         then <["way_nodes" :=
                  set_rows tb (rows tb
                               ++ map (node_row (way_nodes_way_id way_nodes))
                                      (nodes way_nodes))]> (tables s)
         else tables s.
Proof.
  intros Hx (Htb & Hcols & Hpk).
  apply (save_tables _ _ _ s "way_nodes" tb _ Hx Htb).
  by apply table_after_way_nodes.
Qed.

(** X3. [SaveWayNodes] into a way_nodes table laid out as its CREATE TABLE
    says: when it returns [true] the table has gained exactly one row per
    node, in the order of the nodes, each carrying the way id of the
    aggregate (bound once, before the loop); when it returns [false] every
    table is as before. *)
Theorem SaveWayNodes_appends (way_nodes : WayNodes) (s : SQLiteWrapper)
        (tb : Table) :
  transaction s = None ->
  has_table s "way_nodes" way_nodes_columns None tb ->
  exists res s',
    SaveWayNodes way_nodes s = (Normal res, s')
    /\ transaction s' = None
    /\ tables s'
       = if res
         then <["way_nodes" :=
                  set_rows tb (rows tb
                               ++ map (node_row (way_nodes_way_id way_nodes))
                                      (nodes way_nodes))]> (tables s)
         else tables s.
Proof. exact (SaveWayNodes_appends_holds way_nodes s tb). Qed.

Lemma SaveWayNodes_appends_witness :
  exists res s',
    SaveWayNodes sample_nodes fresh_db = (Normal res, s')
    /\ transaction s' = None
    /\ tables s'
       = if res
         then <["way_nodes" :=
                  set_rows (mkTable way_nodes_columns way_nodes_types None [])
                    ([] ++ map (node_row 1) (nodes sample_nodes))]>
                (tables fresh_db)
         else tables fresh_db.
Proof.
  apply (SaveWayNodes_appends sample_nodes fresh_db
           (mkTable way_nodes_columns way_nodes_types None [])).
  - reflexivity.
  - repeat split.
Defined.

Lemma SaveNaviData_appends_holds (navi_info : NaviInfo) (s : SQLiteWrapper)
        (tb : Table) :
  transaction s = None ->
  has_table s "navi_data" navi_data_columns None tb ->
  exists res s',
    SaveNaviData navi_info s = (Normal res, s')
    /\ transaction s' = None
    /\ tables s'
       = if res
         then <["navi_data" :=
                  set_rows tb (rows tb
                               ++ map (navi_row (navi_info_way_id navi_info))
                                      (navi_data navi_info))]> (tables s)
         else tables s.
Proof.
  intros Hx (Htb & Hcols & Hpk).
  apply (save_tables _ _ _ s "navi_data" tb _ Hx Htb).
  by apply table_after_navi_data.
Qed.

(** X4. The same for [SaveNaviData] and the navi_data table. *)
Theorem SaveNaviData_appends (navi_info : NaviInfo) (s : SQLiteWrapper)
        (tb : Table) :
  transaction s = None ->
  has_table s "navi_data" navi_data_columns None tb ->
  exists res s',
    SaveNaviData navi_info s = (Normal res, s')
    /\ transaction s' = None
    /\ tables s'
       = if res
         then <["navi_data" :=
                  set_rows tb (rows tb
                               ++ map (navi_row (navi_info_way_id navi_info))
                                      (navi_data navi_info))]> (tables s)
         else tables s.
Proof. exact (SaveNaviData_appends_holds navi_info s tb). Qed.

Lemma SaveNaviData_appends_witness :
  exists res s',
    SaveNaviData sample_navi fresh_db = (Normal res, s')
    /\ transaction s' = None
    /\ tables s'
       = if res
         then <["navi_data" :=
                  set_rows (mkTable navi_data_columns navi_data_types None [])
                    ([] ++ map (navi_row 1) (navi_data sample_navi))]>
                (tables fresh_db)
         else tables fresh_db.
Proof.
  apply (SaveNaviData_appends sample_navi fresh_db
           (mkTable navi_data_columns navi_data_types None [])).
  - reflexivity.
  - repeat split.
Defined.

Lemma rows_of_way_app (id : Z) (a b : list (list SqliteValue)) :
  rows_of_way id (a ++ b) = rows_of_way id a ++ rows_of_way id b.
Proof. apply List.filter_app. Qed.

Lemma rows_of_way_all {A} (id : Z) (f : A -> list SqliteValue)
      (items : list A) :
  (forall x, column (f x) 0 = VInt id) ->
  rows_of_way id (map f items) = map f items.
Proof.
  intros Hf. unfold rows_of_way. induction items as [|x items IH]; [done|].
  simpl. unfold of_way at 1. rewrite Hf. simpl. rewrite Z.eqb_refl.
  by rewrite IH.
Qed.

Lemma eval_select_way (t : string) (id : Z) (tbls : gmap string Table)
      (tb : Table) :
  tbls !! t = Some tb ->
  index_of (columns tb) "way_id" = Some 0%nat ->
  eval (SqlSelect None t [("way_id", id)]) tbls
  = Some (rows_of_way id (rows tb)).
Proof. intros Htb Hi. by rewrite (eval_select_all t "way_id" id tbls tb 0). Qed.

Lemma QueryWayNodesWithWayId_loop (reader : list (list SqliteValue))
      (res : bool) (acc : list Node) :
  while_Read QueryWayNodesWithWayId_row reader (res, acc)
  = (if at_least_one reader then true else res,
     acc ++ map Node_of_row reader).
Proof.
  unfold while_Read. revert res acc.
  induction reader as [|row reader IH]; intros res acc; simpl.
  - by rewrite app_nil_r.
  - unfold QueryWayNodesWithWayId_row at 2. simpl. rewrite IH.
    rewrite <- app_assoc. simpl. by destruct (at_least_one reader).
Qed.

Lemma Node_of_node_row (id : Z) (n : Node) :
  node_in_range n -> Node_of_row (node_row id n) = n.
Proof.
  intros [Hi Hl]. unfold Node_of_row, node_row, GetUint64Value,
    GetStringValue. simpl. rewrite (wrap64_id _ Hi), (wrap64_id _ Hl).
  by destruct n.
Qed.

(** X5. Saving the nodes of a way and querying them back. After a
    successful [SaveWayNodes] into a way_nodes table laid out as its CREATE
    TABLE says, [QueryWayNodesWithWayId] for the way id of the aggregate
    returns the nodes stored earlier for that way followed by the saved
    nodes, unchanged and in order; with nothing at all to return it reports
    not found and leaves the output alone. *)
Theorem SaveWayNodes_then_QueryWayNodesWithWayId
        (way_nodes out : WayNodes) (s s' : SQLiteWrapper) (tb : Table) :
  transaction s = None ->
  has_table s "way_nodes" way_nodes_columns None tb ->
  Forall node_in_range (nodes way_nodes) ->
  SaveWayNodes way_nodes s = (Normal true, s') ->
  no_fault s' ->
  fst (QueryWayNodesWithWayId (way_nodes_way_id way_nodes) out s')
  = Normal
      (match map Node_of_row
                 (rows_of_way (way_nodes_way_id way_nodes) (rows tb))
             ++ nodes way_nodes with
       | [] => (false, out)
       | all => (true, mkWayNodes (way_nodes_way_id way_nodes) all)
       end).
Proof.
  intros Hx Htb Hrange Hsave Hn.
  destruct (SaveWayNodes_appends_holds way_nodes s tb Hx Htb)
    as (res & s1 & Hrun & _ & Ht).
  rewrite Hsave in Hrun. injection Hrun as <- <-.
  destruct Htb as (Htb & Hcols & Hpk).
  unfold QueryWayNodesWithWayId. rewrite bind_run.
  pose proof (ExcuteQuery_no_fault
                (SqlSelect None "way_nodes"
                           [("way_id", way_nodes_way_id way_nodes)]) s' Hn)
    as Hq.
  destruct (ExcuteQuery _ s') as [r s2]. cbn [fst] in Hq. rewrite Hq.
  rewrite (eval_select_way "way_nodes" _ (tables s')
             (set_rows tb (rows tb
                ++ map (node_row (way_nodes_way_id way_nodes))
                       (nodes way_nodes)))).
  2: { rewrite Ht. apply lookup_insert_eq. }
  2: { simpl. by rewrite Hcols. }
  cbn [rows set_rows]. rewrite rows_of_way_app.
  rewrite (rows_of_way_all _ (node_row (way_nodes_way_id way_nodes)))
    by done.
  rewrite QueryWayNodesWithWayId_loop. cbn [app].
  rewrite map_app, map_map.
  rewrite (map_ext_Forall _ id) by
      (eapply Forall_impl; [exact Hrange|]; intros n Hr;
       by apply Node_of_node_row).
  rewrite map_id.
  destruct (map Node_of_row _ ++ nodes way_nodes) as [|n all] eqn:E.
  - apply app_eq_nil in E as [E1 E2]. apply map_eq_nil in E1.
    rewrite E1, E2. reflexivity.
  - assert (at_least_one
              (rows_of_way (way_nodes_way_id way_nodes) (rows tb)
               ++ map (node_row (way_nodes_way_id way_nodes))
                      (nodes way_nodes)) = true) as ->.
    { destruct (rows_of_way _ (rows tb)); [|done].
      destruct (nodes way_nodes); [discriminate | done]. }
    reflexivity.
Qed.

Lemma SaveWayNodes_then_QueryWayNodesWithWayId_witness :
  fst (QueryWayNodesWithWayId 1 (mkWayNodes 9 [])
         (snd (SaveWayNodes sample_nodes fresh_db)))
  = Normal (true, sample_nodes).
Proof.
  refine (SaveWayNodes_then_QueryWayNodesWithWayId sample_nodes
            (mkWayNodes 9 []) fresh_db
            (snd (SaveWayNodes sample_nodes fresh_db))
            (mkTable way_nodes_columns way_nodes_types None []) _ _ _ _ _).
  - reflexivity.
  - repeat split.
  - repeat constructor; unfold is_uint64; simpl; lia.
  - exact (run_pair (SaveWayNodes sample_nodes) fresh_db (Normal true)
             eq_refl).
  - vm_compute. discriminate.
Defined.

Lemma eval_select_navi (id : Z) (tbls : gmap string Table) (tb : Table) :
  tbls !! "navi_data" = Some tb ->
  columns tb = navi_data_columns ->
  eval (SqlSelect (Some ["navi_index"; "data"]) "navi_data" [("way_id", id)])
       tbls
  = Some (map (fun row => [column row 1; column row 2])
              (rows_of_way id (rows tb))).
Proof.
  intros Htb Hcols. simpl. rewrite Htb, Hcols.
  change (all_known navi_data_columns _) with true. simpl. f_equal.
  unfold rows_of_way. f_equal. apply filter_ext. intros row.
  unfold cond_holds, of_way. simpl. apply andb_true_r.
Qed.

Lemma NaviData_of_navi_row (id : Z) (d : NaviData) :
  is_uint8 (navi_index d) -> NaviData_of_stored (navi_row id d) = d.
Proof.
  intros Hi. unfold NaviData_of_stored, NaviData_of_row, navi_row,
    GetIntValue, GetBlobValue, is_uint8 in *. simpl.
  rewrite wrap_int_small by lia. unfold wrap8. rewrite Z.mod_small by lia.
  by destruct d.
Qed.

(** X6. Saving the navigation entries of a way and querying them back.
    After a successful [SaveNaviData] into a navi_data table laid out as its
    CREATE TABLE says, the list form of [QueryNaviDataWithWayId] for that
    way id hands back the caller's vector followed by the entries stored
    earlier for the way and then the saved entries, each with its index and
    its blob unchanged, in order. *)
Theorem SaveNaviData_then_QueryNaviDataWithWayId
        (navi_info : NaviInfo) (old : list NaviData) (s s' : SQLiteWrapper)
        (tb : Table) :
  transaction s = None ->
  has_table s "navi_data" navi_data_columns None tb ->
  Forall (fun d => is_uint8 (navi_index d)) (navi_data navi_info) ->
  SaveNaviData navi_info s = (Normal true, s') ->
  no_fault s' ->
  fst (QueryNaviDataWithWayId (navi_info_way_id navi_info) old s')
  = Normal
      (at_least_one
         (rows_of_way (navi_info_way_id navi_info) (rows tb)
          ++ map (navi_row (navi_info_way_id navi_info))
                 (navi_data navi_info)),
       old ++ map NaviData_of_stored
                  (rows_of_way (navi_info_way_id navi_info) (rows tb))
           ++ navi_data navi_info).
Proof.
  intros Hx Htb Hrange Hsave Hn.
  destruct (SaveNaviData_appends_holds navi_info s tb Hx Htb)
    as (res & s1 & Hrun & _ & Ht).
  rewrite Hsave in Hrun. injection Hrun as <- <-.
  destruct Htb as (Htb & Hcols & Hpk).
  unfold QueryNaviDataWithWayId. rewrite bind_run.
  pose proof (ExcuteQuery_no_fault
                (SqlSelect (Some ["navi_index"; "data"]) "navi_data"
                           [("way_id", navi_info_way_id navi_info)]) s' Hn)
    as Hq.
  destruct (ExcuteQuery _ s') as [r s2]. cbn [fst] in Hq. rewrite Hq.
  rewrite (eval_select_navi _ (tables s')
             (set_rows tb (rows tb
                ++ map (navi_row (navi_info_way_id navi_info))
                       (navi_data navi_info)))).
  2: { rewrite Ht. apply lookup_insert_eq. }
  2: { simpl. by rewrite Hcols. }
  cbn [rows set_rows]. rewrite rows_of_way_app.
  rewrite (rows_of_way_all _ (navi_row (navi_info_way_id navi_info)))
    by done.
  unfold ret. rewrite QueryNaviDataWithWayId_rows. cbn [fst].
  rewrite !map_app, !map_map.
  change (fun x => NaviData_of_row [column x 1; column x 2])
    with NaviData_of_stored.
  rewrite (map_ext_Forall
             (fun x => NaviData_of_row
                         [column (navi_row (navi_info_way_id navi_info) x) 1;
                          column (navi_row (navi_info_way_id navi_info) x) 2])
             id) by
      (eapply Forall_impl; [exact Hrange|]; intros d Hr;
       by apply (NaviData_of_navi_row (navi_info_way_id navi_info))).
  rewrite map_id. do 2 f_equal.
  - destruct (rows_of_way _ (rows tb)); [|done].
    simpl. by destruct (navi_data navi_info).
Qed.

Lemma SaveNaviData_then_QueryNaviDataWithWayId_witness :
  fst (QueryNaviDataWithWayId 1 [mkNaviData 9 []]
         (snd (SaveNaviData sample_navi fresh_db)))
  = Normal (true, [mkNaviData 9 []] ++ [] ++ navi_data sample_navi).
Proof.
  refine (SaveNaviData_then_QueryNaviDataWithWayId sample_navi
            [mkNaviData 9 []] fresh_db
            (snd (SaveNaviData sample_navi fresh_db))
            (mkTable navi_data_columns navi_data_types None []) _ _ _ _ _).
  - reflexivity.
  - repeat split.
  - repeat constructor; unfold is_uint8; simpl; lia.
  - exact (run_pair (SaveNaviData sample_navi) fresh_db (Normal true)
             eq_refl).
  - vm_compute. discriminate.
Defined.

Lemma insert_row_way_data (wd : WayData) :
  insert_row way_data_columns way_data_columns
             (cmd_params (SaveWayData_cmd wd))
  = way_data_row wd.
Proof. reflexivity. Qed.

Lemma SaveWayData_appends (wd : WayData) (s s1 : SQLiteWrapper) (tb : Table) :
  tables s !! "way_data" = Some tb ->
  columns tb = way_data_columns ->
  SaveWayData wd s = (Normal true, s1) ->
  tables s1
  = <["way_data" := set_rows tb (rows tb ++ [way_data_row wd])]> (tables s).
Proof.
  intros Htb Hcols Hrun. unfold SaveWayData, ExcuteNonQueryCmd in Hrun.
  rewrite bind_run in Hrun.
  destruct (ExcuteNonQuery_spec (cmd_sql (SaveWayData_cmd wd))
              (cmd_params (SaveWayData_cmd wd)) s)
    as (ok & s' & Hrun' & _ & _ & Ht).
  rewrite Hrun' in Hrun.
  destruct ok; unfold ret in Hrun; simpl in Hrun; [|discriminate].
  assert (s' = s1) as <- by congruence.
  change (cmd_sql (SaveWayData_cmd wd))
    with (SqlInsert "way_data" way_data_columns) in Ht.
  rewrite (exec_insert _ _ _ _ tb Htb) in Ht. unfold insert_into in Ht.
  rewrite Hcols, insert_row_way_data in Ht.
  change (all_known way_data_columns way_data_columns) with true in Ht.
  simpl in Ht.
  destruct (pk_conflict tb (way_data_row wd)); [discriminate|].
  simpl in Ht. congruence.
Qed.

(** X7. Saving the data of a way and querying it back. After a successful
    [SaveWayData] into a way_data table laid out as its CREATE TABLE says,
    [QueryWayDataWithWayId] for that way id finds the record and returns it
    as it was saved: the same blob, byte for byte, the same [navi_number]
    and the same [navi_table_id]. *)
Theorem SaveWayData_then_QueryWayDataWithWayId
        (way_data out : WayData) (s s' : SQLiteWrapper) (tb : Table) :
  is_uint64 (way_data_way_id way_data) ->
  is_uint8 (navi_number way_data) ->
  is_uint64 (navi_table_id way_data) ->
  tables s !! "way_data" = Some tb ->
  columns tb = way_data_columns ->
  SaveWayData way_data s = (Normal true, s') ->
  no_fault s' ->
  fst (QueryWayDataWithWayId (way_data_way_id way_data) out s')
  = Normal (true, way_data).
Proof.
  intros Hid Hnum Hshard Htb Hcols Hsave Hn.
  pose proof (SaveWayData_appends way_data s s' tb Htb Hcols Hsave) as Ht.
  unfold QueryWayDataWithWayId. rewrite bind_run.
  pose proof (ExcuteQuery_no_fault
                (SqlSelect None "way_data"
                           [("way_id", way_data_way_id way_data)]) s' Hn)
    as Hq.
  destruct (ExcuteQuery _ s') as [r s2]. cbn [fst] in Hq. rewrite Hq.
  rewrite (eval_select_way "way_data" _ (tables s')
             (set_rows tb (rows tb ++ [way_data_row way_data]))).
  2: { rewrite Ht. apply lookup_insert_eq. }
  2: { simpl. by rewrite Hcols. }
  cbn [rows set_rows]. rewrite rows_of_way_app.
  assert (rows_of_way (way_data_way_id way_data) [way_data_row way_data]
          = [way_data_row way_data]) as ->.
  { unfold rows_of_way, of_way. simpl. by rewrite Z.eqb_refl. }
  unfold ret.
  rewrite (while_Read_last
             (fun row => QueryWayDataWithWayId_row (false, out) row)).
  unfold QueryWayDataWithWayId_row, way_data_row, GetUint64Value,
    GetUint8Value, GetBlobValue. simpl.
  rewrite (wrap64_id _ Hid), (wrap64_id _ Hshard).
  unfold wrap8, is_uint8 in *. rewrite Z.mod_small by lia.
  by destruct way_data.
Qed.

Lemma SaveWayData_then_QueryWayDataWithWayId_witness :
  let s := snd (SaveWay sample_way fresh_db) in
  fst (QueryWayDataWithWayId 1 (mkWayData 9 [] 9 9)
         (snd (SaveWayData sample_way_data s)))
  = Normal (true, sample_way_data).
Proof.
  refine (SaveWayData_then_QueryWayDataWithWayId sample_way_data
            (mkWayData 9 [] 9 9) (snd (SaveWay sample_way fresh_db))
            (snd (SaveWayData sample_way_data
                    (snd (SaveWay sample_way fresh_db))))
            (mkTable way_data_columns way_data_types (Some "way_id") []) _ _ _ _ _ _ _).
  - unfold is_uint64. simpl. lia.
  - unfold is_uint8. simpl. lia.
  - unfold is_uint64. simpl. lia.
  - reflexivity.
  - reflexivity.
  - exact (run_pair (SaveWayData sample_way_data)
             (snd (SaveWay sample_way fresh_db)) (Normal true) eq_refl).
  - vm_compute. discriminate.
Defined.

(** ** Replacing and deleting the children of a way *)

Lemma ExcuteNonQuery_faults (sql : Statement) (params : gmap nat SqliteValue)
      (s : SQLiteWrapper) :
  faults (snd (ExcuteNonQuery sql params s)) = tail (faults s).
Proof.
  unfold ExcuteNonQuery, take_fault.
  destruct (faults s) as [|b fs] eqn:E.
  - destruct (exec sql params (tables s)); simpl; by rewrite E.
  - destruct b; [done|]. by destruct (exec sql params _).
Qed.

(** A DELETE by way id on an existing table with a [way_id] column in front
    succeeds unless a failure is scheduled. *)
Lemma delete_way_runs (t : string) (id : Z) (s : SQLiteWrapper) (tb : Table) :
  tables s !! t = Some tb ->
  index_of (columns tb) "way_id" = Some 0%nat ->
  no_fault s ->
  exists s1,
    ExcuteNonQueryCmd (delete_cmd t id) s = (Normal true, s1)
    /\ transaction s1 = transaction s
    /\ faults s1 = tail (faults s)
    /\ tables s1 = <[t := set_rows tb (rows_of_others id (rows tb))]> (tables s).
Proof.
  intros Htb Hwi Hn. unfold ExcuteNonQueryCmd.
  pose proof (ExcuteNonQuery_no_fault (cmd_sql (delete_cmd t id))
                (cmd_params (delete_cmd t id)) s Hn) as Hok.
  rewrite (exec_delete_way t id (tables s) tb Htb Hwi) in Hok.
  destruct (ExcuteNonQuery_spec (cmd_sql (delete_cmd t id))
              (cmd_params (delete_cmd t id)) s)
    as (ok & s1 & Hrun & _ & Hx & Ht).
  rewrite Hrun in Hok. cbn [fst] in Hok.
  assert (ok = true) as -> by (injection Hok as ->; done).
  exists s1. split; [done|]. split; [done|]. split.
  - pose proof (ExcuteNonQuery_faults (cmd_sql (delete_cmd t id))
                  (cmd_params (delete_cmd t id)) s) as Hf.
    by rewrite Hrun in Hf.
  - rewrite (exec_delete_way t id (tables s) tb Htb Hwi) in Ht. congruence.
Qed.

(** X8. [UpdateWayNodes] replaces, and is not atomic. On a way_nodes table
    laid out as its CREATE TABLE says, with the DELETE not failing: the rows
    of way [way_id] are removed and the rows of the other ways are kept;
    when the call returns [true] the rows of the new nodes follow the kept
    ones, under the way id held by the aggregate; when it returns [false]
    (an insert failed) the old rows of way [way_id] are gone all the same,
    since the DELETE is made before the transaction begins. *)
Theorem UpdateWayNodes_replaces (way_id : Z) (way_nodes : WayNodes)
        (s : SQLiteWrapper) (tb : Table) :
  transaction s = None ->
  has_table s "way_nodes" way_nodes_columns None tb ->
  no_fault s ->
  exists res s',
    UpdateWayNodes way_id way_nodes s = (Normal res, s')
    /\ transaction s' = None
    /\ tables s'
       = <["way_nodes" :=
             set_rows tb
               (rows_of_others way_id (rows tb)
                ++ if res
                   then map (node_row (way_nodes_way_id way_nodes))
                            (nodes way_nodes)
                   else [])]> (tables s).
Proof.
  intros Hx (Htb & Hcols & Hpk) Hn.
  destruct (delete_way_runs "way_nodes" way_id s tb Htb
              ltac:(by rewrite Hcols) Hn) as (s1 & Hdel & Hx1 & _ & Ht1).
  unfold UpdateWayNodes. rewrite bind_run, Hdel. cbn [negb].
  destruct (SaveWayNodes_appends_holds way_nodes s1
              (set_rows tb (rows_of_others way_id (rows tb))))
    as (res & s' & Hrun & Hx' & Ht').
  { congruence. }
  { split; [|done]. rewrite Ht1. apply lookup_insert_eq. }
  exists res, s'. split; [done|]. split; [done|].
  rewrite Ht', Ht1. destruct res.
  - by rewrite insert_insert_eq.
  - by rewrite app_nil_r.
Qed.

Lemma UpdateWayNodes_replaces_witness :
  let s := snd (SaveWayNodes sample_nodes fresh_db) in
  exists res s',
    UpdateWayNodes 1 (mkWayNodes 1 [mkNode 7 70 "z"]) s = (Normal res, s')
    /\ transaction s' = None
    /\ tables s'
       = <["way_nodes" :=
             set_rows (mkTable way_nodes_columns way_nodes_types None
                               (map (node_row 1) (nodes sample_nodes)))
               (rows_of_others 1 (map (node_row 1) (nodes sample_nodes))
                ++ if res then map (node_row 1) [mkNode 7 70 "z"] else [])]>
           (tables s).
Proof.
  apply (UpdateWayNodes_replaces 1 (mkWayNodes 1 [mkNode 7 70 "z"])
           (snd (SaveWayNodes sample_nodes fresh_db))
           (mkTable way_nodes_columns way_nodes_types None
                    (map (node_row 1) (nodes sample_nodes)))).
  - reflexivity.
  - repeat split.
  - vm_compute. discriminate.
Defined.

(** A shorter node list leaves exactly the new list. *)
Example UpdateWayNodes_shorter_list :
  let s := snd (SaveWayNodes sample_nodes fresh_db) in
  rows <$> (tables (snd (UpdateWayNodes 1 (mkWayNodes 1 [mkNode 7 70 "z"]) s))
            !! "way_nodes")
  = Some [[VInt 1; VInt 7; VInt 70; VText "z"]].
Proof. reflexivity. Qed.

(** X9. The same for [UpdateNaviData] and the navi_data table. *)
Theorem UpdateNaviData_replaces (way_id : Z) (navi_info : NaviInfo)
        (s : SQLiteWrapper) (tb : Table) :
  transaction s = None ->
  has_table s "navi_data" navi_data_columns None tb ->
  no_fault s ->
  exists res s',
    UpdateNaviData way_id navi_info s = (Normal res, s')
    /\ transaction s' = None
    /\ tables s'
       = <["navi_data" :=
             set_rows tb
               (rows_of_others way_id (rows tb)
                ++ if res
                   then map (navi_row (navi_info_way_id navi_info))
                            (navi_data navi_info)
                   else [])]> (tables s).
Proof.
  intros Hx (Htb & Hcols & Hpk) Hn.
  destruct (delete_way_runs "navi_data" way_id s tb Htb
              ltac:(by rewrite Hcols) Hn) as (s1 & Hdel & Hx1 & _ & Ht1).
  unfold UpdateNaviData. rewrite bind_run, Hdel. cbn [negb].
  destruct (SaveNaviData_appends_holds navi_info s1
              (set_rows tb (rows_of_others way_id (rows tb))))
    as (res & s' & Hrun & Hx' & Ht').
  { congruence. }
  { split; [|done]. rewrite Ht1. apply lookup_insert_eq. }
  exists res, s'. split; [done|]. split; [done|].
  rewrite Ht', Ht1. destruct res.
  - by rewrite insert_insert_eq.
  - by rewrite app_nil_r.
Qed.

Lemma UpdateNaviData_replaces_witness :
  let s := snd (SaveNaviData sample_navi fresh_db) in
  exists res s',
    UpdateNaviData 1 (mkNaviInfo 1 []) s = (Normal res, s')
    /\ transaction s' = None
    /\ tables s'
       = <["navi_data" :=
             set_rows (mkTable navi_data_columns navi_data_types None
                               (map (navi_row 1) (navi_data sample_navi)))
               (rows_of_others 1 (map (navi_row 1) (navi_data sample_navi))
                ++ if res then map (navi_row 1) [] else [])]>
           (tables s).
Proof.
  apply (UpdateNaviData_replaces 1 (mkNaviInfo 1 [])
           (snd (SaveNaviData sample_navi fresh_db))
           (mkTable navi_data_columns navi_data_types None
                    (map (navi_row 1) (navi_data sample_navi)))).
  - reflexivity.
  - repeat split.
  - vm_compute. discriminate.
Defined.

(** X10. When the DELETE of [UpdateWayNodes] or [UpdateNaviData] fails, the
    update returns [false] without attempting the re-save: the failed
    DELETE is the only driver call made (no BEGIN, no INSERT) and every
    table is as before. *)
Theorem update_stops_after_failed_delete
        (way_id : Z) (way_nodes : WayNodes) (navi_info : NaviInfo)
        (s : SQLiteWrapper) :
  (fst (ExcuteNonQueryCmd (delete_cmd "way_nodes" way_id) s) = Normal false ->
   fst (UpdateWayNodes way_id way_nodes s) = Normal false
   /\ tables (snd (UpdateWayNodes way_id way_nodes s)) = tables s
   /\ calls (snd (UpdateWayNodes way_id way_nodes s))
      = calls s ++ [CallNonQuery (SqlDelete "way_nodes" "way_id")
                                 {[1%nat := VInt way_id]} false])
  /\ (fst (ExcuteNonQueryCmd (delete_cmd "navi_data" way_id) s)
      = Normal false ->
      fst (UpdateNaviData way_id navi_info s) = Normal false
      /\ tables (snd (UpdateNaviData way_id navi_info s)) = tables s
      /\ calls (snd (UpdateNaviData way_id navi_info s))
         = calls s ++ [CallNonQuery (SqlDelete "navi_data" "way_id")
                                    {[1%nat := VInt way_id]} false]).
Proof.
  split; intros Hdel; unfold UpdateWayNodes, UpdateNaviData;
    rewrite bind_run; unfold ExcuteNonQueryCmd in *;
    match goal with
    | |- context [ExcuteNonQuery ?sql ?p s] =>
        destruct (ExcuteNonQuery_spec sql p s)
          as (ok & s1 & Hrun & Hc & _ & Ht)
    end;
    rewrite Hrun in Hdel |- *; cbn [fst] in Hdel;
    assert (ok = false) as -> by congruence; simpl;
    (split; [done|]); (split; [done|]); exact Hc.
Qed.

Lemma update_stops_after_failed_delete_witness :
  let s := failing_at 0 fresh_db in
  fst (UpdateWayNodes 1 sample_nodes s) = Normal false
  /\ tables (snd (UpdateWayNodes 1 sample_nodes s)) = tables s
  /\ calls (snd (UpdateWayNodes 1 sample_nodes s))
     = calls s ++ [CallNonQuery (SqlDelete "way_nodes" "way_id")
                                {[1%nat := VInt 1]} false].
Proof.
  destruct (update_stops_after_failed_delete 1 sample_nodes sample_navi
              (failing_at 0 fresh_db)) as [H _].
  apply H. reflexivity.
Defined.

Lemma no_faults_S (n : nat) (s : SQLiteWrapper) :
  no_faults (S n) s ->
  no_fault s /\ forall s1, faults s1 = tail (faults s) -> no_faults n s1.
Proof.
  unfold no_faults, no_fault. intros H. destruct (faults s) as [|b fs]; simpl.
  - split; [discriminate|]. intros s1 ->. by rewrite take_nil.
  - simpl in H. inversion H as [|? ? -> Hfs]; subst. split; [discriminate|].
    by intros s1 ->.
Qed.

Lemma rows_of_way_others (id : Z) (rs : list (list SqliteValue)) :
  rows_of_way id (rows_of_others id rs) = [].
Proof.
  unfold rows_of_way, rows_of_others. induction rs as [|r rs IH]; [done|].
  simpl. destruct (of_way id r) eqn:E; simpl; [done|]. by rewrite E.
Qed.

(** One of the three child deletes of [DeleteWay]. *)
Lemma delete_child_runs (t : string) (id : Z) (s : SQLiteWrapper) (tb : Table) :
  tables s !! t = Some tb ->
  index_of (columns tb) "way_id" = Some 0%nat ->
  no_fault s ->
  exists s1,
    (do ok <- ExcuteNonQueryCmd (delete_cmd t id);
     ret (if negb ok then false else true)) s = (Normal true, s1)
    /\ transaction s1 = transaction s
    /\ faults s1 = tail (faults s)
    /\ tables s1 = <[t := drop_way id tb]> (tables s).
Proof.
  intros Htb Hwi Hn.
  destruct (delete_way_runs t id s tb Htb Hwi Hn) as (s1 & Hrun & H).
  exists s1. rewrite bind_run, Hrun. by split.
Qed.

Lemma DeleteWay_cascade_holds (way_id : Z) (s : SQLiteWrapper) :
  keyed_by_way s ->
  no_faults 4 s ->
  exists s',
    DeleteWay way_id s = (Normal true, s')
    /\ (forall t, In t way_tables ->
                  tables s' !! t = drop_way way_id <$> (tables s !! t))
    /\ (forall t, ~ In t way_tables -> tables s' !! t = tables s !! t)
    /\ (forall t tb', In t way_tables -> tables s' !! t = Some tb' ->
                      rows_of_way way_id (rows tb') = []).
Proof.
  intros Hk Hn.
  destruct (Hk "way") as (tb0 & Htb0 & Hi0); [simpl; tauto|].
  destruct (Hk "way_nodes") as (tb1 & Htb1 & Hi1); [simpl; tauto|].
  destruct (Hk "way_data") as (tb2 & Htb2 & Hi2); [simpl; tauto|].
  destruct (Hk "navi_data") as (tb3 & Htb3 & Hi3); [simpl; tauto|].
  destruct (no_faults_S 3 s Hn) as [Hn0 Hn'].
  destruct (delete_way_runs "way" way_id s tb0 Htb0 Hi0 Hn0)
    as (s1 & Hrun1 & _ & Hf1 & Ht1).
  specialize (Hn' s1 Hf1). destruct (no_faults_S 2 s1 Hn') as [Hn1 Hn''].
  destruct (delete_child_runs "way_nodes" way_id s1 tb1) as
      (s2 & Hrun2 & _ & Hf2 & Ht2); [by rewrite Ht1, lookup_insert_ne|done..|].
  specialize (Hn'' s2 Hf2). destruct (no_faults_S 1 s2 Hn'') as [Hn2 Hn3].
  destruct (delete_child_runs "way_data" way_id s2 tb2) as
      (s3 & Hrun3 & _ & Hf3 & Ht3);
    [by rewrite Ht2, lookup_insert_ne, Ht1, lookup_insert_ne|done..|].
  specialize (Hn3 s3 Hf3). destruct (no_faults_S 0 s3 Hn3) as [Hn4 _].
  destruct (delete_child_runs "navi_data" way_id s3 tb3) as
      (s4 & Hrun4 & _ & _ & Ht4);
    [by rewrite Ht3, lookup_insert_ne, Ht2, lookup_insert_ne, Ht1,
       lookup_insert_ne|done..|].
  assert (forall t, In t way_tables ->
                    tables s4 !! t = drop_way way_id <$> (tables s !! t))
    as Hin.
  { intros t [<-|[<-|[<-|[<-|[]]]]]; rewrite Ht4, Ht3, Ht2, Ht1.
    - rewrite !lookup_insert_ne by done. by rewrite lookup_insert_eq, Htb0.
    - rewrite !lookup_insert_ne by done. by rewrite lookup_insert_eq, Htb1.
    - rewrite !lookup_insert_ne by done. by rewrite lookup_insert_eq, Htb2.
    - by rewrite lookup_insert_eq, Htb3. }
  exists s4. split; [|split; [done|split]].
  - unfold DeleteWay. rewrite bind_run, Hrun1. cbn [negb].
    unfold DeleteWayNodes, DeleteWayData, DeleteNaviData.
    rewrite bind_run, Hrun2. cbn [negb].
    rewrite bind_run, Hrun3. cbn [negb].
    rewrite bind_run, Hrun4. reflexivity.
  - intros t Hnot. rewrite Ht4, Ht3, Ht2, Ht1.
    rewrite !lookup_insert_ne; [done|..]; intros <-; apply Hnot; simpl; tauto.
  - intros t tb' Ht Hlook. rewrite (Hin t Ht) in Hlook.
    destruct (tables s !! t) as [tb|]; [|discriminate].
    injection Hlook as <-. apply rows_of_way_others.
Qed.

(** X11. The cascade of [DeleteWay]. When the four tables keyed by way id
    exist and no failure occurs, [DeleteWay] returns [true] and has removed
    from each of way, way_nodes, way_data and navi_data exactly the rows of
    that way: every one of these tables keeps its other rows, in order, no
    row of the way is left in any of them, and no other table is touched. *)
Theorem DeleteWay_cascade (way_id : Z) (s : SQLiteWrapper) :
  keyed_by_way s ->
  no_faults 4 s ->
  exists s',
    DeleteWay way_id s = (Normal true, s')
    /\ (forall t, In t way_tables ->
                  tables s' !! t = drop_way way_id <$> (tables s !! t))
    /\ (forall t, ~ In t way_tables -> tables s' !! t = tables s !! t)
    /\ (forall t tb', In t way_tables -> tables s' !! t = Some tb' ->
                      rows_of_way way_id (rows tb') = []).
Proof. exact (DeleteWay_cascade_holds way_id s). Qed.

Lemma DeleteWay_cascade_witness :
  let s := snd (SaveNaviData sample_navi
                  (snd (SaveWayNodes sample_nodes
                          (snd (SaveWay sample_way fresh_db))))) in
  exists s',
    DeleteWay 1 s = (Normal true, s')
    /\ (forall t, In t way_tables ->
                  tables s' !! t = drop_way 1 <$> (tables s !! t))
    /\ (forall t, ~ In t way_tables -> tables s' !! t = tables s !! t)
    /\ (forall t tb', In t way_tables -> tables s' !! t = Some tb' ->
                      rows_of_way 1 (rows tb') = []).
Proof.
  apply (DeleteWay_cascade 1
           (snd (SaveNaviData sample_navi
                   (snd (SaveWayNodes sample_nodes
                           (snd (SaveWay sample_way fresh_db))))))).
  - intros t [<-|[<-|[<-|[<-|[]]]]]; vm_compute; eexists; split; reflexivity.
  - constructor.
Defined.

Lemma select_by_way_not_found {Out} (t : string) (id : Z) (out : Out)
      (body : bool * Out -> list SqliteValue -> bool * Out)
      (s : SQLiteWrapper) (tb : Table) :
  tables s !! t = Some tb ->
  index_of (columns tb) "way_id" = Some 0%nat ->
  rows_of_way id (rows tb) = [] ->
  no_fault s ->
  fst ((do reader <- ExcuteQuery (SqlSelect None t [("way_id", id)]);
        match reader with
        | None => ret (false, out)
        | Some reader => ret (while_Read body reader (false, out))
        end) s)
  = Normal (false, out).
Proof.
  intros Htb Hi Hrows Hn. rewrite bind_run.
  pose proof (ExcuteQuery_no_fault (SqlSelect None t [("way_id", id)]) s Hn)
    as Hq.
  destruct (ExcuteQuery _ s) as [r s1]. cbn [fst] in Hq. rewrite Hq.
  by rewrite (eval_select_way t id (tables s) tb Htb Hi), Hrows.
Qed.

(** X12. After a [DeleteWay] that returned [true], the way is gone for the
    queries: [QueryWayWithWayId], [QueryWayNodesWithWayId],
    [QueryWayDataWithWayId] and the list form of [QueryNaviDataWithWayId]
    for that way id each report not found and hand the output back
    untouched. *)
Theorem queries_after_DeleteWay (way_id : Z) (s s' : SQLiteWrapper)
        (way : Way) (way_nodes : WayNodes) (way_data : WayData)
        (entries : list NaviData) (navi : Table) :
  keyed_by_way s ->
  tables s !! "navi_data" = Some navi ->
  columns navi = navi_data_columns ->
  no_faults 4 s ->
  DeleteWay way_id s = (Normal true, s') ->
  no_fault s' ->
  fst (QueryWayWithWayId way_id way s') = Normal (false, way)
  /\ fst (QueryWayNodesWithWayId way_id way_nodes s')
     = Normal (false, way_nodes)
  /\ fst (QueryWayDataWithWayId way_id way_data s')
     = Normal (false, way_data)
  /\ fst (QueryNaviDataWithWayId way_id entries s')
     = Normal (false, entries).
Proof.
  intros Hk Hnavi Hcols Hn Hdel Hn'.
  destruct (DeleteWay_cascade_holds way_id s Hk Hn)
    as (s1 & Hrun & Hin & _ & _).
  rewrite Hdel in Hrun. injection Hrun as <-.
  assert (forall t, In t way_tables ->
            exists tb', tables s' !! t = Some tb'
                        /\ index_of (columns tb') "way_id" = Some 0%nat
                        /\ rows_of_way way_id (rows tb') = []) as Hgone.
  { intros t Ht. destruct (Hk t Ht) as (tb & Htb & Hi).
    exists (drop_way way_id tb). rewrite (Hin t Ht), Htb.
    split; [done|]. split; [done|]. apply rows_of_way_others. }
  split; [|split; [|split]].
  - destruct (Hgone "way") as (tb & Htb & Hi & Hr); [simpl; tauto|].
    by apply (select_by_way_not_found "way" way_id way _ s' tb).
  - destruct (Hgone "way_nodes") as (tb & Htb & Hi & Hr); [simpl; tauto|].
    unfold QueryWayNodesWithWayId. rewrite bind_run.
    pose proof (ExcuteQuery_no_fault
                  (SqlSelect None "way_nodes" [("way_id", way_id)]) s' Hn')
      as Hq.
    destruct (ExcuteQuery _ s') as [r s1]. cbn [fst] in Hq. rewrite Hq.
    by rewrite (eval_select_way "way_nodes" way_id (tables s') tb Htb Hi), Hr.
  - destruct (Hgone "way_data") as (tb & Htb & Hi & Hr); [simpl; tauto|].
    by apply (select_by_way_not_found "way_data" way_id way_data _ s' tb).
  - unfold QueryNaviDataWithWayId. rewrite bind_run.
    pose proof (ExcuteQuery_no_fault
                  (SqlSelect (Some ["navi_index"; "data"]) "navi_data"
                             [("way_id", way_id)]) s' Hn') as Hq.
    destruct (ExcuteQuery _ s') as [r s1]. cbn [fst] in Hq. rewrite Hq.
    rewrite (eval_select_navi way_id (tables s') (drop_way way_id navi)).
    + cbn [rows drop_way set_rows]. by rewrite rows_of_way_others.
    + rewrite (Hin "navi_data"); [by rewrite Hnavi | simpl; tauto].
    + done.
Qed.

Lemma queries_after_DeleteWay_witness :
  let s' := snd (DeleteWay 1 populated_db) in
  fst (QueryWayWithWayId 1 sample_way s') = Normal (false, sample_way)
  /\ fst (QueryWayNodesWithWayId 1 sample_nodes s')
     = Normal (false, sample_nodes)
  /\ fst (QueryWayDataWithWayId 1 sample_way_data s')
     = Normal (false, sample_way_data)
  /\ fst (QueryNaviDataWithWayId 1 [] s') = Normal (false, []).
Proof.
  refine (queries_after_DeleteWay 1 populated_db
            (snd (DeleteWay 1 populated_db))
            sample_way sample_nodes sample_way_data []
            (mkTable navi_data_columns navi_data_types None
                     (map (navi_row 1) (navi_data sample_navi)))
            _ _ _ _ _ _).
  - intros t [<-|[<-|[<-|[<-|[]]]]]; vm_compute; eexists; split; reflexivity.
  - reflexivity.
  - reflexivity.
  - constructor.
  - exact (run_pair (DeleteWay 1) populated_db (Normal true) eq_refl).
  - vm_compute. discriminate.
Defined.

(** X13. [DeleteWay] is not atomic. When the DELETE on way succeeds and the
    next one, on way_nodes, fails, [DeleteWay] returns [false] after these
    two calls: the rows of the way are gone from the way table while every
    other table, the children included, is as before. *)
Theorem DeleteWay_not_atomic (way_id : Z) (s : SQLiteWrapper) (tb : Table)
        (fs : list bool) :
  tables s !! "way" = Some tb ->
  index_of (columns tb) "way_id" = Some 0%nat ->
  faults s = false :: true :: fs ->
  exists s',
    DeleteWay way_id s = (Normal false, s')
    /\ tables s' = <["way" := drop_way way_id tb]> (tables s)
    /\ calls s'
       = calls s
         ++ [CallNonQuery (SqlDelete "way" "way_id")
                          {[1%nat := VInt way_id]} true;
             CallNonQuery (SqlDelete "way_nodes" "way_id")
                          {[1%nat := VInt way_id]} false].
Proof.
  intros Htb Hi Hf.
  assert (no_fault s) as Hn by (unfold no_fault; by rewrite Hf).
  destruct (delete_way_runs "way" way_id s tb Htb Hi Hn)
    as (s1 & Hrun & _ & Hf1 & Ht1).
  rewrite Hf in Hf1. simpl in Hf1.
  assert (calls s1 = calls s ++ [CallNonQuery (SqlDelete "way" "way_id")
                                   {[1%nat := VInt way_id]} true]) as Hc1.
  { unfold ExcuteNonQueryCmd in Hrun.
    destruct (ExcuteNonQuery_spec (cmd_sql (delete_cmd "way" way_id))
                (cmd_params (delete_cmd "way" way_id)) s)
      as (ok & s1' & Hrun' & Hc & _).
    rewrite Hrun in Hrun'. by injection Hrun' as <- <-. }
  unfold DeleteWay. rewrite bind_run, Hrun. cbn [negb].
  unfold DeleteWayNodes, ExcuteNonQueryCmd. rewrite !bind_run.
  rewrite (ExcuteNonQuery_fault _ _ s1 fs Hf1). simpl.
  eexists. split; [reflexivity|]. simpl. by rewrite Hc1, <- app_assoc.
Qed.

Lemma DeleteWay_not_atomic_witness :
  exists s',
    DeleteWay 1 (failing_at 1 populated_db) = (Normal false, s')
    /\ tables s'
       = <["way" := drop_way 1 (mkTable way_columns way_types (Some "way_id")
                                        [way_row sample_way])]>
           (tables (failing_at 1 populated_db))
    /\ calls s'
       = calls (failing_at 1 populated_db)
         ++ [CallNonQuery (SqlDelete "way" "way_id") {[1%nat := VInt 1]} true;
             CallNonQuery (SqlDelete "way_nodes" "way_id")
                          {[1%nat := VInt 1]} false].
Proof.
  apply (DeleteWay_not_atomic 1 (failing_at 1 populated_db)
           (mkTable way_columns way_types (Some "way_id") [way_row sample_way]) []);
    reflexivity.
Defined.

Lemma rows_of_others_none (id : Z) (rs : list (list SqliteValue)) :
  rows_of_way id rs = [] -> rows_of_others id rs = rs.
Proof.
  unfold rows_of_way, rows_of_others. induction rs as [|r rs IH]; [done|].
  simpl. destruct (of_way id r); [discriminate|]. simpl.
  intros H. by rewrite (IH H).
Qed.

Lemma drop_way_none (id : Z) (tb : Table) :
  rows_of_way id (rows tb) = [] -> drop_way id tb = tb.
Proof.
  intros H. unfold drop_way. rewrite (rows_of_others_none id _ H).
  by destruct tb.
Qed.

(** X14. Deleting a way that is not there succeeds: when none of the four
    tables holds a row of the way, [DeleteWay] returns [true] and every
    table is as before. *)
Theorem DeleteWay_of_missing_way (way_id : Z) (s : SQLiteWrapper) :
  keyed_by_way s ->
  no_faults 4 s ->
  (forall t tb, In t way_tables -> tables s !! t = Some tb ->
                rows_of_way way_id (rows tb) = []) ->
  exists s', DeleteWay way_id s = (Normal true, s')
             /\ tables s' = tables s.
Proof.
  intros Hk Hn Hnone.
  destruct (DeleteWay_cascade_holds way_id s Hk Hn)
    as (s' & Hrun & Hin & Hout & _).
  exists s'. split; [done|]. apply map_eq. intros t.
  destruct (decide (In t way_tables)) as [Ht|Ht]; [|by apply Hout].
  rewrite (Hin t Ht). destruct (tables s !! t) as [tb|] eqn:E; [|done].
  simpl. f_equal. apply drop_way_none. by apply (Hnone t).
Qed.

Lemma DeleteWay_of_missing_way_witness :
  exists s', DeleteWay 5 populated_db = (Normal true, s')
             /\ tables s' = tables populated_db.
Proof.
  apply (DeleteWay_of_missing_way 5 populated_db).
  - intros t [<-|[<-|[<-|[<-|[]]]]]; vm_compute; eexists; split; reflexivity.
  - constructor.
  - intros t tb [<-|[<-|[<-|[<-|[]]]]] H; vm_compute in H;
      injection H as <-; reflexivity.
Defined.

(** ** Updates in place *)

Lemma exec_update (t wc : string) (set_cols : list string)
      (params : gmap nat SqliteValue) (tbls : gmap string Table) (tb : Table)
      (wi : nat) :
  tbls !! t = Some tb ->
  index_of (columns tb) wc = Some wi ->
  all_known (columns tb) set_cols = true ->
  exec (SqlUpdate t set_cols wc) params tbls
  = Some (<[t := set_rows tb
                   (map (fun row =>
                           if sql_eqb (column row wi)
                                      (param params (S (length set_cols)))
                           then update_row (columns tb) set_cols 1 params row
                           else row) (rows tb))]> tbls).
Proof. intros Htb Hwi Hk. simpl. by rewrite Htb, Hwi, Hk. Qed.

(** An UPDATE by way id that is not scheduled to fail, on rows as wide as
    the table: [f] is what the SET clause makes of a row. *)
Lemma update_way_runs (t : string) (set_cols : list string) (id : Z)
      (params : gmap nat SqliteValue)
      (f : list SqliteValue -> list SqliteValue)
      (s : SQLiteWrapper) (tb : Table) :
  tables s !! t = Some tb ->
  index_of (columns tb) "way_id" = Some 0%nat ->
  all_known (columns tb) set_cols = true ->
  param params (S (length set_cols)) = VInt id ->
  Forall (fun row => update_row (columns tb) set_cols 1 params row = f row)
         (rows tb) ->
  no_fault s ->
  exists s',
    (do ok <- ExcuteNonQuery (SqlUpdate t set_cols "way_id") params;
     ret (if negb ok then false else true)) s = (Normal true, s')
    /\ tables s'
       = <[t := set_rows tb (map_rows_of_way id f (rows tb))]> (tables s).
Proof.
  intros Htb Hwi Hk Hkey Hf Hn. rewrite bind_run.
  pose proof (ExcuteNonQuery_no_fault (SqlUpdate t set_cols "way_id")
                params s Hn) as Hok.
  rewrite (exec_update t "way_id" set_cols params (tables s) tb 0 Htb Hwi Hk)
    in Hok.
  destruct (ExcuteNonQuery_spec (SqlUpdate t set_cols "way_id") params s)
    as (ok & s' & Hrun & _ & _ & Ht).
  rewrite Hrun in Hok |- *. cbn [fst] in Hok.
  assert (ok = true) as -> by (injection Hok as ->; done).
  exists s'. split; [done|].
  rewrite (exec_update t "way_id" set_cols params (tables s) tb 0 Htb Hwi Hk)
    in Ht.
  injection Ht as <-. do 2 f_equal. unfold map_rows_of_way.
  apply map_ext_Forall. eapply Forall_impl; [exact Hf|].
  intros row Hrow. simpl in Hrow |- *. rewrite Hkey. unfold of_way.
  destruct (sql_eqb (column row 0) (VInt id)); [exact Hrow | done].
Qed.

Lemma full_rows_5 (tb : Table) (cols : list string)
      (P : list SqliteValue -> Prop) :
  columns tb = cols -> length cols = 5%nat -> full_rows tb ->
  (forall a b c d e, P [a; b; c; d; e]) ->
  Forall P (rows tb).
Proof.
  intros Hcols Hlen Hfull HP. unfold full_rows in Hfull.
  rewrite Hcols, Hlen in Hfull.
  eapply Forall_impl; [exact Hfull|]. intros row Hrow. simpl in Hrow.
  do 5 (destruct row as [|? row]; [discriminate|]).
  destruct row; [apply HP | discriminate].
Qed.

Lemma full_rows_4 (tb : Table) (cols : list string)
      (P : list SqliteValue -> Prop) :
  columns tb = cols -> length cols = 4%nat -> full_rows tb ->
  (forall a b c d, P [a; b; c; d]) ->
  Forall P (rows tb).
Proof.
  intros Hcols Hlen Hfull HP. unfold full_rows in Hfull.
  rewrite Hcols, Hlen in Hfull.
  eapply Forall_impl; [exact Hfull|]. intros row Hrow. simpl in Hrow.
  do 4 (destruct row as [|? row]; [discriminate|]).
  destruct row; [apply HP | discriminate].
Qed.

Lemma UpdateWay_rows_holds (way_id : Z) (way : Way) (s : SQLiteWrapper)
        (tb : Table) :
  tables s !! "way" = Some tb ->
  columns tb = way_columns ->
  full_rows tb ->
  no_fault s ->
  exists s',
    UpdateWay way_id way s = (Normal true, s')
    /\ tables s'
       = <["way" := set_rows tb
                      (map_rows_of_way way_id (updated_way_row way) (rows tb))]>
           (tables s).
Proof.
  intros Htb Hcols Hfull Hn. unfold UpdateWay, ExcuteNonQueryCmd.
  rewrite UpdateWay_cmd_eq. cbn [cmd_sql cmd_params].
  apply (update_way_runs "way" _ way_id _ (updated_way_row way) s tb);
    try done; try (by rewrite Hcols).
  apply (full_rows_5 tb way_columns); try done.
  intros a b c d e. by rewrite Hcols.
Qed.

(** X15. [UpdateWay] on a way table laid out as its CREATE TABLE says, the
    UPDATE not failing: it returns [true] whether or not a row matches; in
    every row of way [way_id] the two links (0 written as NULL) and the two
    speeds are replaced by those of the record, the stored [way_id] stays
    (the [way_id] field of the record is not used); all other rows are
    untouched. *)
Theorem UpdateWay_rows (way_id : Z) (way : Way) (s : SQLiteWrapper)
        (tb : Table) :
  tables s !! "way" = Some tb ->
  columns tb = way_columns ->
  full_rows tb ->
  no_fault s ->
  exists s',
    UpdateWay way_id way s = (Normal true, s')
    /\ tables s'
       = <["way" := set_rows tb
                      (map_rows_of_way way_id (updated_way_row way) (rows tb))]>
           (tables s).
Proof. exact (UpdateWay_rows_holds way_id way s tb). Qed.

Lemma UpdateWay_rows_witness :
  exists s',
    UpdateWay 1 (mkWay 0 4 0 2 5) populated_db = (Normal true, s')
    /\ tables s'
       = <["way" := set_rows (mkTable way_columns way_types (Some "way_id")
                                      [way_row sample_way])
                      (map_rows_of_way 1 (updated_way_row (mkWay 0 4 0 2 5))
                                       [way_row sample_way])]>
           (tables populated_db).
Proof.
  apply (UpdateWay_rows 1 (mkWay 0 4 0 2 5) populated_db
           (mkTable way_columns way_types (Some "way_id") [way_row sample_way])).
  - reflexivity.
  - reflexivity.
  - repeat constructor.
  - vm_compute. discriminate.
Defined.

(** X16. [UpdateWaySpeedLimit] rewrites the two speed columns of the rows of
    the way and nothing else: the links and the way id of these rows stay,
    the other rows stay, and it returns [true] whether or not a row
    matches. *)
Theorem UpdateWaySpeedLimit_rows (way_id speed_min speed_max : Z)
        (s : SQLiteWrapper) (tb : Table) :
  tables s !! "way" = Some tb ->
  columns tb = way_columns ->
  full_rows tb ->
  no_fault s ->
  exists s',
    UpdateWaySpeedLimit way_id speed_min speed_max s = (Normal true, s')
    /\ tables s'
       = <["way" := set_rows tb
                      (map_rows_of_way way_id
                         (updated_speed_row speed_min speed_max) (rows tb))]>
           (tables s).
Proof.
  intros Htb Hcols Hfull Hn. unfold UpdateWaySpeedLimit, ExcuteNonQueryCmd.
  cbn [cmd_sql cmd_params BindParam NewCommand].
  apply (update_way_runs "way" _ way_id _
           (updated_speed_row speed_min speed_max) s tb);
    try done; try (by rewrite Hcols).
  apply (full_rows_5 tb way_columns); try done.
  intros a b c d e. by rewrite Hcols.
Qed.

Lemma UpdateWaySpeedLimit_rows_witness :
  exists s',
    UpdateWaySpeedLimit 1 2 5 populated_db = (Normal true, s')
    /\ tables s'
       = <["way" := set_rows (mkTable way_columns way_types (Some "way_id")
                                      [way_row sample_way])
                      (map_rows_of_way 1 (updated_speed_row 2 5)
                                       [way_row sample_way])]>
           (tables populated_db).
Proof.
  apply (UpdateWaySpeedLimit_rows 1 2 5 populated_db
           (mkTable way_columns way_types (Some "way_id") [way_row sample_way])).
  - reflexivity.
  - reflexivity.
  - repeat constructor.
  - vm_compute. discriminate.
Defined.

(** X17. [UpdateWayData] rewrites the blob, the entry count and the shard id
    of the rows of the way in way_data, keeps their way id and the other
    rows, and returns [true] whether or not a row matches. *)
Theorem UpdateWayData_rows (way_id : Z) (way_data : WayData)
        (s : SQLiteWrapper) (tb : Table) :
  tables s !! "way_data" = Some tb ->
  columns tb = way_data_columns ->
  full_rows tb ->
  no_fault s ->
  exists s',
    UpdateWayData way_id way_data s = (Normal true, s')
    /\ tables s'
       = <["way_data" :=
             set_rows tb
               (map_rows_of_way way_id (updated_way_data_row way_data)
                                (rows tb))]>
           (tables s).
Proof.
  intros Htb Hcols Hfull Hn. unfold UpdateWayData, ExcuteNonQueryCmd.
  cbn [cmd_sql cmd_params BindParam NewCommand].
  apply (update_way_runs "way_data" _ way_id _
           (updated_way_data_row way_data) s tb);
    try done; try (by rewrite Hcols).
  apply (full_rows_4 tb way_data_columns); try done.
  intros a b c d. by rewrite Hcols.
Qed.

Lemma UpdateWayData_rows_witness :
  let s := snd (SaveWayData sample_way_data populated_db) in
  exists s',
    UpdateWayData 1 (mkWayData 0 [Byte.x01] 2 3) s = (Normal true, s')
    /\ tables s'
       = <["way_data" :=
             set_rows (mkTable way_data_columns way_data_types (Some "way_id")
                               [way_data_row sample_way_data])
               (map_rows_of_way 1
                  (updated_way_data_row (mkWayData 0 [Byte.x01] 2 3))
                  [way_data_row sample_way_data])]>
           (tables s).
Proof.
  apply (UpdateWayData_rows 1 (mkWayData 0 [Byte.x01] 2 3)
           (snd (SaveWayData sample_way_data populated_db))
           (mkTable way_data_columns way_data_types (Some "way_id")
                    [way_data_row sample_way_data])).
  - reflexivity.
  - reflexivity.
  - repeat constructor.
  - vm_compute. discriminate.
Defined.

Lemma rows_of_way_map_rows (id : Z) (f : list SqliteValue -> list SqliteValue)
      (rs : list (list SqliteValue)) :
  (forall r, column (f r) 0 = column r 0) ->
  rows_of_way id (map_rows_of_way id f rs) = map f (rows_of_way id rs).
Proof.
  intros Hf. unfold rows_of_way, map_rows_of_way.
  induction rs as [|r rs IH]; [done|]. simpl.
  destruct (of_way id r) eqn:E.
  - assert (of_way id (f r) = true) as -> by (unfold of_way in *; by rewrite Hf).
    simpl. by rewrite IH.
  - by rewrite E.
Qed.

Lemma of_way_column (id : Z) (row : list SqliteValue) :
  of_way id row = true -> column row 0 = VInt id.
Proof.
  unfold of_way. destruct (column row 0); simpl; try discriminate.
  intros H. apply Z.eqb_eq in H. by subst.
Qed.

(** X18. Updating a way and querying it back. After a successful
    [UpdateWay] of a way that has a row in a way table laid out as its
    CREATE TABLE says, [QueryWayWithWayId] finds the way and returns the
    links and speeds of the record given to [UpdateWay], under the way id
    that was addressed (identifiers being unsigned 64-bit values, speeds
    unsigned bytes). *)
Theorem UpdateWay_then_QueryWayWithWayId
        (way_id : Z) (way out : Way) (s s' : SQLiteWrapper) (tb : Table) :
  is_uint64 way_id ->
  is_uint64 (pre_way_id way) ->
  is_uint64 (next_way_id way) ->
  is_uint8 (speed_min way) ->
  is_uint8 (speed_max way) ->
  tables s !! "way" = Some tb ->
  columns tb = way_columns ->
  full_rows tb ->
  rows_of_way way_id (rows tb) <> [] ->
  no_fault s ->
  UpdateWay way_id way s = (Normal true, s') ->
  no_fault s' ->
  fst (QueryWayWithWayId way_id out s')
  = Normal (true,
            mkWay way_id (pre_way_id way) (next_way_id way)
                  (speed_min way) (speed_max way)).
Proof.
  intros Hid Hpre Hnext Hmin8 Hmax8 Htb Hcols Hfull Hsome Hn Hupd Hn'.
  assert (is_uint64 (speed_min way)) as Hmin
      by (unfold is_uint8, is_uint64 in *; lia).
  assert (is_uint64 (speed_max way)) as Hmax
      by (unfold is_uint8, is_uint64 in *; lia).
  destruct (UpdateWay_rows_holds way_id way s tb Htb Hcols Hfull Hn)
    as (s1 & Hrun & Ht).
  rewrite Hupd in Hrun. injection Hrun as <-.
  unfold QueryWayWithWayId. rewrite bind_run.
  pose proof (ExcuteQuery_no_fault
                (SqlSelect None "way" [("way_id", way_id)]) s' Hn') as Hq.
  destruct (ExcuteQuery _ s') as [r s2]. cbn [fst] in Hq. rewrite Hq.
  rewrite (eval_select_way "way" way_id (tables s')
             (set_rows tb (map_rows_of_way way_id (updated_way_row way)
                                           (rows tb)))).
  2: { rewrite Ht. apply lookup_insert_eq. }
  2: { simpl. by rewrite Hcols. }
  cbn [rows set_rows]. rewrite rows_of_way_map_rows by done.
  destruct (exists_last Hsome) as (older & last & Hlast).
  assert (of_way way_id last = true) as Hof.
  { assert (In last (rows_of_way way_id (rows tb))) as Hin
        by (rewrite Hlast; apply in_or_app; right; by left).
    apply filter_In in Hin. tauto. }
  rewrite Hlast, map_app. cbn [map]. unfold ret.
  rewrite (while_Read_last (fun row => QueryWayWithWayId_row (false, out) row)).
  unfold QueryWayWithWayId_row, updated_way_row. cbn [fst].
  do 2 f_equal. f_equal.
  - unfold GetUint64Value. cbn [column nth].
    change (nth 0 last VNull) with (column last 0).
    rewrite (of_way_column _ _ Hof). simpl. by apply wrap64_id.
  - by apply link_value_decode.
  - by apply link_value_decode.
  - unfold GetUint64OrZero, GetDataType, GetUint64Value. simpl.
    by apply wrap64_id.
  - unfold GetUint64OrZero, GetDataType, GetUint64Value. simpl.
    by apply wrap64_id.
Qed.

Lemma UpdateWay_then_QueryWayWithWayId_witness :
  fst (QueryWayWithWayId 1 sample_way
         (snd (UpdateWay 1 (mkWay 0 4 0 2 5) populated_db)))
  = Normal (true, mkWay 1 4 0 2 5).
Proof.
  refine (UpdateWay_then_QueryWayWithWayId 1 (mkWay 0 4 0 2 5) sample_way
            populated_db (snd (UpdateWay 1 (mkWay 0 4 0 2 5) populated_db))
            (mkTable way_columns way_types (Some "way_id") [way_row sample_way])
            _ _ _ _ _ _ _ _ _ _ _ _).
  - unfold is_uint64. simpl. lia.
  - unfold is_uint64. simpl. lia.
  - unfold is_uint64. simpl. lia.
  - unfold is_uint8. simpl. lia.
  - unfold is_uint8. simpl. lia.
  - reflexivity.
  - reflexivity.
  - repeat constructor.
  - vm_compute. discriminate.
  - vm_compute. discriminate.
  - exact (run_pair (UpdateWay 1 (mkWay 0 4 0 2 5)) populated_db
             (Normal true) eq_refl).
  - vm_compute. discriminate.
Defined.

(** ** Primary keys and fresh identifiers *)

Lemma pk_conflict_way_id (tb : Table) (cols : list string)
      (row : list SqliteValue) (id : Z) :
  columns tb = cols ->
  index_of cols "way_id" = Some 0%nat ->
  primary_key tb = Some "way_id" ->
  column row 0 = VInt id ->
  pk_conflict tb row = existsb (of_way id) (rows tb).
Proof.
  intros Hcols Hi Hpk Hrow. unfold pk_conflict.
  by rewrite Hpk, Hcols, Hi, Hrow.
Qed.

Lemma existsb_rows_of_way (id : Z) (rs : list (list SqliteValue)) :
  existsb (of_way id) rs = true <-> rows_of_way id rs <> [].
Proof.
  unfold rows_of_way. induction rs as [|r rs IH]; simpl.
  - split; [discriminate | done].
  - destruct (of_way id r); simpl; [split; [discriminate | done] | exact IH].
Qed.

(** A single-row save whose insert is refused returns [false] and changes
    no table. *)
Lemma save_refused (cmd : SQLiteCommand) (s : SQLiteWrapper) :
  exec (cmd_sql cmd) (cmd_params cmd) (tables s) = None ->
  exists s',
    (do ok <- ExcuteNonQueryCmd cmd;
     ret (if negb ok then false else true)) s = (Normal false, s')
    /\ tables s' = tables s.
Proof.
  intros Hexec. rewrite bind_run. unfold ExcuteNonQueryCmd.
  destruct (ExcuteNonQuery_spec (cmd_sql cmd) (cmd_params cmd) s)
    as (ok & s' & Hrun & _ & _ & Ht).
  rewrite Hrun. destruct ok; [congruence|]. by exists s'.
Qed.

(** X19. The primary key on [way_id] is what rejects a duplicate: [SaveWay]
    of a way whose id already has a row in the way table, and [SaveWayData]
    for a way that already has a row in way_data, return [false] and change
    no table. *)
Theorem duplicate_way_id_rejected (s : SQLiteWrapper) :
  (forall (way : Way) (tb : Table),
      has_table s "way" way_columns (Some "way_id") tb ->
      rows_of_way (way_id way) (rows tb) <> [] ->
      exists s', SaveWay way s = (Normal false, s') /\ tables s' = tables s)
  /\ (forall (wd : WayData) (tb : Table),
         has_table s "way_data" way_data_columns (Some "way_id") tb ->
         rows_of_way (way_data_way_id wd) (rows tb) <> [] ->
         exists s', SaveWayData wd s = (Normal false, s')
                    /\ tables s' = tables s).
Proof.
  split.
  - intros way tb (Htb & Hcols & Hpk) Hdup. apply save_refused.
    replace (cmd_sql (SaveWay_cmd way)) with (SqlInsert "way" way_columns)
      by (by rewrite SaveWay_cmd_eq).
    rewrite (exec_insert _ _ _ _ tb Htb). unfold insert_into.
    rewrite Hcols, insert_row_way.
    change (all_known way_columns way_columns) with true. cbn [negb].
    rewrite (pk_conflict_way_id tb way_columns _ (way_id way)) by done.
    apply existsb_rows_of_way in Hdup. by rewrite Hdup.
  - intros wd tb (Htb & Hcols & Hpk) Hdup. apply save_refused.
    change (cmd_sql (SaveWayData_cmd wd))
      with (SqlInsert "way_data" way_data_columns).
    rewrite (exec_insert _ _ _ _ tb Htb). unfold insert_into.
    rewrite Hcols, insert_row_way_data.
    change (all_known way_data_columns way_data_columns) with true.
    cbn [negb].
    rewrite (pk_conflict_way_id tb way_data_columns _ (way_data_way_id wd))
      by done.
    apply existsb_rows_of_way in Hdup. by rewrite Hdup.
Qed.

Lemma duplicate_way_id_rejected_witness :
  exists s', SaveWay (mkWay 1 2 3 4 5) populated_db = (Normal false, s')
             /\ tables s' = tables populated_db.
Proof.
  destruct (duplicate_way_id_rejected populated_db) as [H _].
  apply (H (mkWay 1 2 3 4 5)
           (mkTable way_columns way_types (Some "way_id") [way_row sample_way])).
  - repeat split.
  - vm_compute. discriminate.
Defined.

Lemma CreateNewWayId_state (out : Z) (s : SQLiteWrapper) :
  snd (CreateNewWayId out s)
  = snd (ExcuteQuery (SqlSelectMax "way_id" "way") s).
Proof.
  unfold CreateNewWayId. rewrite bind_run.
  destruct (ExcuteQuery_spec (SqlSelectMax "way_id" "way") s)
    as (r & s1 & Hrun & _).
  rewrite Hrun. by destruct r.
Qed.

Lemma existsb_of_way_ids (id : Z) (rs : list (list SqliteValue))
      (ids : list Z) :
  map (fun r => column r 0) rs = map VInt ids ->
  existsb (of_way id) rs = bool_decide (id ∈ ids).
Proof.
  revert ids. induction rs as [|r rs IH]; intros ids Hmap.
  - destruct ids; [|discriminate]. reflexivity.
  - destruct ids as [|n ids]; [discriminate|]. cbn [map] in Hmap.
    injection Hmap as Hr Hrest. cbn [existsb]. unfold of_way at 1.
    rewrite Hr. cbn [sql_eqb].
    destruct (n =? id) eqn:E.
    + apply Z.eqb_eq in E. subst. cbn [orb]. symmetry.
      apply bool_decide_eq_true. by left.
    + apply Z.eqb_neq in E. cbn [orb]. rewrite (IH ids Hrest).
      apply bool_decide_ext. rewrite elem_of_cons. split; [tauto|].
      intros [->|H]; [done | exact H].
Qed.

(** A [SaveWay] that is not scheduled to fail succeeds exactly when the way
    table has no row with the id of the way. *)
Lemma SaveWay_result (way : Way) (s : SQLiteWrapper) (tb : Table) :
  has_table s "way" way_columns (Some "way_id") tb ->
  no_fault s ->
  fst (SaveWay way s)
  = Normal (negb (existsb (of_way (way_id way)) (rows tb))).
Proof.
  intros (Htb & Hcols & Hpk) Hn.
  unfold SaveWay, ExcuteNonQueryCmd. rewrite bind_run.
  pose proof (ExcuteNonQuery_no_fault (cmd_sql (SaveWay_cmd way))
                (cmd_params (SaveWay_cmd way)) s Hn) as Hok.
  destruct (ExcuteNonQuery _ _ s) as [ok s2]. cbn [fst] in Hok. rewrite Hok.
  replace (cmd_sql (SaveWay_cmd way)) with (SqlInsert "way" way_columns)
    by (by rewrite SaveWay_cmd_eq).
  rewrite (exec_insert _ _ _ _ tb Htb). unfold insert_into.
  rewrite Hcols, insert_row_way.
  change (all_known way_columns way_columns) with true. cbn [negb].
  rewrite (pk_conflict_way_id tb way_columns _ (way_id way)) by done.
  by destruct (existsb _ _).
Qed.

(** X20. Whether an allocated way id is free. On a way table laid out as
    its CREATE TABLE says, with way ids below 2^63 and no failure,
    [CreateNewWayId] returns 1 for an empty table and otherwise one more
    than the id whose decimal text is the greatest. A [SaveWay] of a way with the returned id right after it
    succeeds exactly when no row has that id. That is so when the id with
    the greatest text is also the greatest id; it is not so in general:
    with the ways 9 and 10 in the table the id returned is 10 and the save
    is refused. *)
Theorem CreateNewWayId_then_SaveWay (out : Z) (s : SQLiteWrapper) (tb : Table)
        (ids : list Z) :
  has_table s "way" way_columns (Some "way_id") tb ->
  column_type tb 0 = TEXT ->
  map (fun r => column r 0) (rows tb) = map VInt ids ->
  Forall fits_int64 ids ->
  no_faults 2 s ->
  exists id,
    fst (CreateNewWayId out s) = Normal (true, id)
    /\ (ids = [] -> id = 1)
    /\ (forall m, is_text_max m ids -> id = m + 1)
    /\ (forall way, way_id way = id ->
                    fst (SaveWay way (snd (CreateNewWayId out s)))
                    = Normal (negb (bool_decide (id ∈ ids))))
    /\ (forall m, is_text_max m ids -> is_max m ids -> id ∉ ids).
Proof.
  intros (Htb & Hcols & Hpk) Hty Hmap Hids Hn.
  destruct (no_faults_S 1 s Hn) as [Hn0 Hn1].
  assert (column_holds tb "way_id" TEXT ids) as Hcol
      by (exists 0%nat; by rewrite Hcols).
  destruct (CreateNewWayId_stores out s tb ids Htb Hcol
              (fits_int64_uint64 ids Hids) Hn0) as [Hempty Hmax'].
  assert (forall m, is_text_max m ids ->
                    fst (CreateNewWayId out s) = Normal (true, m + 1)) as Hmax.
  { intros m Hm. rewrite (Hmax' m Hm), fits_int64_below_max; [done|].
    destruct Hm as [Hin _]. rewrite Forall_forall in Hids.
    apply Hids, list_elem_of_In, Hin. }
  assert (exists id, fst (CreateNewWayId out s) = Normal (true, id)) as [id Hid].
  { pose proof (sql_max_text ids) as Hm. destruct ids as [|a ids].
    - exists 1. by apply Hempty.
    - destruct Hm as (m & _ & Hm). eexists. by apply Hmax. }
  exists id. split; [done|]. split; [|split; [|split]].
  - intros E. specialize (Hempty E). congruence.
  - intros m Hm. specialize (Hmax m Hm). congruence.
  - intros way Hway. rewrite CreateNewWayId_state.
    destruct (ExcuteQuery_spec (SqlSelectMax "way_id" "way") s)
      as (r & s1 & Hrun & _ & _ & Ht & _).
    pose proof (ExcuteQuery_faults (SqlSelectMax "way_id" "way") s) as Hf.
    rewrite Hrun in Hf |- *. cbn [snd] in Hf |- *.
    destruct (no_faults_S 0 s1 (Hn1 s1 Hf)) as [Hns1 _].
    rewrite (SaveWay_result way s1 tb); [|split; [by rewrite Ht|done]|done].
    by rewrite Hway, (existsb_of_way_ids id (rows tb) ids Hmap).
  - intros m Hm [_ Hle] Hin. specialize (Hmax m Hm).
    assert (id = m + 1) as -> by congruence.
    apply list_elem_of_In in Hin. specialize (Hle _ Hin). lia.
Qed.

Lemma CreateNewWayId_then_SaveWay_witness :
  exists id,
    fst (CreateNewWayId 0 two_ways_db) = Normal (true, id)
    /\ id = 10
    /\ forall way, way_id way = id ->
                   fst (SaveWay way (snd (CreateNewWayId 0 two_ways_db)))
                   = Normal false.
Proof.
  destruct (CreateNewWayId_then_SaveWay 0 two_ways_db
              (mkTable way_columns way_types (Some "way_id")
                 [way_row (mkWay 9 0 10 1 1); way_row (mkWay 10 9 0 1 1)])
              [9; 10])
    as (id & Hid & _ & Hmax & Hsave & _).
  - repeat split.
  - reflexivity.
  - reflexivity.
  - repeat constructor; unfold fits_int64; simpl; lia.
  - constructor.
  - assert (id = 10) as ->.
    { apply (Hmax 9). split; [simpl; tauto|].
      intros n [<-|[<-|[]]]; reflexivity. }
    exists 10. split; [exact Hid|]. split; [reflexivity|].
    intros way Hway. rewrite (Hsave way Hway). reflexivity.
Defined.

(** ** Ways: NULL links and speed fields, on the operations *)

(** A call that is one statement uses up one slot of the failure schedule. *)
Lemma one_statement_faults (cmd : SQLiteCommand) (s : SQLiteWrapper) :
  faults (snd ((do ok <- ExcuteNonQueryCmd cmd;
                ret (if negb ok then false else true)) s))
  = tail (faults s).
Proof.
  rewrite bind_run. unfold ExcuteNonQueryCmd.
  pose proof (ExcuteNonQuery_faults (cmd_sql cmd) (cmd_params cmd) s) as Hf.
  destruct (ExcuteNonQuery _ _ s) as [[ok|] s1]; exact Hf.
Qed.

Lemma no_fault_tail (s s1 : SQLiteWrapper) :
  no_faults 2 s -> faults s1 = tail (faults s) -> no_fault s1.
Proof.
  intros Hn Hf. destruct (no_faults_S 1 s Hn) as [_ H].
  by destruct (no_faults_S 0 s1 (H s1 Hf)).
Qed.

(** [SaveWay] of a way whose id has no row yet appends the row of the
    way. *)
Lemma SaveWay_stores (way : Way) (s : SQLiteWrapper) (tb : Table) :
  has_table s "way" way_columns (Some "way_id") tb ->
  rows_of_way (way_id way) (rows tb) = [] ->
  no_fault s ->
  exists s1,
    SaveWay way s = (Normal true, s1)
    /\ faults s1 = tail (faults s)
    /\ tables s1
       = <["way" := set_rows tb (rows tb ++ [way_row way])]> (tables s).
Proof.
  intros Htb Hnew Hn.
  pose proof (SaveWay_result way s tb Htb Hn) as Hres.
  assert (existsb (of_way (way_id way)) (rows tb) = false) as E.
  { destruct (existsb _ _) eqn:E; [|done].
    by apply existsb_rows_of_way in E. }
  rewrite E in Hres. cbn [negb] in Hres.
  exists (snd (SaveWay way s)).
  assert (SaveWay way s = (Normal true, snd (SaveWay way s))) as Hrun
      by (by apply run_pair).
  split; [exact Hrun|]. split.
  - apply one_statement_faults.
  - destruct Htb as (Htb & Hcols & _).
    by apply (SaveWay_appends way s _ tb).
Qed.

(** [QueryWayWithWayId] returns what it reads from the last row of the
    way. *)
Lemma QueryWayWithWayId_last (id : Z) (out : Way) (s : SQLiteWrapper)
      (tb : Table) (older : list (list SqliteValue))
      (row : list SqliteValue) :
  tables s !! "way" = Some tb ->
  columns tb = way_columns ->
  rows_of_way id (rows tb) = older ++ [row] ->
  no_fault s ->
  QueryWayWithWayId id out s
  = (Normal (QueryWayWithWayId_row (false, out) row),
     mkSQLite (tables s) (transaction s) (tail (faults s))
              (calls s ++ [CallQuery (SqlSelect None "way" [("way_id", id)])
                                     true])).
Proof.
  intros Htb Hcols Hrows Hn. unfold QueryWayWithWayId.
  rewrite bind_run, (ExcuteQuery_runs _ s Hn).
  rewrite (eval_select_way "way" id (tables s) tb Htb)
    by (by rewrite Hcols).
  rewrite Hrows. unfold ret.
  by rewrite (while_Read_last (fun r => QueryWayWithWayId_row (false, out) r)).
Qed.

Lemma rows_of_way_new (id : Z) (rs : list (list SqliteValue))
      (row : list SqliteValue) :
  rows_of_way id rs = [] -> column row 0 = VInt id ->
  rows_of_way id (rs ++ [row]) = [] ++ [row].
Proof.
  intros Hnone Hrow. rewrite rows_of_way_app, Hnone. unfold rows_of_way.
  simpl. unfold of_way. rewrite Hrow. simpl. by rewrite Z.eqb_refl.
Qed.

(** Saving a way and reading it back. *)
Lemma SaveWay_then_QueryWayWithWayId (way out : Way) (s : SQLiteWrapper)
      (tb : Table) :
  has_table s "way" way_columns (Some "way_id") tb ->
  rows_of_way (way_id way) (rows tb) = [] ->
  no_faults 2 s ->
  exists s1,
    SaveWay way s = (Normal true, s1)
    /\ tables s1
       = <["way" := set_rows tb (rows tb ++ [way_row way])]> (tables s)
    /\ fst (QueryWayWithWayId (way_id way) out s1)
       = Normal (QueryWayWithWayId_row (false, out) (way_row way)).
Proof.
  intros Htb Hnew Hn. destruct (no_faults_S 1 s Hn) as [Hn0 _].
  destruct (SaveWay_stores way s tb Htb Hnew Hn0) as (s1 & Hrun & Hf & Ht).
  exists s1. split; [done|]. split; [done|].
  destruct Htb as (Htb & Hcols & _).
  rewrite (QueryWayWithWayId_last (way_id way) out s1
             (set_rows tb (rows tb ++ [way_row way])) [] (way_row way));
    try done.
  - rewrite Ht. apply lookup_insert_eq.
  - by apply rows_of_way_new.
  - by apply (no_fault_tail s).
Qed.

(** Updating a way that has a row and reading it back. *)
Lemma UpdateWay_then_QueryWayWithWayId_last (id : Z) (way out : Way)
      (s : SQLiteWrapper) (tb : Table) :
  has_table s "way" way_columns (Some "way_id") tb ->
  full_rows tb ->
  rows_of_way id (rows tb) <> [] ->
  no_faults 2 s ->
  exists s1 last,
    UpdateWay id way s = (Normal true, s1)
    /\ tables s1
       = <["way" := set_rows tb
                      (map_rows_of_way id (updated_way_row way) (rows tb))]>
           (tables s)
    /\ of_way id last = true
    /\ fst (QueryWayWithWayId id out s1)
       = Normal (QueryWayWithWayId_row (false, out)
                   (updated_way_row way last)).
Proof.
  intros (Htb & Hcols & Hpk) Hfull Hsome Hn.
  destruct (no_faults_S 1 s Hn) as [Hn0 _].
  destruct (UpdateWay_rows_holds id way s tb Htb Hcols Hfull Hn0)
    as (s1 & Hrun & Ht).
  destruct (exists_last Hsome) as (older & last & Hlast).
  exists s1, last. split; [done|]. split; [done|].
  assert (of_way id last = true) as Hof.
  { assert (In last (rows_of_way id (rows tb))) as Hin
        by (rewrite Hlast; apply in_or_app; right; by left).
    apply filter_In in Hin. tauto. }
  split; [done|].
  assert (faults s1 = tail (faults s)) as Hf.
  { pose proof (one_statement_faults (UpdateWay_cmd id way) s) as H.
    unfold UpdateWay in Hrun. by rewrite Hrun in H. }
  rewrite (QueryWayWithWayId_last id out s1
             (set_rows tb (map_rows_of_way id (updated_way_row way)
                             (rows tb)))
             (map (updated_way_row way) older) (updated_way_row way last));
    try done.
  - rewrite Ht. apply lookup_insert_eq.
  - cbn [rows set_rows]. rewrite rows_of_way_map_rows by done.
    by rewrite Hlast, map_app.
  - by apply (no_fault_tail s).
Qed.

(** C3. The links of a way and SQL NULL, on a way table laid out as its
    CREATE TABLE says. [SaveWay] of a new way appends the row of the way,
    and [UpdateWay] rewrites the rows of the way it addresses: in both, the
    columns [pre_way_id] and [next_way_id] receive NULL exactly when the
    field is 0 and the value itself otherwise. [QueryWayWithWayId] reads a
    NULL in these columns as 0 and an integer as itself. Hence a way read
    back after [SaveWay] or [UpdateWay] has the links it was written with,
    0 included. *)
Theorem way_links_null_roundtrip (s : SQLiteWrapper) (tb : Table)
        (way out : Way) :
  has_table s "way" way_columns (Some "way_id") tb ->
  full_rows tb ->
  is_uint64 (pre_way_id way) ->
  is_uint64 (next_way_id way) ->
  no_faults 2 s ->
  (rows_of_way (way_id way) (rows tb) = [] ->
   exists s1 way',
     SaveWay way s = (Normal true, s1)
     /\ tables s1
        = <["way" :=
              set_rows tb
                (rows tb
                 ++ [[VInt (way_id way);
                      if pre_way_id way =? 0 then VNull
                      else VInt (pre_way_id way);
                      if next_way_id way =? 0 then VNull
                      else VInt (next_way_id way);
                      VInt (speed_min way); VInt (speed_max way)]])]>
            (tables s)
     /\ fst (QueryWayWithWayId (way_id way) out s1) = Normal (true, way')
     /\ pre_way_id way' = pre_way_id way
     /\ next_way_id way' = next_way_id way)
  /\ (forall id,
         rows_of_way id (rows tb) <> [] ->
         exists s1 way',
           UpdateWay id way s = (Normal true, s1)
           /\ tables s1
              = <["way" :=
                    set_rows tb
                      (map_rows_of_way id
                         (fun row =>
                            [column row 0;
                             if pre_way_id way =? 0 then VNull
                             else VInt (pre_way_id way);
                             if next_way_id way =? 0 then VNull
                             else VInt (next_way_id way);
                             VInt (speed_min way); VInt (speed_max way)])
                         (rows tb))]>
                  (tables s)
           /\ fst (QueryWayWithWayId id out s1) = Normal (true, way')
           /\ pre_way_id way' = pre_way_id way
           /\ next_way_id way' = next_way_id way)
  /\ (forall id older row,
         rows_of_way id (rows tb) = older ++ [row] ->
         exists way',
           fst (QueryWayWithWayId id out s) = Normal (true, way')
           /\ (column row 1 = VNull -> pre_way_id way' = 0)
           /\ (column row 2 = VNull -> next_way_id way' = 0)
           /\ (forall v, is_uint64 v -> column row 1 = VInt v ->
                         pre_way_id way' = v)
           /\ (forall v, is_uint64 v -> column row 2 = VInt v ->
                         next_way_id way' = v)).
Proof.
  intros Htb Hfull Hpre Hnext Hn. split; [|split].
  - intros Hnew.
    destruct (SaveWay_then_QueryWayWithWayId way out s tb Htb Hnew Hn)
      as (s1 & Hrun & Ht & Hq).
    eexists s1, _. split; [done|]. split; [exact Ht|].
    split; [exact Hq|]. split; by apply link_value_decode.
  - intros id Hsome.
    destruct (UpdateWay_then_QueryWayWithWayId_last id way out s tb
                Htb Hfull Hsome Hn) as (s1 & last & Hrun & Ht & _ & Hq).
    eexists s1, _. split; [done|]. split; [exact Ht|].
    split; [exact Hq|]. split; by apply link_value_decode.
  - intros id older row Hrows. destruct Htb as (Htb & Hcols & _).
    destruct (no_faults_S 1 s Hn) as [Hn0 _].
    rewrite (QueryWayWithWayId_last id out s tb older row Htb Hcols Hrows
               Hn0).
    eexists. split; [reflexivity|].
    unfold QueryWayWithWayId_row, GetUint64OrZero, GetDataType,
      GetUint64Value. cbn [snd pre_way_id next_way_id].
    split; [by intros ->|]. split; [by intros ->|].
    split; intros v Hv ->; by apply wrap64_id.
Qed.

Lemma way_links_null_roundtrip_witness :
  (exists s1 way',
      SaveWay sample_way fresh_db = (Normal true, s1)
      /\ tables s1
         = <["way" :=
               set_rows (mkTable way_columns way_types (Some "way_id") [])
                 ([] ++ [[VInt 1; VNull; VInt 7; VInt 0; VInt 3]])]>
             (tables fresh_db)
      /\ fst (QueryWayWithWayId 1 (mkWay 9 9 9 9 9) s1) = Normal (true, way')
      /\ pre_way_id way' = 0
      /\ next_way_id way' = 7)
  /\ (exists s1 way',
         UpdateWay 1 (mkWay 0 4 0 2 5) populated_db = (Normal true, s1)
         /\ tables s1
            = <["way" :=
                  set_rows (mkTable way_columns way_types (Some "way_id")
                                    [way_row sample_way])
                    [[VInt 1; VInt 4; VNull; VInt 2; VInt 5]]]>
                (tables populated_db)
         /\ fst (QueryWayWithWayId 1 (mkWay 9 9 9 9 9) s1)
            = Normal (true, way')
         /\ pre_way_id way' = 4
         /\ next_way_id way' = 0).
Proof.
  split.
  - refine (proj1 (way_links_null_roundtrip fresh_db
                     (mkTable way_columns way_types (Some "way_id") [])
                     sample_way (mkWay 9 9 9 9 9) _ _ _ _ _) _).
    + repeat split.
    + constructor.
    + unfold is_uint64. simpl. lia.
    + unfold is_uint64. simpl. lia.
    + constructor.
    + reflexivity.
  - refine (proj1 (proj2 (way_links_null_roundtrip populated_db
                     (mkTable way_columns way_types (Some "way_id")
                              [way_row sample_way])
                     (mkWay 0 4 0 2 5) (mkWay 9 9 9 9 9) _ _ _ _ _)) 1 _).
    + repeat split.
    + repeat constructor.
    + unfold is_uint64. simpl. lia.
    + unfold is_uint64. simpl. lia.
    + constructor.
    + vm_compute. discriminate.
Defined.

(** C9. The speed fields do not get the NULL treatment on the way out. On a
    way table laid out as its CREATE TABLE says, [SaveWay] and [UpdateWay]
    write [speed_min] and [speed_max] as integers, also when they are 0 --
    whereas a link that is 0 is written as NULL. On the way in,
    [QueryWayWithWayId] reads a NULL in the speed columns as 0. So a row
    whose links and speeds are all NULL, read by [QueryWayWithWayId] and
    written back by [UpdateWay], keeps NULL in its link columns and holds
    the integer 0 in its speed columns. *)
Theorem speed_fields_asymmetric (s : SQLiteWrapper) (tb : Table)
        (way out : Way) :
  has_table s "way" way_columns (Some "way_id") tb ->
  full_rows tb ->
  no_faults 2 s ->
  (speed_min way = 0 -> speed_max way = 0 ->
   pre_way_id way = 0 -> next_way_id way = 0 ->
   (rows_of_way (way_id way) (rows tb) = [] ->
    exists s1,
      SaveWay way s = (Normal true, s1)
      /\ tables s1
         = <["way" :=
               set_rows tb
                 (rows tb
                  ++ [[VInt (way_id way); VNull; VNull; VInt 0; VInt 0]])]>
             (tables s))
   /\ (forall id,
          exists s1,
            UpdateWay id way s = (Normal true, s1)
            /\ tables s1
               = <["way" :=
                     set_rows tb
                       (map_rows_of_way id
                          (fun row =>
                             [column row 0; VNull; VNull; VInt 0; VInt 0])
                          (rows tb))]>
                   (tables s)))
  /\ (rows_of_way (way_id way) (rows tb) = [] ->
      exists s1 row,
        SaveWay way s = (Normal true, s1)
        /\ rows <$> (tables s1 !! "way") = Some (rows tb ++ [row])
        /\ column row 3 = VInt (speed_min way)
        /\ column row 4 = VInt (speed_max way))
  /\ (forall id,
         exists s1 tb1,
           UpdateWay id way s = (Normal true, s1)
           /\ tables s1 !! "way" = Some tb1
           /\ forall row, In row (rows_of_way id (rows tb1)) ->
                          column row 3 = VInt (speed_min way)
                          /\ column row 4 = VInt (speed_max way))
  /\ (forall id older row,
         rows_of_way id (rows tb) = older ++ [row] ->
         column row 1 = VNull -> column row 2 = VNull ->
         column row 3 = VNull -> column row 4 = VNull ->
         exists way' s1,
           fst (QueryWayWithWayId id out s) = Normal (true, way')
           /\ speed_min way' = 0 /\ speed_max way' = 0
           /\ UpdateWay id way' (snd (QueryWayWithWayId id out s))
              = (Normal true, s1)
           /\ tables s1
              = <["way" :=
                    set_rows tb
                      (map_rows_of_way id
                         (fun r => [column r 0; VNull; VNull; VInt 0; VInt 0])
                         (rows tb))]>
                  (tables s)).
Proof.
  intros Htb Hfull Hn.
  destruct (no_faults_S 1 s Hn) as [Hn0 Hn1].
  assert (forall id w, exists s1,
             UpdateWay id w s = (Normal true, s1)
             /\ tables s1
                = <["way" :=
                      set_rows tb (map_rows_of_way id (updated_way_row w)
                                                   (rows tb))]> (tables s))
    as Hupd.
  { intros id w. destruct Htb as (Htb & Hcols & _).
    apply (UpdateWay_rows_holds id w s tb Htb Hcols Hfull Hn0). }
  split; [|split; [|split]].
  - intros Hmin Hmax Hpre Hnext. split.
    + intros Hnew.
      destruct (SaveWay_stores way s tb Htb Hnew Hn0) as (s1 & Hrun & _ & Ht).
      exists s1. split; [done|]. rewrite Ht. unfold way_row, link_value.
      by rewrite Hmin, Hmax, Hpre, Hnext.
    + intros id. destruct (Hupd id way) as (s1 & Hrun & Ht).
      exists s1. split; [done|]. rewrite Ht.
      unfold updated_way_row, link_value.
      by rewrite Hmin, Hmax, Hpre, Hnext.
  - intros Hnew.
    destruct (SaveWay_stores way s tb Htb Hnew Hn0) as (s1 & Hrun & _ & Ht).
    exists s1, (way_row way). split; [done|].
    rewrite Ht, lookup_insert_eq. by repeat split.
  - intros id. destruct (Hupd id way) as (s1 & Hrun & Ht).
    eexists s1, _. split; [done|]. rewrite Ht, lookup_insert_eq.
    split; [reflexivity|]. cbn [rows set_rows]. intros row Hin.
    rewrite rows_of_way_map_rows in Hin by done.
    apply in_map_iff in Hin as (r & <- & _). by split.
  - intros id older row Hrows H1 H2 H3 H4. destruct Htb as (Htb & Hcols & Hpk).
    rewrite (QueryWayWithWayId_last id out s tb older row Htb Hcols Hrows
               Hn0). cbn [fst snd].
    set (s1 := mkSQLite _ _ _ _).
    assert (no_fault s1) as Hns1 by (by apply (no_fault_tail s)).
    destruct (UpdateWay_rows_holds id
                (snd (QueryWayWithWayId_row (false, out) row)) s1 tb
                Htb Hcols Hfull Hns1) as (s2 & Hrun & Ht).
    eexists _, s2. split; [reflexivity|].
    unfold QueryWayWithWayId_row, GetUint64OrZero, GetDataType in *.
    cbn [snd speed_min speed_max pre_way_id next_way_id] in *.
    rewrite H1, H2, H3, H4 in *. cbn [is_null] in *.
    split; [done|]. split; [done|]. split; [exact Hrun|]. exact Ht.
Qed.

Lemma speed_fields_asymmetric_witness :
  let s := snd (SaveWay (mkWay 4 0 0 0 0) fresh_db) in
  (exists s1,
      SaveWay (mkWay 4 0 0 0 0) fresh_db = (Normal true, s1)
      /\ tables s1
         = <["way" :=
               set_rows (mkTable way_columns way_types (Some "way_id") [])
                 ([] ++ [[VInt 4; VNull; VNull; VInt 0; VInt 0]])]>
             (tables fresh_db))
  /\ (exists s1,
         UpdateWay 1 (mkWay 4 0 0 0 0) populated_db = (Normal true, s1)
         /\ tables s1
            = <["way" :=
                  set_rows (mkTable way_columns way_types (Some "way_id")
                                    [way_row sample_way])
                    [[VInt 1; VNull; VNull; VInt 0; VInt 0]]]>
                (tables populated_db)).
Proof.
  split.
  - refine (proj1 (proj1 (speed_fields_asymmetric fresh_db
                     (mkTable way_columns way_types (Some "way_id") [])
                     (mkWay 4 0 0 0 0) (mkWay 9 9 9 9 9) _ _ _)
                     eq_refl eq_refl eq_refl eq_refl) _).
    + repeat split.
    + constructor.
    + constructor.
    + reflexivity.
  - refine (proj2 (proj1 (speed_fields_asymmetric populated_db
                     (mkTable way_columns way_types (Some "way_id")
                              [way_row sample_way])
                     (mkWay 4 0 0 0 0) (mkWay 9 9 9 9 9) _ _ _)
                     eq_refl eq_refl eq_refl eq_refl) 1).
    + repeat split.
    + repeat constructor.
    + constructor.
Defined.

(** A row with NULL in its two speed columns, read and written back. *)
Example null_speeds_come_back_as_zero :
  let s := mkSQLite
             (<["way" := mkTable way_columns way_types (Some "way_id")
                                 [[VInt 1; VNull; VNull; VNull; VNull]]]>
                (tables fresh_db)) None [] [] in
  fst (QueryWayWithWayId 1 (mkWay 9 9 9 9 9) s)
  = Normal (true, mkWay 1 0 0 0 0)
  /\ rows <$> (tables (snd (UpdateWay 1 (mkWay 1 0 0 0 0) s)) !! "way")
     = Some [[VInt 1; VNull; VNull; VInt 0; VInt 0]].
Proof. split; reflexivity. Qed.

(** ** Initialization *)

Lemma InitDatabase_creates_holds (s s1 s' : SQLiteWrapper) :
  transaction s = None ->
  IsTableExisting kTableWay s = (Normal false, s1) ->
  InitDatabase s = (Normal true, s') ->
  forall name,
    tables s' !! name
    = match created_table name with
      | Some tb => Some tb
      | None => tables s !! name
      end
    /\ (is_Some (created_table name) -> tables s !! name = None).
Proof.
  intros Hx Hex Hinit.
  destruct (IsTableExisting_reads kTableWay s)
    as (e & s1' & Hr & Hts & Hx1 & _).
  rewrite Hex in Hr. injection Hr as <- <-.
  unfold InitDatabase in Hinit. rewrite bind_run, Hex in Hinit.
  simpl in Hinit.
  created kTableSpeedLimit s1 Hinit. created kTableWay s0 Hinit.
  created kTableWayNodes s2 Hinit. created kTableWayData s3 Hinit.
  created kTableNaviData s4 Hinit.
  assert (tables s5 !! "speed_limit"
          = Some (mkTable ["id"; "speed"] [INTEGER; INTEGER] (Some "id") [])) as Hsl.
  { rewrite <- Ht3, <- Ht2, <- Ht1, <- Ht0, <- Ht.
    rewrite !lookup_insert_ne by done. apply lookup_insert_eq. }
  assert (transaction s5 = None) as Hnone by congruence.
  destruct (transactional_save FillTableSpeedLimit_bind
              FillTableSpeedLimit_range
              (NewCommand (SqlInsert "speed_limit" ["id"; "speed"])) s5 Hnone)
    as (res & s6 & done_ & Hfill & _ & _ & _ & Hnone6 & Hres).
  rewrite bind_run in Hinit. unfold FillTableSpeedLimit in Hinit.
  rewrite Hfill in Hinit. destruct res; unfold ret in Hinit; simpl in Hinit;
    [|discriminate].
  assert (s6 = s') as -> by congruence.
  destruct Hres as [_ Hall].
  rewrite (apply_all_table "speed_limit" _ _ _ _ Hsl seed_batch_on_new_table)
    in Hall.
  injection Hall as Hall.
  rewrite Hts in *.
  intros name. unfold created_table. rewrite <- Hall.
  repeat case_decide; subst.
  - split; [apply lookup_insert_eq | done].
  - rewrite lookup_insert_ne by done. rewrite <- Ht3, <- Ht2, <- Ht1, <- Ht0.
    rewrite !lookup_insert_ne by done. rewrite lookup_insert_eq.
    split; [done|]. intros _.
    rewrite <- Ht in Heqo0. by rewrite lookup_insert_ne in Heqo0.
  - rewrite lookup_insert_ne by done. rewrite <- Ht3, <- Ht2, <- Ht1.
    rewrite !lookup_insert_ne by done. rewrite lookup_insert_eq.
    split; [done|]. intros _.
    rewrite <- Ht0, <- Ht in Heqo1. by rewrite !lookup_insert_ne in Heqo1.
  - rewrite lookup_insert_ne by done. rewrite <- Ht3, <- Ht2.
    rewrite !lookup_insert_ne by done. rewrite lookup_insert_eq.
    split; [done|]. intros _.
    rewrite <- Ht1, <- Ht0, <- Ht in Heqo2.
    by rewrite !lookup_insert_ne in Heqo2.
  - rewrite lookup_insert_ne by done. rewrite <- Ht3.
    rewrite lookup_insert_eq. split; [done|]. intros _.
    rewrite <- Ht2, <- Ht1, <- Ht0, <- Ht in Heqo3.
    by rewrite !lookup_insert_ne in Heqo3.
  - rewrite <- Ht3, <- Ht2, <- Ht1, <- Ht0, <- Ht.
    rewrite !lookup_insert_ne by done. split; [done|].
    intros [? ?]. discriminate.
Qed.

(** X21. What a creating [InitDatabase] leaves. When [InitDatabase] finds
    no way table and returns [true], none of the five tables existed
    before, and afterwards the catalog holds, beside the tables it held
    before, exactly the five: speed_limit with its seed, and way, way_nodes,
    way_data and navi_data, each empty, with the columns and the primary key
    of its CREATE TABLE. *)
Theorem InitDatabase_creates (s s1 s' : SQLiteWrapper) :
  transaction s = None ->
  IsTableExisting kTableWay s = (Normal false, s1) ->
  InitDatabase s = (Normal true, s') ->
  forall name,
    tables s' !! name
    = match created_table name with
      | Some tb => Some tb
      | None => tables s !! name
      end
    /\ (is_Some (created_table name) -> tables s !! name = None).
Proof. exact (InitDatabase_creates_holds s s1 s'). Qed.

Lemma InitDatabase_creates_witness :
  (tables fresh_db !! "way_data"
   = match created_table "way_data" with
     | Some tb => Some tb
     | None => tables empty_db !! "way_data"
     end
   /\ (is_Some (created_table "way_data") ->
       tables empty_db !! "way_data" = None))
  /\ (tables fresh_db !! "navi_data_0"
      = match created_table "navi_data_0" with
        | Some tb => Some tb
        | None => tables empty_db !! "navi_data_0"
        end
      /\ (is_Some (created_table "navi_data_0") ->
          tables empty_db !! "navi_data_0" = None)).
Proof.
  split.
  - apply (InitDatabase_creates empty_db
             (snd (IsTableExisting kTableWay empty_db)) fresh_db).
    + reflexivity.
    + exact (run_pair (IsTableExisting kTableWay) empty_db (Normal false)
               eq_refl).
    + exact (run_pair InitDatabase empty_db (Normal true) eq_refl).
  - apply (InitDatabase_creates empty_db
             (snd (IsTableExisting kTableWay empty_db)) fresh_db).
    + reflexivity.
    + exact (run_pair (IsTableExisting kTableWay) empty_db (Normal false)
               eq_refl).
    + exact (run_pair InitDatabase empty_db (Normal true) eq_refl).
Defined.

(** X22. [InitDatabase] is idempotent. After an [InitDatabase] that created
    the schema, a second [InitDatabase] whose catalog query does not fail
    returns [true] and changes no table: the five tables and the seed stay
    as they are. *)
Theorem InitDatabase_idempotent (s s1 s' : SQLiteWrapper) :
  transaction s = None ->
  IsTableExisting kTableWay s = (Normal false, s1) ->
  InitDatabase s = (Normal true, s') ->
  no_fault s' ->
  Z.of_nat (size (tables s')) < 2 ^ 31 ->
  exists s'', InitDatabase s' = (Normal true, s'')
              /\ tables s'' = tables s'.
Proof.
  intros Hx Hex Hinit Hn Hsz.
  destruct (InitDatabase_creates_holds s s1 s' Hx Hex Hinit "way")
    as [Hway _].
  assert (is_Some (tables s' !! "way")) as Hsome.
  { rewrite Hway. unfold created_table. repeat case_decide; try done; eauto. }
  pose proof (IsTableExisting_present kTableWay "way" s' eq_refl Hsome Hn Hsz)
    as Hyes.
  destruct (IsTableExisting_reads kTableWay s')
    as (e & s2 & Hrun & Ht & _).
  rewrite Hrun in Hyes. cbn [fst] in Hyes.
  assert (e = true) as -> by congruence.
  exists s2. split; [|done].
  unfold InitDatabase. by rewrite bind_run, Hrun.
Qed.

Lemma InitDatabase_idempotent_witness :
  exists s'', InitDatabase fresh_db = (Normal true, s'')
              /\ tables s'' = tables fresh_db.
Proof.
  apply (InitDatabase_idempotent empty_db
           (snd (IsTableExisting kTableWay empty_db)) fresh_db).
  - reflexivity.
  - exact (run_pair (IsTableExisting kTableWay) empty_db (Normal false)
             eq_refl).
  - exact (run_pair InitDatabase empty_db (Normal true) eq_refl).
  - vm_compute. discriminate.
  - vm_compute. reflexivity.
Defined.

(** ** Edges of the existence test and of the shard selection *)

(** X23. The existence test matches with LIKE, and the underscore of a table
    name is a wildcard there: a catalog that holds a table named [way],
    any one character, [nodes] makes [IsTableExisting(kTableWayNodes)]
    answer [true], whether or not a table named way_nodes exists. *)
Theorem IsTableExisting_underscore_is_wildcard
        (c : ascii) (s : SQLiteWrapper) :
  is_Some (tables s !! ("way" +:+ String c "nodes")) ->
  no_fault s ->
  Z.of_nat (size (tables s)) < 2 ^ 31 ->
  fst (IsTableExisting kTableWayNodes s) = Normal true.
Proof.
  intros Hin Hn Hsz. unfold IsTableExisting.
  change (kMaxNumberOfTables <=? kTableWayNodes)%nat with false. cbn iota.
  unfold bind, at_.
  change (kTableNames !! kTableWayNodes) with (Some "way_nodes").
  unfold ret at 1.
  pose proof (ExcuteQuery_no_fault (SqlSelectCountMaster "way_nodes") s Hn)
    as Hq.
  destruct (ExcuteQuery (SqlSelectCountMaster "way_nodes") s) as [r s1].
  simpl in Hq. subst r. simpl.
  assert (like "way_nodes" ("way" +:+ String c "nodes") = true) as Hlike.
  { reflexivity. }
  pose proof (count_master_like (tables s) "way_nodes" _ Hin Hlike)
    as [H1 H2].
  unfold ret, GetIntValue, column. simpl. rewrite wrap_int_small by lia.
  replace (0 <? _) with true; [done|]. symmetry. apply Z.ltb_lt. lia.
Qed.

Lemma IsTableExisting_underscore_is_wildcard_witness :
  let s := mkSQLite {["wayXnodes" := mkTable [] [] None []]} None [] [] in
  tables s !! "way_nodes" = None
  /\ fst (IsTableExisting kTableWayNodes s) = Normal true.
Proof.
  split; [reflexivity|].
  apply (IsTableExisting_underscore_is_wildcard "X"
           (mkSQLite {["wayXnodes" := mkTable [] [] None []]} None [] [])).
  - vm_compute. eauto.
  - vm_compute. discriminate.
  - vm_compute. reflexivity.
Defined.

(** ** Tables the component never makes *)

Lemma exec_without (sql : Statement) (params : gmap nat SqliteValue)
      (tbls tbls' : gmap string Table) (t : string) :
  creates sql t = false ->
  exec sql params tbls = Some tbls' ->
  tbls !! t = None ->
  tbls' !! t = None.
Proof.
  intros Hc Hexec Hnone.
  destruct sql as [|name cols pk|t' cols|t' sc wc|t' wc];
    simpl in Hexec, Hc.
  - congruence.
  - apply String.eqb_neq in Hc. destruct (tbls !! name); [discriminate|].
    injection Hexec as <-. by rewrite lookup_insert_ne.
  - destruct (tbls !! t') eqn:E; [|discriminate].
    destruct (insert_into _ _ _); [|discriminate].
    injection Hexec as <-. rewrite lookup_insert_ne; [done|]. congruence.
  - destruct (tbls !! t') as [tb'|] eqn:E; [|discriminate].
    destruct (index_of (columns tb') wc); [|discriminate].
    destruct (negb _); [discriminate|].
    injection Hexec as <-. rewrite lookup_insert_ne; [done|]. congruence.
  - destruct (tbls !! t') as [tb'|] eqn:E; [|discriminate].
    destruct (index_of (columns tb') wc); [|discriminate].
    injection Hexec as <-. rewrite lookup_insert_ne; [done|]. congruence.
Qed.

Lemma keeps_without_ExcuteQuery (t : string) (q : Query) :
  keeps (without_table t) (ExcuteQuery q).
Proof.
  intros s [Hn Hsnap].
  destruct (ExcuteQuery_spec q s) as (r & s1 & Hrun & _ & Hx & Ht & _).
  rewrite Hrun. simpl. split; [by rewrite Ht|]. by rewrite Hx.
Qed.

Lemma keeps_without_ExcuteNonQuery (t : string) (sql : Statement)
      (params : gmap nat SqliteValue) :
  creates sql t = false ->
  keeps (without_table t) (ExcuteNonQuery sql params).
Proof.
  intros Hc s [Hn Hsnap].
  destruct (ExcuteNonQuery_spec sql params s) as (ok & s1 & Hrun & _ & Hx & Ht).
  rewrite Hrun. simpl. split; [|by rewrite Hx].
  destruct ok; [|by rewrite Ht].
  by apply (exec_without sql params (tables s)).
Qed.

Lemma keeps_without_BeginTransaction (t : string) :
  keeps (without_table t) BeginTransaction.
Proof.
  intros s [Hn Hsnap]. unfold BeginTransaction. simpl. split; [done|].
  intros snap. destruct (transaction s) as [old|] eqn:E.
  - intros [= <-]. by apply Hsnap.
  - by intros [= <-].
Qed.

Lemma keeps_without_finish_transaction (t : string) (res : bool) :
  keeps (without_table t) (finish_transaction res).
Proof.
  intros s [Hn Hsnap]. unfold finish_transaction.
  destruct res; rewrite bind_run; simpl.
  - by split.
  - split; [|done]. destruct (transaction s) as [old|]; [by apply Hsnap|done].
Qed.

Lemma keeps_without_insert_each {A} (t : string)
      (bind_row : A -> SQLiteCommand -> SQLiteCommand) (items : list A) :
  (forall x c, cmd_sql (bind_row x c) = cmd_sql c) ->
  forall cmd,
    creates (cmd_sql cmd) t = false ->
    keeps (without_table t) (insert_each bind_row items cmd).
Proof.
  intros Hsql. induction items as [|x items IH]; intros cmd Hc.
  - apply keeps_ret.
  - cbn [insert_each]. apply keeps_bind.
    + unfold ExcuteNonQueryCmd. apply keeps_without_ExcuteNonQuery.
      by rewrite Hsql.
    + intros ok. destruct ok; cbn [negb]; [|apply keeps_ret].
      apply IH. by rewrite Hsql.
Qed.

Lemma CreateTable_sql_creates (i : nat) (t : string) :
  ~ In t kTableNames -> creates (CreateTable_sql i) t = false.
Proof.
  intros Hnot.
  do 5 (destruct i as [|i];
        [apply String.eqb_neq; intros <-; apply Hnot; simpl; tauto|]).
  reflexivity.
Qed.

(** Splits a call into driver calls none of which creates the table. *)
Ltac without Hnot :=
  keep_by ltac:(first
    [ apply keeps_without_ExcuteQuery
    | apply keeps_without_BeginTransaction
    | apply keeps_without_finish_transaction
    | apply keeps_without_insert_each; [intros ? ?; reflexivity | reflexivity]
    | apply keeps_without_ExcuteNonQuery;
      first [ apply (CreateTable_sql_creates _ _ Hnot)
            | repeat match goal with
                     | |- context [if ?c then _ else _] => destruct c
                     end; reflexivity ] ]).

(** No call of the component creates a table outside the fixed set. *)
Lemma state_after_without (op : Operation) (t : string) (s : SQLiteWrapper) :
  ~ In t kTableNames ->
  without_table t s -> without_table t (state_after op s).
Proof.
  intros Hnot Hs.
  assert (forall A (m : Op A), keeps (without_table t) m ->
            without_table t (snd (m s))) as Hsnd
      by (intros A m Hm; exact (Hm s Hs)).
  destruct op; simpl; apply Hsnd.
  - unfold InitDatabase, IsTableExisting, CreateTable, FillTableSpeedLimit.
    without Hnot.
  - unfold IsTableExisting. without Hnot.
  - unfold CreateTable. without Hnot.
  - unfold FillTableSpeedLimit. without Hnot.
  - unfold SaveWay, ExcuteNonQueryCmd, SaveWay_cmd. without Hnot.
  - unfold SaveWayNodes. without Hnot.
  - unfold SaveWayData, ExcuteNonQueryCmd. without Hnot.
  - unfold SaveNaviData. without Hnot.
  - unfold QueryNaviDataWithWayId. without Hnot.
  - unfold QueryNaviDataWithWayIdAndIndex. without Hnot.
  - unfold QueryWayNodesWithWayId. without Hnot.
  - unfold QueryWayWithWayId. without Hnot.
  - unfold QueryWayDataWithWayId. without Hnot.
  - unfold UpdateWay, ExcuteNonQueryCmd, UpdateWay_cmd. without Hnot.
  - unfold UpdateWaySpeedLimit, ExcuteNonQueryCmd. without Hnot.
  - unfold UpdateWayNodes, SaveWayNodes, ExcuteNonQueryCmd. without Hnot.
  - unfold UpdateWayData, ExcuteNonQueryCmd. without Hnot.
  - unfold UpdateNaviData, SaveNaviData, ExcuteNonQueryCmd. without Hnot.
  - unfold DeleteWay, DeleteWayNodes, DeleteWayData, DeleteNaviData,
      ExcuteNonQueryCmd. without Hnot.
  - unfold DeleteWayNodes, ExcuteNonQueryCmd. without Hnot.
  - unfold DeleteWayData, ExcuteNonQueryCmd. without Hnot.
  - unfold DeleteNaviData, ExcuteNonQueryCmd. without Hnot.
  - unfold CreateNewWayId. without Hnot.
  - unfold GetNaviTableId. without Hnot.
Qed.

Lemma state_after_all_without (ops : list Operation) (t : string) :
  ~ In t kTableNames ->
  forall s, without_table t s -> without_table t (state_after_all ops s).
Proof.
  intros Hnot. unfold state_after_all.
  induction ops as [|op ops IH]; intros s Hs; [done|].
  simpl. apply IH. by apply state_after_without.
Qed.

(** The name of a shard table is none of the five fixed names. *)
Lemma shard_name_not_fixed (suffix : string) :
  ~ In ("navi_data_" +:+ suffix) kTableNames.
Proof.
  intros [H|[H|[H|[H|[H|[]]]]]]; simpl in H; discriminate.
Qed.

(** X24. The shard table is not made by the component. [GetNaviTableId]
    whose first query succeeds but whose shard table
    [navi_data_<current shard>] does not exist returns [false] and leaves
    the output parameter as it was (the current shard being the
    [navi_table_id] of way_data with the greatest decimal text, 0 when there
    is none; shard ids below 2^63). And no call of the component creates that table: after any
    sequence of calls it is still missing. *)
Theorem GetNaviTableId_without_shard (out : Z) (s : SQLiteWrapper)
        (way_data : Table) (ids : list Z) (cur : Z) :
  tables s !! "way_data" = Some way_data ->
  column_holds way_data "navi_table_id" TEXT ids ->
  Forall fits_int64 ids ->
  text_max_or_zero cur ids ->
  tables s !! ("navi_data_" +:+ to_string cur) = None ->
  transaction s = None ->
  no_fault s ->
  fst (GetNaviTableId out s) = Normal (false, out)
  /\ forall ops : list Operation,
      tables (state_after_all ops s) !! ("navi_data_" +:+ to_string cur)
      = None.
Proof.
  intros Hwd Hcol Hids Hcur Hshard Hx Hn. split.
  - unfold GetNaviTableId. rewrite bind_run.
    pose proof (ExcuteQuery_no_fault
                  (SqlSelectMax "navi_table_id" "way_data") s Hn) as Hq.
    destruct (ExcuteQuery_spec (SqlSelectMax "navi_table_id" "way_data") s)
      as (r & s1 & Hrun & _ & _ & Ht & _).
    rewrite Hrun in Hq |- *. cbn [fst] in Hq.
    assert (r = eval (SqlSelectMax "navi_table_id" "way_data") (tables s))
      as -> by congruence.
    destruct (GetNaviTableId_current s way_data ids cur Hwd Hcol
                (fits_int64_uint64 ids Hids) Hcur)
      as [-> ->].
    rewrite bind_run.
    destruct (ExcuteQuery_spec
                (SqlSelectCount ("navi_data_" +:+ to_string cur)) s1)
      as (r2 & s2 & Hrun2 & _ & _ & _ & Hr2).
    rewrite Hrun2.
    assert (r2 = None) as ->.
    { destruct Hr2 as [->| ->]; [done|]. simpl. by rewrite Ht, Hshard. }
    reflexivity.
  - intros ops.
    assert (without_table ("navi_data_" +:+ to_string cur) s) as Hw.
    { split; [done|]. intros snap. rewrite Hx. discriminate. }
    exact (proj1 (state_after_all_without ops _ (shard_name_not_fixed _)
                    s Hw)).
Qed.

Lemma GetNaviTableId_without_shard_witness :
  let s := snd (SaveWayData (mkWayData 10 [] 1 10)
                  (snd (SaveWayData (mkWayData 9 [] 1 9) two_ways_db))) in
  fst (GetNaviTableId 7 s) = Normal (false, 7)
  /\ forall ops : list Operation,
      tables (state_after_all ops s) !! "navi_data_9" = None.
Proof.
  refine (GetNaviTableId_without_shard 7
            (snd (SaveWayData (mkWayData 10 [] 1 10)
                    (snd (SaveWayData (mkWayData 9 [] 1 9) two_ways_db))))
            (mkTable way_data_columns way_data_types (Some "way_id")
                     [way_data_row (mkWayData 9 [] 1 9);
                      way_data_row (mkWayData 10 [] 1 10)])
            [9; 10] 9 _ _ _ _ _ _ _).
  - reflexivity.
  - exists 3%nat. repeat split.
  - repeat constructor; unfold fits_int64; simpl; lia.
  - right. split; [simpl; tauto|]. intros n [<-|[<-|[]]]; reflexivity.
  - reflexivity.
  - reflexivity.
  - vm_compute. discriminate.
Defined.

(** On a database that only the component has written the count query
    fails and nothing is stored. *)
Example GetNaviTableId_without_shard_table :
  fst (GetNaviTableId 9 fresh_db) = Normal (false, 9).
Proof. reflexivity. Qed.

(** ** Saving without a table *)

Lemma save_into_missing_table {A}
      (bind_row : A -> SQLiteCommand -> SQLiteCommand) (x : A)
      (rest : list A) (cmd : SQLiteCommand) (s : SQLiteWrapper)
      (t : string) (cols : list string) :
  cmd_sql (bind_row x cmd) = SqlInsert t cols ->
  tables s !! t = None ->
  transaction s = None ->
  exists s',
    (do _ <- BeginTransaction;
     do res <- insert_each bind_row (x :: rest) cmd;
     finish_transaction res) s = (Normal false, s')
    /\ tables s' = tables s
    /\ calls s'
       = calls s ++ [CallBegin;
                     CallNonQuery (SqlInsert t cols)
                                  (cmd_params (bind_row x cmd)) false;
                     CallRollback].
Proof.
  intros Hsql Hnone Hx. rewrite bind_run. unfold BeginTransaction.
  rewrite Hx. cbn iota. rewrite bind_run. cbn [insert_each].
  rewrite bind_run. unfold ExcuteNonQueryCmd. rewrite Hsql.
  match goal with
  | |- context [ExcuteNonQuery ?sql ?p ?st] =>
      destruct (ExcuteNonQuery_spec sql p st)
        as (ok & s1 & Hrun & Hc & Hx1 & Ht)
  end.
  rewrite Hrun. destruct ok.
  { exfalso. simpl in Ht. rewrite Hnone in Ht. discriminate. }
  cbn [negb]. unfold ret at 1. cbn iota. unfold finish_transaction.
  rewrite bind_run. unfold RollbackTransaction. cbn iota.
  simpl in Hc, Hx1, Ht.
  eexists. split; [reflexivity|]. cbn [tables calls].
  rewrite Hx1, Hc. split; [done|]. by rewrite <- !app_assoc.
Qed.

(** X25. Saving children when their table is missing. [SaveWayNodes] with at
    least one node into a database without a way_nodes table, and
    [SaveNaviData] with at least one entry into a database without a
    navi_data table, return [false] after BEGIN, one refused INSERT (the
    first row only) and ROLLBACK, and change no table. *)
Theorem save_children_without_table (s : SQLiteWrapper) :
  transaction s = None ->
  (forall (id : Z) (node : Node) (more : list Node),
      tables s !! "way_nodes" = None ->
      exists s',
        SaveWayNodes (mkWayNodes id (node :: more)) s = (Normal false, s')
        /\ tables s' = tables s
        /\ calls s'
           = calls s
             ++ [CallBegin;
                 CallNonQuery (SqlInsert "way_nodes" way_nodes_columns)
                              (<[4%nat := VText (node_value node)]>
                                 (<[3%nat := VInt (data_line_number node)]>
                                    (<[2%nat := VInt (node_index node)]>
                                       {[1%nat := VInt id]}))) false;
                 CallRollback])
  /\ (forall (id : Z) (entry : NaviData) (more : list NaviData),
         tables s !! "navi_data" = None ->
         exists s',
           SaveNaviData (mkNaviInfo id (entry :: more)) s = (Normal false, s')
           /\ tables s' = tables s
           /\ calls s'
              = calls s
                ++ [CallBegin;
                    CallNonQuery (SqlInsert "navi_data" navi_data_columns)
                                 (<[3%nat := VBlob (data entry)]>
                                    (<[2%nat := VInt (navi_index entry)]>
                                       {[1%nat := VInt id]})) false;
                    CallRollback]).
Proof.
  intros Hx. split.
  - intros id node more Hnone.
    apply (save_into_missing_table SaveWayNodes_bind node more
             (SaveWayNodes_cmd (mkWayNodes id (node :: more))) s
             "way_nodes" way_nodes_columns); done.
  - intros id entry more Hnone.
    apply (save_into_missing_table SaveNaviData_bind entry more
             (SaveNaviData_cmd (mkNaviInfo id (entry :: more))) s
             "navi_data" navi_data_columns); done.
Qed.

Lemma save_children_without_table_witness :
  exists s',
    SaveWayNodes sample_nodes empty_db = (Normal false, s')
    /\ tables s' = tables empty_db
    /\ calls s'
       = calls empty_db
         ++ [CallBegin;
             CallNonQuery (SqlInsert "way_nodes" way_nodes_columns)
                          (<[4%nat := VText "a"]>
                             (<[3%nat := VInt 10]>
                                (<[2%nat := VInt 0]>
                                   {[1%nat := VInt 1]}))) false;
             CallRollback].
Proof.
  destruct (save_children_without_table empty_db eq_refl) as [H _].
  apply (H 1 (mkNode 0 10 "a") [mkNode 1 11 "b"; mkNode 2 12 "c"]).
  reflexivity.
Defined.

(** X26. [CreateTable] for a table of the fixed set that already exists
    returns [false] (the CREATE TABLE statements have no IF NOT EXISTS),
    leaves the catalog and the rows of the table as they are, and does not
    throw. *)
Theorem CreateTable_existing (i : nat) (name : string) (s : SQLiteWrapper) :
  kTableNames !! i = Some name ->
  is_Some (tables s !! name) ->
  exists s', CreateTable i s = (Normal false, s') /\ tables s' = tables s.
Proof.
  intros Hi [tb Htb].
  assert (i < kMaxNumberOfTables)%nat as Hlt
      by (apply lookup_lt_Some in Hi; exact Hi).
  destruct (CreateTable_valid i s Hlt) as (ok & s' & Hrun & _ & _ & Ht).
  exists s'. destruct ok; [exfalso|done].
  do 5 (destruct i as [|i];
        [injection Hi as <-; simpl in Ht; rewrite Htb in Ht; discriminate|]).
  discriminate.
Qed.

Lemma CreateTable_existing_witness :
  exists s', CreateTable kTableSpeedLimit fresh_db = (Normal false, s')
             /\ tables s' = tables fresh_db.
Proof.
  apply (CreateTable_existing kTableSpeedLimit "speed_limit" fresh_db).
  - reflexivity.
  - vm_compute. eauto.
Defined.
